(** * bbfmux: the Bound Book Format command-line tool (src/src/bbfenc.cpp)

    A shallow embedding of the reader class [BBFReader] and of [main]
    (argument parsing, info, verify, extract and mux), and theorems about
    the properties the specification states for them.

    Conventions.
    - A C++ [char] is an [ascii]; a [std::string] is a [string]; a
      [std::vector<char>] and the contents of a file are a [list ascii].
    - A fixed-width unsigned integer is a [Z] with its wrap-around written
      out ([u8], [u32], [u64]).
    - Memory is idealised: an allocation of a size a vector can have
      never fails.  A [std::vector<char>] asked for more than [max_size]
      elements throws [std::length_error], which the program never
      catches; that is modelled.
    - Where the C++ program has undefined behaviour (an index outside a
      vector, a C string without its terminator) the model says so with an
      explicit outcome instead of inventing a value. *)

From Stdlib Require Import ZArith String Ascii List Bool Lia.
From stdpp Require Import base option list gmap strings pretty sorting.

Local Open Scope string_scope.
Local Open Scope list_scope.
Local Open Scope Z_scope.

(* ===================================================================== *)
(** ** Machine integers *)
(* ===================================================================== *)

Definition u8 (z : Z) : Z := z mod 2 ^ 8.
Definition u32 (z : Z) : Z := z mod 2 ^ 32.
Definition u64 (z : Z) : Z := z mod 2 ^ 64.

(** Conversion of a 64-bit unsigned value to [std::streamoff] /
    [std::streamsize] (signed 64-bit). *)
Definition to_streamoff (z : Z) : Z :=
  let w := u64 z in if w <? 2 ^ 63 then w else w - 2 ^ 64.

(** [0xFFFFFFFF], the parent index of a section without a parent. *)
Definition NO_PARENT : Z := 4294967295.

(** [std::vector<char>::max_size()], the largest [std::ptrdiff_t]: a
    vector of more elements cannot be asked for, the constructor and
    [resize] throw [std::length_error] instead. *)
Definition max_size : Z := 2 ^ 63 - 1.

(* ===================================================================== *)
(** ** Characters and strings *)
(* ===================================================================== *)

Definition NUL : ascii := Ascii.zero.
Definition dquote : ascii := Eval vm_compute in ascii_of_nat 34.
Definition newline : ascii := Eval vm_compute in ascii_of_nat 10.
Definition nl : string := String newline EmptyString.

Definition bytes_of (s : string) : list ascii := list_ascii_of_string s.
Definition str_of (l : list ascii) : string := string_of_list_ascii l.

Definition zeros (n : Z) : list ascii := replicate (Z.to_nat n) NUL.

(** [s.size()] *)
Definition size (s : string) : Z := Z.of_nat (String.length s).

(** [s.front()] and [s.back()] (only used on strings of two characters or
    more). *)
Definition front (s : string) : option ascii := String.get 0 s.
Definition back (s : string) : option ascii :=
  String.get (String.length s - 1) s.

(** [s.substr(pos)] and [s.substr(pos, n)] for [pos <= s.size()]. *)
Definition substr_from (pos : nat) (s : string) : string :=
  String.substring pos (String.length s - pos) s.
Definition substr (pos n : nat) (s : string) : string :=
  String.substring pos (Nat.min n (String.length s - pos)) s.

(** [s.find(pat) == 0] *)
Definition find_at_0 (pat s : string) : bool :=
  bool_decide (String.index 0 pat s = Some 0%nat).

(** Lines 152-159. *)
Definition trimQuotes (s : string) : string :=
  if (2 <=? size s)
     && bool_decide (front s = Some dquote)
     && bool_decide (back s = Some dquote)
  then substr 1 (String.length s - 2) s
  else s.

(** The loop of lines 225-232: [val] cut at every [':'].  [cur] is the
    part read since the last separator. *)
Fixpoint split_colon (val : string) (cur : string) : list string :=
  match val with
  | EmptyString => [cur]
  | String c rest =>
      if bool_decide (c = ":"%char)
      then cur :: split_colon rest EmptyString
      else split_colon rest (cur +:+ String c EmptyString)
  end.

(** [val.find(':')] *)
Fixpoint find_colon (val : string) : option nat :=
  match val with
  | EmptyString => None
  | String c rest =>
      if bool_decide (c = ":"%char) then Some 0%nat
      else S <$> find_colon rest
  end.

(** *** [std::stoi]

    Leading white space is skipped, an optional sign is read, then the
    longest run of decimal digits; what follows is ignored.  [None] stands
    for the exception the function throws: [std::invalid_argument] when
    there is no digit, [std::out_of_range] when the value does not fit an
    [int]. *)
Definition is_space (c : ascii) : bool :=
  let n := nat_of_ascii c in
  bool_decide (n = 32 ∨ (9 ≤ n ∧ n ≤ 13))%nat.

Definition digit_of (c : ascii) : option Z :=
  let n := Z.of_nat (nat_of_ascii c) in
  if (48 <=? n) && (n <=? 57) then Some (n - 48) else None.

Fixpoint skip_spaces (s : string) : string :=
  match s with
  | String c rest => if is_space c then skip_spaces rest else s
  | EmptyString => s
  end.

(** The digits at the head of [s], most significant first; [acc] is the
    value of those read so far and [seen] says whether there was one. *)
Fixpoint read_digits (s : string) (acc : Z) (seen : bool) : option Z :=
  match s with
  | String c rest =>
      match digit_of c with
      | Some d => read_digits rest (10 * acc + d) true
      | None => if seen then Some acc else None
      end
  | EmptyString => if seen then Some acc else None
  end.

Definition stoi (s : string) : option Z :=
  let s1 := skip_spaces s in
  let '(neg, s2) :=
    match s1 with
    | String c rest =>
        if bool_decide (c = "-"%char) then (true, rest)
        else if bool_decide (c = "+"%char) then (false, rest)
        else (false, s1)
    | EmptyString => (false, s1)
    end in
  match read_digits s2 0 false with
  | Some v =>
      let v' := if neg then - v else v in
      if (- 2 ^ 31 <=? v') && (v' <=? 2 ^ 31 - 1) then Some v' else None
  | None => None
  end.

(** [std::to_string] and [operator<<] on an unsigned value. *)
Definition to_string (z : Z) : string := pretty z.

(** [std::left << std::setw(w) << s]: [s] padded with spaces on the right
    up to [w] characters. *)
Definition setw_left (w : nat) (s : string) : string :=
  s +:+ str_of (replicate (w - String.length s)%nat " "%char).

(* ===================================================================== *)
(** ** Input streams ([std::ifstream]) *)
(* ===================================================================== *)

(** The stream reads the bytes the file held when it was opened. *)
Record ifstream := mk_ifstream {
  is_open : bool;
  content : list ascii;
  gpos : Z;          (* the get position *)
  failbit : bool
}.

(** A default-constructed stream. *)
Definition closed_stream : ifstream :=
  {| is_open := false; content := []; gpos := 0; failbit := false |}.

(** [stream.open(path, std::ios::binary | std::ios::ate)] over the regular
    files [files] and the directories [dirs]: the get position starts at
    the end.  A directory can be opened as well, but no byte can be read
    from it: every read of one byte or more finds nothing and fails.  (The
    position a directory reports at its end depends on the file system; it
    is taken to be 0.  No read finds a byte, wherever it starts.) *)
Definition stream_open (files : gmap string (list ascii))
    (dirs : gset string) (path : string) : ifstream :=
  match files !! path with
  | Some bytes =>
      {| is_open := true; content := bytes;
         gpos := Z.of_nat (length bytes); failbit := false |}
  | None =>
      if bool_decide (path ∈ dirs)
      then {| is_open := true; content := []; gpos := 0; failbit := false |}
      else {| is_open := false; content := []; gpos := 0; failbit := true |}
  end.

(** [stream.tellg()] *)
Definition tellg (s : ifstream) : Z := if failbit s then -1 else gpos s.

(** [stream.seekg(pos)]: nothing on a failed stream; a negative position
    fails.  A position beyond the end is accepted (the next read finds no
    byte there). *)
Definition seekg (pos : Z) (s : ifstream) : ifstream :=
  if failbit s then s
  else
    let p := to_streamoff pos in
    if p <? 0
    then {| is_open := is_open s; content := content s;
            gpos := gpos s; failbit := true |}
    else {| is_open := is_open s; content := content s;
            gpos := p; failbit := false |}.

(** [stream.read(buf, n)]: the bytes found are copied over the start of
    [buf], what is left of [buf] keeps its contents, and the stream fails
    when fewer than [n] bytes were found.  Nothing happens on a failed
    stream. *)
Definition stream_read (n : Z) (buf : list ascii) (s : ifstream)
  : list ascii * ifstream :=
  if failbit s then (buf, s)
  else
    let count := to_streamoff n in
    let got := take (Z.to_nat count) (drop (Z.to_nat (gpos s)) (content s)) in
    (got ++ drop (length got) buf,
     {| is_open := is_open s; content := content s;
        gpos := gpos s + Z.of_nat (length got);
        failbit := negb (Z.of_nat (length got) =? count) |}).

(* ===================================================================== *)
(** ** The on-disk records (libbbf.h) *)
(* ===================================================================== *)

(** Modelled from the spec: libbbf.h, which declares these structures, is
    not among the sources.  The fields are those bbfenc.cpp reads, under
    the names it uses; their widths follow the specification (section 3)
    and the types of the variables bbfenc.cpp copies them to: indices,
    counts and string-pool offsets are 32-bit (the no-parent sentinel
    [0xFFFFFFFF] is the maximum representable index value), file offsets,
    lengths and hashes are 64-bit, the version and the type tag are one
    byte. *)
Module BBFHeader.
Record t := mk { magic : string; version : Z }.
End BBFHeader.

Module BBFFooter.
Record t := mk {
  stringPoolOffset : Z;
  assetTableOffset : Z;
  assetCount : Z;
  pageTableOffset : Z;
  pageCount : Z;
  sectionTableOffset : Z;
  sectionCount : Z;
  metaTableOffset : Z;
  keyCount : Z;
  magic : string
}.
End BBFFooter.

Module BBFAssetEntry.
Record t := mk { offset : Z; length : Z; xxh3Hash : Z; type : Z }.
End BBFAssetEntry.

Module BBFPageEntry.
Record t := mk { assetIndex : Z }.
End BBFPageEntry.

Module BBFSection.
Record t := mk {
  sectionTitleOffset : Z;
  sectionStartIndex : Z;
  parentSectionIndex : Z
}.
End BBFSection.

Module BBFMetadata.
Record t := mk { keyOffset : Z; valOffset : Z }.
End BBFMetadata.

(** Where each field lies in the object representation of its structure:
    the part of libbbf.h (and of the compiler's layout rules) the program
    depends on through [reinterpret_cast] and [sizeof].  The development is
    parametric in it. *)
Record Layout := mk_Layout {
  sizeof_BBFHeader : nat;
  hdr_magic : list ascii -> list ascii;
  hdr_version : list ascii -> Z;
  sizeof_BBFFooter : nat;
  ftr_stringPoolOffset : list ascii -> Z;
  ftr_assetTableOffset : list ascii -> Z;
  ftr_assetCount : list ascii -> Z;
  ftr_pageTableOffset : list ascii -> Z;
  ftr_pageCount : list ascii -> Z;
  ftr_sectionTableOffset : list ascii -> Z;
  ftr_sectionCount : list ascii -> Z;
  ftr_metaTableOffset : list ascii -> Z;
  ftr_keyCount : list ascii -> Z;
  ftr_magic : list ascii -> list ascii;
  sizeof_BBFAssetEntry : nat;
  ast_offset : list ascii -> Z;
  ast_length : list ascii -> Z;
  ast_xxh3Hash : list ascii -> Z;
  ast_type : list ascii -> Z;
  sizeof_BBFPageEntry : nat;
  pg_assetIndex : list ascii -> Z;
  sizeof_BBFSection : nat;
  sec_titleOffset : list ascii -> Z;
  sec_startIndex : list ascii -> Z;
  sec_parentIndex : list ascii -> Z;
  sizeof_BBFMetadata : nat;
  meta_keyOffset : list ascii -> Z;
  meta_valOffset : list ascii -> Z
}.

(** A vector of [n] records of [size] bytes each, seen through its bytes. *)
Fixpoint chunks (n size : nat) (buf : list ascii) : list (list ascii) :=
  match n with
  | O => []
  | S n' => take size buf :: chunks n' size (drop size buf)
  end.

(** [v.resize(n)] on a vector of bytes. *)
Definition resize (v : list ascii) (n : Z) : list ascii :=
  take (Z.to_nat n) v ++ zeros (n - Z.of_nat (length v)).

(** The characters of a C string: those before the first [NUL].  [None]
    when the buffer ends first; the C++ program then reads beyond the
    vector, which is undefined. *)
Fixpoint c_str (buf : list ascii) : option string :=
  match buf with
  | [] => None
  | c :: rest =>
      if bool_decide (c = NUL) then Some EmptyString
      else String c <$> c_str rest
  end.

(* ===================================================================== *)
(** ** The process and what it acts on *)
(* ===================================================================== *)

(** How the process ends: [return code] from [main], an exception nobody
    catches ([std::terminate] is called), or undefined behaviour. *)
Inductive outcome :=
  | Exit (code : Z)
  | Terminated
  | Undefined.

(** The file system is a flat name space of path strings (no
    normalisation, no links): the regular files with their contents and the
    directories.  [cout] and [cerr] hold what was written to the two
    streams, one entry per statement, oldest first. *)
Record world := mk_world {
  files : gmap string (list ascii);
  dirs : gset string;
  cout : list string;
  cerr : list string
}.

Definition print (s : string) (w : world) : world :=
  {| files := files w; dirs := dirs w; cout := cout w ++ [s]; cerr := cerr w |}.
Definition eprint (s : string) (w : world) : world :=
  {| files := files w; dirs := dirs w; cout := cout w; cerr := cerr w ++ [s] |}.

(** The directories above [rest] in a path: [pre] is the part of the path
    read so far, and each part that a ['/'] follows names a directory
    (unless it is empty, the root, or itself ends in a separator). *)
Fixpoint ancestors_from (pre rest : string) : list string :=
  match rest with
  | EmptyString => []
  | String c rest' =>
      (if bool_decide (c = "/"%char)
          && negb (bool_decide (pre = EmptyString))
          && negb (bool_decide (back pre = Some "/"%char))
       then [pre] else [])
      ++ ancestors_from (pre +:+ String c EmptyString) rest'
  end.

(** The directories [fs::create_directories(p)] makes sure of: those above
    [p], outermost first, then [p]. *)
Definition path_chain (p : string) : list string :=
  ancestors_from EmptyString p ++ [p].

(** [fs::create_directories(p)]: [p] and every directory above it that is
    missing are created.  [None] when it throws [fs::filesystem_error]: an
    empty path, or a regular file where [p] or a directory above it should
    be. *)
Definition create_directories (p : string) (w : world) : option world :=
  if bool_decide (p = EmptyString) then None
  else if bool_decide (Exists (fun q => is_Some (files w !! q)) (path_chain p))
  then None
  else Some {| files := files w; dirs := list_to_set (path_chain p) ∪ dirs w;
               cout := cout w; cerr := cerr w |}.

(** [std::ofstream ofs(p, std::ios::binary); ofs.write(bytes)]: the file is
    created or truncated, then written; nothing happens when the stream
    cannot be opened (the path names a directory). *)
Definition write_file (p : string) (bytes : list ascii) (w : world) : world :=
  if bool_decide (p ∈ dirs w) then w
  else {| files := <[ p := bytes ]> (files w); dirs := dirs w;
          cout := cout w; cerr := cerr w |}.

(** [(fs::path(dir) / name).string()] for a relative [name]. *)
Definition path_join (dir name : string) : string :=
  if bool_decide (dir = EmptyString) then name
  else if bool_decide (back dir = Some "/"%char) then dir +:+ name
  else dir +:+ "/" +:+ name.

(* ===================================================================== *)
(** ** class BBFReader (lines 29-108) *)
(* ===================================================================== *)

Section Reader.

Variable L : Layout.

(** The reader keeps [header] and [footer] as the bytes read over them;
    their fields are decoded when they are used. *)
Record BBFReader := mk_BBFReader {
  footer_raw : list ascii;
  header_raw : list ascii;
  stream : ifstream;
  stringPool : list ascii
}.

Definition set_stream (s : ifstream) (r : BBFReader) : BBFReader :=
  {| footer_raw := footer_raw r; header_raw := header_raw r;
     stream := s; stringPool := stringPool r |}.

Definition decode_header (raw : list ascii) : BBFHeader.t :=
  {| BBFHeader.magic := str_of (take 4 (hdr_magic L raw));
     BBFHeader.version := u8 (hdr_version L raw) |}.

Definition decode_footer (raw : list ascii) : BBFFooter.t :=
  {| BBFFooter.stringPoolOffset := u64 (ftr_stringPoolOffset L raw);
     BBFFooter.assetTableOffset := u64 (ftr_assetTableOffset L raw);
     BBFFooter.assetCount := u32 (ftr_assetCount L raw);
     BBFFooter.pageTableOffset := u64 (ftr_pageTableOffset L raw);
     BBFFooter.pageCount := u32 (ftr_pageCount L raw);
     BBFFooter.sectionTableOffset := u64 (ftr_sectionTableOffset L raw);
     BBFFooter.sectionCount := u32 (ftr_sectionCount L raw);
     BBFFooter.metaTableOffset := u64 (ftr_metaTableOffset L raw);
     BBFFooter.keyCount := u32 (ftr_keyCount L raw);
     BBFFooter.magic := str_of (take 4 (ftr_magic L raw)) |}.

Definition decode_asset (raw : list ascii) : BBFAssetEntry.t :=
  {| BBFAssetEntry.offset := u64 (ast_offset L raw);
     BBFAssetEntry.length := u64 (ast_length L raw);
     BBFAssetEntry.xxh3Hash := u64 (ast_xxh3Hash L raw);
     BBFAssetEntry.type := u8 (ast_type L raw) |}.

Definition decode_page (raw : list ascii) : BBFPageEntry.t :=
  {| BBFPageEntry.assetIndex := u32 (pg_assetIndex L raw) |}.

Definition decode_section (raw : list ascii) : BBFSection.t :=
  {| BBFSection.sectionTitleOffset := u32 (sec_titleOffset L raw);
     BBFSection.sectionStartIndex := u32 (sec_startIndex L raw);
     BBFSection.parentSectionIndex := u32 (sec_parentIndex L raw) |}.

Definition decode_metadata (raw : list ascii) : BBFMetadata.t :=
  {| BBFMetadata.keyOffset := u32 (meta_keyOffset L raw);
     BBFMetadata.valOffset := u32 (meta_valOffset L raw) |}.

Definition header (r : BBFReader) : BBFHeader.t := decode_header (header_raw r).
Definition footer (r : BBFReader) : BBFFooter.t := decode_footer (footer_raw r).

(** Lines 37-65.  [files] and [dirs] are the regular files and the
    directories of the file system.  The answer is [None] when
    [stringPool.resize] (line 61) throws [std::length_error], which nobody
    catches: the size it is asked for, a difference of two 64-bit unsigned
    offsets, is beyond [max_size]. *)
Definition open (path : string) (files : gmap string (list ascii))
    (dirs : gset string) (r : BBFReader) : option bool * BBFReader :=
  let s0 := stream_open files dirs path in
  if negb (is_open s0) then (Some false, set_stream s0 r)
  else
    let fileSize := u64 (tellg s0) in
    (* read header *)
    let s1 := seekg 0 s0 in
    let '(hraw, s2) :=
      stream_read (Z.of_nat (sizeof_BBFHeader L)) (header_raw r) s1 in
    let r1 := {| footer_raw := footer_raw r; header_raw := hraw;
                 stream := s2; stringPool := stringPool r |} in
    (* validate header *)
    if negb (bool_decide (BBFHeader.magic (header r1) = "BBF1"))
    then (Some false, r1)
    else
      (* read footer *)
      let s3 := seekg (u64 (fileSize - Z.of_nat (sizeof_BBFFooter L))) s2 in
      let '(fraw, s4) :=
        stream_read (Z.of_nat (sizeof_BBFFooter L)) (footer_raw r) s3 in
      let r2 := {| footer_raw := fraw; header_raw := hraw;
                   stream := s4; stringPool := stringPool r |} in
      if negb (bool_decide (BBFFooter.magic (footer r2) = "BBF1"))
      then (Some false, r2)
      else
        (* load string pool *)
        let poolSize :=
          u64 (BBFFooter.assetTableOffset (footer r2)
               - BBFFooter.stringPoolOffset (footer r2)) in
        if max_size <? poolSize then (None, r2)
        else
          let pool0 := resize (stringPool r) poolSize in
          let s5 := seekg (BBFFooter.stringPoolOffset (footer r2)) s4 in
          let '(pool, s6) := stream_read (Z.of_nat (length pool0)) pool0 s5 in
          (Some true, {| footer_raw := fraw; header_raw := hraw;
                         stream := s6; stringPool := pool |}).

(** Lines 67-72.  [None] is the undefined behaviour of building a
    [std::string] from characters that no [NUL] follows. *)
Definition getString (r : BBFReader) (offset : Z) : option string :=
  let offset := u32 offset in
  if Z.of_nat (length (stringPool r)) <=? offset
  then Some "OFFSET_ERR"
  else c_str (drop (Z.to_nat offset) (stringPool r)).

(** The body shared by [getAssets], [getPages], [getSections] and
    [getMetadata]: a vector of [count] zeroed records, a seek to the table,
    and one read of [count * sizeof(record)] bytes over the vector. *)
Definition read_table (count : Z) (size : nat) (tableOffset : Z)
    (s : ifstream) : list (list ascii) * ifstream :=
  let nbytes := u64 (count * Z.of_nat size) in
  let vec := zeros (count * Z.of_nat size) in
  let s1 := seekg tableOffset s in
  let '(buf, s2) := stream_read nbytes vec s1 in
  (chunks (Z.to_nat count) size buf, s2).

(** Lines 74-80. *)
Definition getAssets (r : BBFReader) : list BBFAssetEntry.t * BBFReader :=
  let '(recs, s) :=
    read_table (BBFFooter.assetCount (footer r)) (sizeof_BBFAssetEntry L)
      (BBFFooter.assetTableOffset (footer r)) (stream r) in
  (decode_asset <$> recs, set_stream s r).

(** Lines 82-88. *)
Definition getPages (r : BBFReader) : list BBFPageEntry.t * BBFReader :=
  let '(recs, s) :=
    read_table (BBFFooter.pageCount (footer r)) (sizeof_BBFPageEntry L)
      (BBFFooter.pageTableOffset (footer r)) (stream r) in
  (decode_page <$> recs, set_stream s r).

(** Lines 90-96. *)
Definition getSections (r : BBFReader) : list BBFSection.t * BBFReader :=
  let '(recs, s) :=
    read_table (BBFFooter.sectionCount (footer r)) (sizeof_BBFSection L)
      (BBFFooter.sectionTableOffset (footer r)) (stream r) in
  (decode_section <$> recs, set_stream s r).

(** Lines 98-107. *)
Definition getMetadata (r : BBFReader) : list BBFMetadata.t * BBFReader :=
  if 0 <? BBFFooter.keyCount (footer r) then
    let '(recs, s) :=
      read_table (BBFFooter.keyCount (footer r)) (sizeof_BBFMetadata L)
        (BBFFooter.metaTableOffset (footer r)) (stream r) in
    (decode_metadata <$> recs, set_stream s r)
  else ([], r).

End Reader.

(* ===================================================================== *)
(** ** main: the read-side actions (lines 261-397) *)
(* ===================================================================== *)

(** What a block of [main] leaves behind: control goes on to the next
    statement, or the process has ended. *)
Inductive step :=
  | Next (r : BBFReader) (w : world)
  | Stop (o : outcome) (w : world).

Section Actions.

Variable L : Layout.

(** [XXH3_64bits] of xxhash.h, a library the program links against. *)
Variable XXH3_64bits : list ascii -> Z.

(** *** --info (lines 275-317) *)

(** Lines 292-297.  [None]: undefined behaviour in [getString]. *)
Fixpoint info_sections (r : BBFReader) (sections : list BBFSection.t)
    (w : world) : option world :=
  match sections with
  | [] => Some w
  | s :: rest =>
      match getString r (BBFSection.sectionTitleOffset s) with
      | None => None
      | Some title =>
          info_sections r rest
            (print (" - " +:+ setw_left 20 title +:+ " (Starting Page: "
                    +:+ to_string (u32 (BBFSection.sectionStartIndex s + 1))
                    +:+ ")" +:+ nl) w)
      end
  end.

(** Lines 309-314. *)
Fixpoint info_metadata (r : BBFReader) (metadata : list BBFMetadata.t)
    (w : world) : option world :=
  match metadata with
  | [] => Some w
  | m :: rest =>
      match getString r (BBFMetadata.keyOffset m),
            getString r (BBFMetadata.valOffset m) with
      | Some key, Some val =>
          info_metadata r rest
            (print (" - " +:+ setw_left 15 (key +:+ ":") +:+ val +:+ nl) w)
      | _, _ => None
      end
  end.

Definition do_info (r : BBFReader) (w : world) : step :=
  let w := print ("Bound Book Format (.bbf) Info" +:+ nl) w in
  let w := print ("------------------------------" +:+ nl) w in
  let w := print ("BBF Version: "
                  +:+ to_string (BBFHeader.version (header L r)) +:+ nl) w in
  let w := print ("Pages:       "
                  +:+ to_string (BBFFooter.pageCount (footer L r)) +:+ nl) w in
  let w := print ("Assets:      "
                  +:+ to_string (BBFFooter.assetCount (footer L r))
                  +:+ " (Deduplicated)" +:+ nl) w in
  let w := print (nl +:+ "[Sections]" +:+ nl) w in
  let '(sections, r) := getSections L r in
  let ow :=
    match sections with
    | [] => Some (print (" No sections defined." +:+ nl) w)
    | _ => info_sections r sections w
    end in
  match ow with
  | None => Stop Undefined w
  | Some w =>
      let w := print (nl +:+ "[Metadata]" +:+ nl) w in
      let '(metadata, r) := getMetadata L r in
      let ow :=
        match metadata with
        | [] => Some (print (" No metadata found." +:+ nl) w)
        | _ => info_metadata r metadata w
        end in
      match ow with
      | None => Stop Undefined w
      | Some w => Next r (print nl w)
      end
  end.

(** *** --verify (lines 319-337) *)

(** Lines 327-328 (and 389-390): the seek to the asset and the read of
    its bytes over a zeroed vector of the asset's length. *)
Definition fill_buffer (a : BBFAssetEntry.t) (s : ifstream)
  : list ascii * ifstream :=
  let buf := zeros (BBFAssetEntry.length a) in
  let s1 := seekg (BBFAssetEntry.offset a) s in
  stream_read (BBFAssetEntry.length a) buf s1.

(** The bytes of one asset as lines 326-328 (and 388-390) read them.
    [None]: the vector of line 326 cannot have the asset's length, and its
    constructor throws [std::length_error] before anything is read. *)
Definition read_asset (a : BBFAssetEntry.t) (s : ifstream)
  : option (list ascii * ifstream) :=
  if max_size <? BBFAssetEntry.length a then None
  else Some (fill_buffer a s).

(** The loop of lines 324-334 from asset [i] on; [assets] are the entries
    still to check.  The first component is [None] when the loop was left
    by an exception; the world is the one at that moment. *)
Fixpoint verify_loop (assets : list BBFAssetEntry.t) (i : Z)
    (s : ifstream) (clean : bool) (w : world)
  : option (ifstream * bool) * world :=
  match assets with
  | [] => (Some (s, clean), w)
  | a :: rest =>
      match read_asset a s with
      | None => (None, w)
      | Some (buf, s1) =>
          if negb (u64 (XXH3_64bits buf) =? BBFAssetEntry.xxh3Hash a)
          then verify_loop rest (i + 1) s1 false
                 (eprint ("Mismatch in asset " +:+ to_string i +:+ nl) w)
          else verify_loop rest (i + 1) s1 clean w
      end
  end.

Definition do_verify (r : BBFReader) (w : world) : step :=
  let w := print ("Verifying asset integrity..." +:+ nl) w in
  let '(assets, r) := getAssets L r in
  match verify_loop assets 0 (stream r) true w with
  | (None, w) => Stop Terminated w
  | (Some (s, clean), w) =>
      let w := if clean then print ("Integrity Check Passed." +:+ nl) w else w in
      Next (set_stream s r) w
  end.

(** *** --extract (lines 339-396) *)

(** Lines 360-368: the end of the range of a section that starts at page
    [start] under parent [myParent]; [later] are the sections after it in
    the table and [pageCount] is [(uint32_t)pages.size()]. *)
Fixpoint find_end (start myParent : Z) (later : list BBFSection.t)
    (pageCount : Z) : Z :=
  match later with
  | [] => pageCount
  | sj :: rest =>
      if (start <? BBFSection.sectionStartIndex sj)
         && (BBFSection.parentSectionIndex sj =? myParent)
      then u32 (BBFSection.sectionStartIndex sj)
      else find_end start myParent rest pageCount
  end.

(** What the search of lines 349-372 ends with. *)
Inductive lookup_result :=
  | Found (start end_ : Z)
  | NotFound
  | LookupUndefined.

(** Lines 350-372 from the section at the head of [sections] on. *)
Fixpoint find_section (r : BBFReader) (targetSection : string)
    (sections : list BBFSection.t) (pageCount : Z) : lookup_result :=
  match sections with
  | [] => NotFound
  | si :: later =>
      match getString r (BBFSection.sectionTitleOffset si) with
      | None => LookupUndefined
      | Some title =>
          if bool_decide (trimQuotes title = targetSection)
          then
            let start := u32 (BBFSection.sectionStartIndex si) in
            let myParent := u32 (BBFSection.parentSectionIndex si) in
            Found start (find_end start myParent later pageCount)
          else find_section r targetSection later pageCount
      end
  end.

(** Line 385. *)
Definition page_ext (asset : BBFAssetEntry.t) : string :=
  if BBFAssetEntry.type asset =? 1 then ".avif" else ".png".

(** How the loop of lines 382-394 ends: it completes, it is left by an
    exception (with the files written until then), or it indexes a vector
    out of range, which is undefined. *)
Inductive extract_result :=
  | Extracted (s : ifstream) (w : world)
  | ExtractThrew (w : world)
  | ExtractUndefined.

(** Lines 382-394: [n] iterations from page [i] on. *)
Fixpoint extract_pages (n : nat) (i : Z) (outDir : string)
    (pages : list BBFPageEntry.t) (assets : list BBFAssetEntry.t)
    (s : ifstream) (w : world) : extract_result :=
  match n with
  | O => Extracted s w
  | S n' =>
      match pages !! Z.to_nat i with
      | None => ExtractUndefined
      | Some page =>
          match assets !! Z.to_nat (BBFPageEntry.assetIndex page) with
          | None => ExtractUndefined
          | Some asset =>
              let ext := page_ext asset in
              let outPath :=
                path_join outDir ("page_" +:+ to_string (u32 (i + 1)) +:+ ext) in
              match read_asset asset s with
              | None => ExtractThrew w
              | Some (buf, s1) =>
                  let written :=
                    take (Z.to_nat (to_streamoff (BBFAssetEntry.length asset)))
                      buf in
                  extract_pages n' (i + 1) outDir pages assets s1
                    (write_file outPath written w)
              end
          end
      end
  end.

Definition do_extract (outDir targetSection : string) (r : BBFReader)
    (w : world) : step :=
  match create_directories outDir w with
  | None => Stop Terminated w
  | Some w =>
      let '(pages, r) := getPages L r in
      let '(assets, r) := getAssets L r in
      let '(sections, r) := getSections L r in
      let pageCount := u32 (Z.of_nat (length pages)) in
      let range :=
        if negb (bool_decide (targetSection = EmptyString))
        then find_section r targetSection sections pageCount
        else Found 0 pageCount in
      match range with
      | LookupUndefined => Stop Undefined w
      | NotFound =>
          Stop (Exit 1)
            (eprint ("Section '" +:+ targetSection +:+ "' not found." +:+ nl) w)
      | Found start end_ =>
          let w := print ("Extracting " +:+ targetSection +:+ " (Pages "
                          +:+ to_string (u32 (start + 1)) +:+ " to "
                          +:+ to_string end_ +:+ ") to " +:+ outDir
                          +:+ "..." +:+ nl) w in
          match extract_pages (Z.to_nat (end_ - start)) start outDir
                  pages assets (stream r) w with
          | ExtractUndefined => Stop Undefined w
          | ExtractThrew w => Stop Terminated w
          | Extracted s w =>
              Next (set_stream s r)
                (print ("Extracted " +:+ to_string (u32 (end_ - start))
                        +:+ " pages." +:+ nl) w)
          end
      end
  end.

End Actions.

(* ===================================================================== *)
(** ** main: the arguments (lines 183-259) *)
(* ===================================================================== *)

(** Lines 195-204. *)
Record SecReq := mk_SecReq { name : string; parent : string; page : Z }.
Record MetaReq := mk_MetaReq { k : string; v : string }.

(** The variables the argument loop fills (lines 189-206). *)
Record options := mk_options {
  inputs : list string;
  modeInfo : bool;
  modeVerify : bool;
  modeExtract : bool;
  outDir : string;
  targetSection : string;
  secReqs : list SecReq;
  metaReqs : list MetaReq
}.

Definition initial_options : options :=
  {| inputs := []; modeInfo := false; modeVerify := false;
     modeExtract := false; outDir := "./extracted";
     targetSection := EmptyString; secReqs := []; metaReqs := [] |}.

Definition set_modes (i v e : bool) (o : options) : options :=
  {| inputs := inputs o; modeInfo := i; modeVerify := v; modeExtract := e;
     outDir := outDir o; targetSection := targetSection o;
     secReqs := secReqs o; metaReqs := metaReqs o |}.
Definition set_outDir (d : string) (o : options) : options :=
  {| inputs := inputs o; modeInfo := modeInfo o; modeVerify := modeVerify o;
     modeExtract := modeExtract o; outDir := d;
     targetSection := targetSection o;
     secReqs := secReqs o; metaReqs := metaReqs o |}.
Definition set_targetSection (t : string) (o : options) : options :=
  {| inputs := inputs o; modeInfo := modeInfo o; modeVerify := modeVerify o;
     modeExtract := modeExtract o; outDir := outDir o; targetSection := t;
     secReqs := secReqs o; metaReqs := metaReqs o |}.
Definition push_secReq (q : SecReq) (o : options) : options :=
  {| inputs := inputs o; modeInfo := modeInfo o; modeVerify := modeVerify o;
     modeExtract := modeExtract o; outDir := outDir o;
     targetSection := targetSection o;
     secReqs := secReqs o ++ [q]; metaReqs := metaReqs o |}.
Definition push_metaReq (q : MetaReq) (o : options) : options :=
  {| inputs := inputs o; modeInfo := modeInfo o; modeVerify := modeVerify o;
     modeExtract := modeExtract o; outDir := outDir o;
     targetSection := targetSection o;
     secReqs := secReqs o; metaReqs := metaReqs o ++ [q] |}.
Definition push_input (a : string) (o : options) : options :=
  {| inputs := inputs o ++ [a]; modeInfo := modeInfo o;
     modeVerify := modeVerify o; modeExtract := modeExtract o;
     outDir := outDir o; targetSection := targetSection o;
     secReqs := secReqs o; metaReqs := metaReqs o |}.

(** One turn of the loop of lines 209-259.  [None]: [std::stoi] threw. *)
Definition parse_arg (arg : string) (o : options) : option options :=
  if bool_decide (arg = "--info")
  then Some (set_modes true (modeVerify o) (modeExtract o) o)
  else if bool_decide (arg = "--verify")
  then Some (set_modes (modeInfo o) true (modeExtract o) o)
  else if bool_decide (arg = "--extract")
  then Some (set_modes (modeInfo o) (modeVerify o) true o)
  else if find_at_0 "--outdir=" arg
  then Some (set_outDir (substr_from 9 arg) o)
  else if find_at_0 "--section=" arg
  then
    let val := substr_from 10 arg in
    match split_colon val EmptyString with
    | [] => Some o
    | p0 :: more =>
        if modeExtract o then Some (set_targetSection (trimQuotes p0) o)
        else
          match more with
          | [] => Some o
          | p1 :: more' =>
              match stoi p1 with
              | None => None
              | Some n =>
                  let par :=
                    match more' with
                    | p2 :: _ => trimQuotes p2
                    | [] => EmptyString
                    end in
                  Some (push_secReq
                          {| name := trimQuotes p0; parent := par;
                             page := u32 n |} o)
              end
          end
    end
  else if find_at_0 "--meta=" arg
  then
    let val := substr_from 7 arg in
    match find_colon val with
    | Some colon =>
        Some (push_metaReq
                {| k := substr 0 colon val; v := substr_from (colon + 1) val |}
                o)
    | None => Some o
    end
  else Some (push_input arg o).

Fixpoint parse_args (args : list string) (o : options) : option options :=
  match args with
  | [] => Some o
  | arg :: rest =>
      match parse_arg arg o with
      | None => None
      | Some o' => parse_args rest o'
      end
  end.

(** Lines 110-150. *)
Definition quoted (s : string) : string :=
  String dquote EmptyString +:+ s +:+ String dquote EmptyString.

Definition help_lines : list string :=
  [ "Bound Book Format Muxer (bbfmux) - Archival Sequential Image Container";
    "-----------------------------------------------------------------------";
    "Usage:";
    "  Muxing:     bbfmux <inputs...> [options] <output.bbf>";
    "  Info:       bbfmux <file.bbf> --info";
    "  Verify:     bbfmux <file.bbf> --verify";
    "  Extract:    bbfmux <file.bbf> --extract [--outdir=path] [--section="
      +:+ quoted "Name" +:+ "]";
    EmptyString;
    "Inputs:";
    "  Can be individual image files (.png or .avif) or directories.";
    "  Files are sorted alphabetically. Data is 4KB sector-aligned for performance.";
    EmptyString;
    "Options (Muxing):";
    "  --section=Name:Page[:Parent]  Add a section marker (1-based page index).";
    "                                Optional: Provide a Parent name to nest chapters.";
    "  --meta=Key:Value              Add archival metadata (Title, Author, etc.).";
    EmptyString;
    "Options (Extraction):";
    "  --outdir=path                 Output directory (default: ./extracted).";
    "  --section=Name                Extract only a specific section/volume.";
    EmptyString;
    "Global Options:";
    "  --info                        Display book structure and metadata.";
    "  --verify                      Perform XXH3 integrity check on all assets.";
    EmptyString;
    "Examples:";
    "  [Creation with Hierarchy]";
    "    bbfmux ./vol1/ --section=" +:+ quoted "Volume 1" +:+ ":1 --section="
      +:+ quoted "Chapter 1" +:+ ":1:" +:+ quoted "Volume 1" +:+ " out.bbf";
    EmptyString;
    "  [Adding Metadata]";
    "    bbfmux out.bbf --meta=Title:" +:+ quoted "Akira" +:+ " --meta=Author:"
      +:+ quoted "Otomo";
    EmptyString;
    "  [Extracting a Volume]";
    "    bbfmux comic.bbf --extract --section=" +:+ quoted "Volume 1"
      +:+ " --outdir=" +:+ quoted "./V1";
    EmptyString;
    "  [Checking Integrity]";
    "    bbfmux comic.bbf --verify" ].

Definition printHelp (w : world) : world :=
  print (foldr (fun l acc => l +:+ nl +:+ acc) nl help_lines) w.

(* ===================================================================== *)
(** ** main: muxing (lines 398-455) *)
(* ===================================================================== *)

(** [fs::is_directory(p)] *)
Definition is_directory (p : string) (w : world) : bool :=
  bool_decide (p ∈ dirs w).

Fixpoint strip_prefix (pre s : string) : option string :=
  match pre, s with
  | EmptyString, _ => Some s
  | String a pre', String b s' =>
      if bool_decide (a = b) then strip_prefix pre' s' else None
  | String _ _, EmptyString => None
  end.

Fixpoint has_char (c : ascii) (s : string) : bool :=
  match s with
  | EmptyString => false
  | String a rest => bool_decide (a = c) || has_char c rest
  end.

(** The position of the last [c] in [s]; [i] is the position of the head
    of [s] and [last] the answer so far. *)
Fixpoint rfind_from (c : ascii) (s : string) (i : nat) (last : option nat)
  : option nat :=
  match s with
  | EmptyString => last
  | String a rest =>
      rfind_from c rest (S i) (if bool_decide (a = c) then Some i else last)
  end.
Definition rfind (c : ascii) (s : string) : option nat :=
  rfind_from c s 0%nat None.

(** Whether [p] is an entry of the directory [dir]: [dir], a separator and
    one file name. *)
Definition is_child (dir p : string) : bool :=
  match strip_prefix (path_join dir EmptyString) p with
  | Some rest =>
      negb (bool_decide (rest = EmptyString)) && negb (has_char "/"%char rest)
  | None => false
  end.

(** The paths [fs::directory_iterator(dir)] yields, in one of the orders
    it may yield them in (line 421 sorts them). *)
Definition directory_entries (dir : string) (w : world) : list string :=
  List.filter (is_child dir) (elements (dom (files w) ∪ dirs w)).

(** [fs::path(p).extension().string()] *)
Definition extension (p : string) : string :=
  let fname :=
    match rfind "/"%char p with
    | Some i => substr_from (S i) p
    | None => p
    end in
  if bool_decide (fname = ".") || bool_decide (fname = "..") then EmptyString
  else
    match rfind "."%char fname with
    | Some (S i) => substr_from (S i) fname
    | _ => EmptyString
    end.

(** Lines 410-420. *)
Fixpoint expand_inputs (inputs : list string) (w : world) : list string :=
  match inputs with
  | [] => []
  | path :: rest =>
      (if is_directory path w then directory_entries path w else [path])
      ++ expand_inputs rest w
  end.

(** Line 426. *)
Definition page_type (p : string) : Z :=
  let ext := extension p in
  if bool_decide (ext = ".avif") || bool_decide (ext = ".AVIF") then 1 else 2.

(** Modelled from the spec: class BBFBuilder is declared in libbbf.h and
    defined in libbbf.cpp, neither of which is among the sources.  The
    builder holds the tables of the specification's data model (section 3),
    in memory until [finalize]. *)
Record BBFBuilder := mk_BBFBuilder {
  b_stringPool : list ascii;
  b_assets : list BBFAssetEntry.t;
  b_pages : list BBFPageEntry.t;
  b_sections : list BBFSection.t;
  b_metadata : list BBFMetadata.t
}.

(** Modelled from the spec: the constructor of BBFBuilder is missing; a
    new builder has empty tables. *)
Definition new_builder : BBFBuilder :=
  {| b_stringPool := []; b_assets := []; b_pages := [];
     b_sections := []; b_metadata := [] |}.

(** Modelled from the spec: StringPool [append(s)] (section 4.1) is
    missing; it stores [s] and its terminating null byte at the end of the
    pool and returns the offset of [s]. *)
Definition pool_append (s : string) (pool : list ascii) : Z * list ascii :=
  (Z.of_nat (length pool), pool ++ bytes_of s ++ [NUL]).

(** Modelled from the spec: [BBFBuilder::addSection] (section 4.4) is
    missing; it interns [title] into the string pool, appends a Section
    record and returns its table index, the length of the table before the
    append. *)
Definition addSection (title : string) (startPageIndex parentIndex : Z)
    (b : BBFBuilder) : Z * BBFBuilder :=
  let '(off, pool) := pool_append title (b_stringPool b) in
  (Z.of_nat (length (b_sections b)),
   {| b_stringPool := pool; b_assets := b_assets b; b_pages := b_pages b;
      b_sections :=
        b_sections b ++
        [ {| BBFSection.sectionTitleOffset := u32 off;
             BBFSection.sectionStartIndex := u32 startPageIndex;
             BBFSection.parentSectionIndex := u32 parentIndex |} ];
      b_metadata := b_metadata b |}).

(** Modelled from the spec: [BBFBuilder::addMetadata] (section 4.5) is
    missing; it appends a record with the two interned string offsets. *)
Definition addMetadata (key value : string) (b : BBFBuilder) : BBFBuilder :=
  let '(koff, pool1) := pool_append key (b_stringPool b) in
  let '(voff, pool2) := pool_append value pool1 in
  {| b_stringPool := pool2; b_assets := b_assets b; b_pages := b_pages b;
     b_sections := b_sections b;
     b_metadata :=
       b_metadata b ++
       [ {| BBFMetadata.keyOffset := u32 koff;
            BBFMetadata.valOffset := u32 voff |} ] |}.

(** Lines 434-444: the parent resolution loop over the requests still to
    handle. *)
Fixpoint mux_sections (reqs : list SecReq)
    (sectionNameToIdx : gmap string Z) (sectionCounter : Z)
    (builder : BBFBuilder) : BBFBuilder :=
  match reqs with
  | [] => builder
  | s :: rest =>
      let parentIdx :=
        if negb (bool_decide (parent s = EmptyString))
           && bool_decide (is_Some (sectionNameToIdx !! parent s))
        then default 0 (sectionNameToIdx !! parent s)
        else NO_PARENT in
      let builder := snd (addSection (name s) (u32 (page s - 1)) parentIdx builder) in
      mux_sections rest (<[ name s := sectionCounter ]> sectionNameToIdx)
        (u32 (sectionCounter + 1)) builder
  end.

(** Lines 446-450. *)
Fixpoint mux_metadata (reqs : list MetaReq) (builder : BBFBuilder)
  : BBFBuilder :=
  match reqs with
  | [] => builder
  | m :: rest =>
      mux_metadata rest (addMetadata (trimQuotes (k m)) (trimQuotes (v m)) builder)
  end.

(** The operations of BBFBuilder that act on files: the constructor (it
    opens the output), [addPage(path, type)] and [finalize()].  libbbf.cpp
    is not among the sources, so [main] is modelled over any implementation
    of them; [finalize] answers whether it succeeded. *)
Record BuilderIO := mk_BuilderIO {
  construct : string -> world -> BBFBuilder * world;
  addPage : string -> Z -> BBFBuilder -> world -> BBFBuilder * world;
  finalize : BBFBuilder -> world -> bool * world
}.

(* ===================================================================== *)
(** ** main (lines 174-458) *)
(* ===================================================================== *)

Section Main.

Variable L : Layout.
Variable XXH3_64bits : list ascii -> Z.
Variable B : BuilderIO.

(** The bytes found where [main] allocates [reader]: its [header] and
    [footer] members are not initialised (line 268). *)
Variable stack_mem : nat -> ascii.

Definition fresh_reader : BBFReader :=
  {| footer_raw := stack_mem <$> seq 0 (sizeof_BBFFooter L);
     header_raw :=
       stack_mem <$> seq (sizeof_BBFFooter L) (sizeof_BBFHeader L);
     stream := closed_stream;
     stringPool := [] |}.

(** Lines 423-428. *)
Fixpoint add_pages (imagePaths : list string) (builder : BBFBuilder)
    (w : world) : BBFBuilder * world :=
  match imagePaths with
  | [] => (builder, w)
  | p :: rest =>
      let '(builder, w) := addPage B p (page_type p) builder w in
      add_pages rest builder w
  end.

(** Lines 405-450: the builder and the world when [finalize] is called. *)
Definition mux_build (o : options) (w : world) : BBFBuilder * world :=
  let outputBbf := List.last (inputs o) EmptyString in
  let inputs := removelast (inputs o) in
  let '(builder, w) := construct B outputBbf w in
  let imagePaths := merge_sort String.le (expand_inputs inputs w) in
  let '(builder, w) := add_pages imagePaths builder w in
  let builder := mux_sections (secReqs o) ∅ 0 builder in
  let builder := mux_metadata (metaReqs o) builder in
  (builder, w).

(** Lines 399-455. *)
Definition do_mux (o : options) (w : world) : outcome * world :=
  if Z.of_nat (length (inputs o)) <? 2
  then (Exit 1,
        eprint ("Error: Provide inputs and an output filename." +:+ nl) w)
  else
    let outputBbf := List.last (inputs o) EmptyString in
    let '(builder, w) := mux_build o w in
    let '(ok, w) := finalize B builder w in
    (Exit 0,
     if ok then print ("Successfully created " +:+ outputBbf +:+ nl) w else w).

(** A block of [main] guarded by a mode flag. *)
Definition when (flag : bool) (action : BBFReader -> world -> step)
    (st : step) : step :=
  match st with
  | Next r w => if flag then action r w else Next r w
  | Stop o w => Stop o w
  end.

(** Lines 261-397. *)
Definition do_read (o : options) (w : world) : outcome * world :=
  match inputs o with
  | [] => (Exit 1, eprint ("Error: No .bbf input specified." +:+ nl) w)
  | path :: _ =>
      let '(ok, reader) := open L path (files w) (dirs w) fresh_reader in
      match ok with
      | None => (Terminated, w)
      | Some false => (Exit 1, eprint ("Error: Failed to open BBF." +:+ nl) w)
      | Some true =>
          let st := Next reader w in
          let st := when (modeInfo o) (do_info L) st in
          let st := when (modeVerify o) (do_verify L XXH3_64bits) st in
          let st :=
            when (modeExtract o)
              (do_extract L (outDir o) (targetSection o)) st in
          match st with
          | Next _ w => (Exit 0, w)
          | Stop oc w => (oc, w)
          end
      end
  end.

(** [main]: [args] are [argv[0]], [argv[1]], ...  The process ends in
    [Terminated] when [std::stoi] throws while the arguments are read. *)
Definition main (args : list string) (w : world) : outcome * world :=
  if Z.of_nat (length args) <? 2 then (Exit 1, printHelp w)
  else
    match parse_args (tail args) initial_options with
    | None => (Terminated, w)
    | Some o =>
        if modeInfo o || modeVerify o || modeExtract o
        then do_read o w
        else do_mux o w
    end.

End Main.

(* ===================================================================== *)
(** ** A concrete layout and sample containers *)
(* ===================================================================== *)

(** The examples below need actual bytes.  [Sample.layout] packs every
    structure without padding, fields in the order the specification lists
    them (section 6), integers little-endian. *)
Module Sample.

(** The value of little-endian bytes, and the [n] bytes of a value. *)
Definition le_value (bytes : list ascii) : Z :=
  foldr (fun b acc => Z.of_nat (nat_of_ascii b) + 256 * acc) 0 bytes.

Fixpoint le_bytes (n : nat) (z : Z) : list ascii :=
  match n with
  | O => []
  | S n' => ascii_of_nat (Z.to_nat (z mod 256)) :: le_bytes n' (z / 256)
  end.

Definition field (off len : nat) (raw : list ascii) : Z :=
  le_value (take len (drop off raw)).

Definition layout : Layout :=
  {| sizeof_BBFHeader := 5;
     hdr_magic := take 4;
     hdr_version := field 4 1;
     sizeof_BBFFooter := 60;
     ftr_magic := take 4;
     ftr_stringPoolOffset := field 4 8;
     ftr_assetTableOffset := field 12 8;
     ftr_assetCount := field 20 4;
     ftr_pageTableOffset := field 24 8;
     ftr_pageCount := field 32 4;
     ftr_sectionTableOffset := field 36 8;
     ftr_sectionCount := field 44 4;
     ftr_metaTableOffset := field 48 8;
     ftr_keyCount := field 56 4;
     sizeof_BBFAssetEntry := 25;
     ast_offset := field 0 8;
     ast_length := field 8 8;
     ast_xxh3Hash := field 16 8;
     ast_type := field 24 1;
     sizeof_BBFPageEntry := 4;
     pg_assetIndex := field 0 4;
     sizeof_BBFSection := 12;
     sec_titleOffset := field 0 4;
     sec_startIndex := field 4 4;
     sec_parentIndex := field 8 4;
     sizeof_BBFMetadata := 8;
     meta_keyOffset := field 0 4;
     meta_valOffset := field 4 4 |}.

Definition encode_asset (a : BBFAssetEntry.t) : list ascii :=
  le_bytes 8 (BBFAssetEntry.offset a) ++ le_bytes 8 (BBFAssetEntry.length a)
  ++ le_bytes 8 (BBFAssetEntry.xxh3Hash a) ++ le_bytes 1 (BBFAssetEntry.type a).
Definition encode_page (p : BBFPageEntry.t) : list ascii :=
  le_bytes 4 (BBFPageEntry.assetIndex p).
Definition encode_section (s : BBFSection.t) : list ascii :=
  le_bytes 4 (BBFSection.sectionTitleOffset s)
  ++ le_bytes 4 (BBFSection.sectionStartIndex s)
  ++ le_bytes 4 (BBFSection.parentSectionIndex s).
Definition encode_metadata (m : BBFMetadata.t) : list ascii :=
  le_bytes 4 (BBFMetadata.keyOffset m) ++ le_bytes 4 (BBFMetadata.valOffset m).

(** The string pool that holds [strs] back to back. *)
Definition pool_of (strs : list string) : list ascii :=
  concat ((fun s => bytes_of s ++ [NUL]) <$> strs).

(** The offsets at which the strings of [pool_of strs] start, the pool
    itself starting at [from]. *)
Fixpoint string_starts (from : Z) (strs : list string) : list Z :=
  match strs with
  | [] => []
  | s :: rest => from :: string_starts (from + size s + 1) rest
  end.

(** A container: the header, the asset bytes [data] (from offset 5 on),
    the string pool, the four tables and the footer. *)
Definition container (version : Z) (data : list ascii) (pool : list ascii)
    (assets : list BBFAssetEntry.t) (pages : list BBFPageEntry.t)
    (sections : list BBFSection.t) (metadata : list BBFMetadata.t)
  : list ascii :=
  let head := bytes_of "BBF1" ++ le_bytes 1 version in
  let atab := concat (encode_asset <$> assets) in
  let ptab := concat (encode_page <$> pages) in
  let stab := concat (encode_section <$> sections) in
  let mtab := concat (encode_metadata <$> metadata) in
  let poolOff := Z.of_nat (length head + length data) in
  let assetOff := poolOff + Z.of_nat (length pool) in
  let pageOff := assetOff + Z.of_nat (length atab) in
  let secOff := pageOff + Z.of_nat (length ptab) in
  let metaOff := secOff + Z.of_nat (length stab) in
  head ++ data ++ pool ++ atab ++ ptab ++ stab ++ mtab
  ++ bytes_of "BBF1"
  ++ le_bytes 8 poolOff
  ++ le_bytes 8 assetOff ++ le_bytes 4 (Z.of_nat (length assets))
  ++ le_bytes 8 pageOff ++ le_bytes 4 (Z.of_nat (length pages))
  ++ le_bytes 8 secOff ++ le_bytes 4 (Z.of_nat (length sections))
  ++ le_bytes 8 metaOff ++ le_bytes 4 (Z.of_nat (length metadata)).

(** A stand-in for [XXH3_64bits] in the examples: the sum of the bytes. *)
Definition byte_sum (bytes : list ascii) : Z :=
  foldr (fun b acc => Z.of_nat (nat_of_ascii b) + acc) 0 bytes.

(** Stand-ins for the file operations of BBFBuilder: nothing is written,
    and [finalize] answers [ok]. *)
Definition builder_io (ok : bool) : BuilderIO :=
  {| construct := fun _ w => (new_builder, w);
     addPage := fun _ _ b w => (b, w);
     finalize := fun _ w => (ok, w) |}.

Definition stack_mem (i : nat) : ascii := "#"%char.

Definition world_with (path : string) (bytes : list ascii) : world :=
  {| files := {[ path := bytes ]}; dirs := ∅; cout := []; cerr := [] |}.

(** A book of two pages, "ab" (at offset 5, PNG) and "cde" (at offset 7,
    AVIF), with sections "One" and "Two"; the hashes are [byte_sum]s. *)
Definition book (hash0 hash1 : Z) : list ascii :=
  container 1 (bytes_of "abcde") (pool_of ["One"; "Two"; "Title"; "Akira"])
    [ BBFAssetEntry.mk 5 2 hash0 2; BBFAssetEntry.mk 7 3 hash1 1 ]
    [ BBFPageEntry.mk 0; BBFPageEntry.mk 1 ]
    [ BBFSection.mk 0 0 NO_PARENT; BBFSection.mk 4 1 NO_PARENT ]
    [ BBFMetadata.mk 8 14 ].

End Sample.

(* ===================================================================== *)
(** ** The specification's reading of verify (section 4.7) *)
(* ===================================================================== *)

(** The byte range of an asset lies inside a file of contents [content]. *)
Definition asset_in_file (content : list ascii) (a : BBFAssetEntry.t) : Prop :=
  0 <= BBFAssetEntry.offset a /\ 0 <= BBFAssetEntry.length a
  /\ BBFAssetEntry.offset a + BBFAssetEntry.length a
     <= Z.of_nat (length content)
  /\ Z.of_nat (length content) < 2 ^ 63.

(** A vector of the asset's length can be asked for. *)
Definition length_fits (a : BBFAssetEntry.t) : Prop :=
  BBFAssetEntry.length a <= max_size.

(** The bytes of the file in the byte range of an asset. *)
Definition asset_bytes (content : list ascii) (a : BBFAssetEntry.t)
  : list ascii :=
  take (Z.to_nat (BBFAssetEntry.length a))
    (drop (Z.to_nat (BBFAssetEntry.offset a)) content).

(** "Re-read its byte range": the bytes the reader's stream yields for each
    entry of the asset table, in table order, starting from the stream
    [s], when a vector can be had for each entry. *)
Fixpoint reread (assets : list BBFAssetEntry.t) (s : ifstream)
  : list (list ascii) :=
  match assets with
  | [] => []
  | a :: rest => fst (fill_buffer a s) :: reread rest (snd (fill_buffer a s))
  end.

(** The indices at which the hash of the bytes re-read differs from the
    stored hash; [i] is the index of the first entry. *)
Fixpoint mismatches_of (hash : list ascii -> Z) (i : Z)
    (assets : list BBFAssetEntry.t) (bufs : list (list ascii)) : list Z :=
  match assets, bufs with
  | a :: assets', buf :: bufs' =>
      if u64 (hash buf) =? BBFAssetEntry.xxh3Hash a
      then mismatches_of hash (i + 1) assets' bufs'
      else i :: mismatches_of hash (i + 1) assets' bufs'
  | _, _ => []
  end.

(** The line verify writes to [cerr] for asset [i]. *)
Definition mismatch_line (i : Z) : string :=
  "Mismatch in asset " +:+ to_string i +:+ nl.

(** The world a block of [main] leaves. *)
Definition world_of (st : step) : world :=
  match st with
  | Next _ w => w
  | Stop _ w => w
  end.

(* ===================================================================== *)
(** ** The specification's reading of range resolution (section 4.4) *)
(* ===================================================================== *)

(** The fields of a section are 32-bit values, as they are in every table
    [getSections] returns. *)
Definition wf_section (s : BBFSection.t) : Prop :=
  0 <= BBFSection.sectionStartIndex s < 2 ^ 32
  /\ 0 <= BBFSection.parentSectionIndex s < 2 ^ 32.

(** The title extract compares with the name it was given. *)
Definition title_of (r : BBFReader) (s : BBFSection.t) : option string :=
  trimQuotes <$> getString r (BBFSection.sectionTitleOffset s).

(** Section [i] is the one the name [target] resolves to: the first in
    table order with that title. *)
Definition resolves_to (r : BBFReader) (target : string)
    (sections : list BBFSection.t) (i : nat) : Prop :=
  (exists si, sections !! i = Some si /\ title_of r si = Some target)
  /\ forall j sj, (j < i)%nat -> sections !! j = Some sj ->
       exists t, title_of r sj = Some t /\ t <> target.

(** [sj] starts later than [si] and has the same parent. *)
Definition later_sibling (si sj : BBFSection.t) : Prop :=
  BBFSection.sectionStartIndex si < BBFSection.sectionStartIndex sj
  /\ BBFSection.parentSectionIndex sj = BBFSection.parentSectionIndex si.

(* ===================================================================== *)
(** ** The specification's reading of extract (section 4.7) *)
(* ===================================================================== *)

(** The three tables extract loads (lines 342-344), and the reader after
    that. *)
Definition extract_tables (L : Layout) (r : BBFReader)
  : list BBFPageEntry.t * list BBFAssetEntry.t * list BBFSection.t * BBFReader :=
  let '(pages, r) := getPages L r in
  let '(assets, r) := getAssets L r in
  let '(sections, r) := getSections L r in
  (pages, assets, sections, r).

(** The exit code a block of [main] returns with, if it returns. *)
Definition exit_code_of (st : step) : option Z :=
  match st with
  | Stop (Exit code) _ => Some code
  | _ => None
  end.

(** The line extract writes to [cerr] for a name no section has. *)
Definition not_found_line (targetSection : string) : string :=
  "Section '" +:+ targetSection +:+ "' not found." +:+ nl.

(** The file of page [i] (0-based): "page_", the 1-based page number, and
    ".avif" when the type tag of the page's asset is 1, ".png" otherwise.
    [None] when the page or its asset does not exist. *)
Definition page_file (outDir : string) (pages : list BBFPageEntry.t)
    (assets : list BBFAssetEntry.t) (i : Z) : option string :=
  match pages !! Z.to_nat i with
  | None => None
  | Some page =>
      match assets !! Z.to_nat (BBFPageEntry.assetIndex page) with
      | None => None
      | Some asset =>
          Some (path_join outDir
                  ("page_" +:+ to_string (u32 (i + 1)) +:+
                   (if bool_decide (BBFAssetEntry.type asset = 1)
                    then ".avif" else ".png")))
      end
  end.

(* ===================================================================== *)
(** ** Muxing: the call of finalize *)
(* ===================================================================== *)

(** What [finalize] answers, and the world it leaves, when [main] calls it
    in mux mode. *)
Definition finalize_result (B : BuilderIO) (o : options) (w : world)
  : bool * world :=
  finalize B (fst (mux_build B o w)) (snd (mux_build B o w)).

(* ===================================================================== *)
(** ** Sample data *)
(* ===================================================================== *)

(** A reader that holds [pool] as its string pool. *)
Definition reader_with_pool (pool : list ascii) : BBFReader :=
  {| footer_raw := []; header_raw := []; stream := closed_stream;
     stringPool := pool |}.

(** The container with no asset, page or section and version byte
    [version], as the only file "b.bbf". *)
Definition empty_book (version : Z) : gmap string (list ascii) :=
  {[ "b.bbf" := Sample.container version [] [] [] [] [] [] ]}.

(** A file that ends after its header (magic and version byte 1), and a
    stack that happens to hold "BBF1" where the reader's footer begins. *)
Definition header_only : gmap string (list ascii) :=
  {[ "h.bbf" := bytes_of "BBF1" ++ Sample.le_bytes 1 1 ]}.

Definition stale_stack (i : nat) : ascii :=
  nth i (bytes_of "BBF1") "#"%char.

(** A stack that happens to hold "BBF1" both where the reader's footer
    begins and, 60 bytes on, where its header begins. *)
Definition magic_stack (i : nat) : ascii :=
  nth (i mod 60) (bytes_of "BBF1") "#"%char.

(** The world in which the only file is "b.bbf", the sample book with
    stored hashes [hash0] and [hash1], and the reader [main] has once it
    has opened it. *)
Definition book_world (hash0 hash1 : Z) : world :=
  Sample.world_with "b.bbf" (Sample.book hash0 hash1).

Definition book_reader (hash0 hash1 : Z) : BBFReader :=
  snd (open Sample.layout "b.bbf" (files (book_world hash0 hash1))
         (dirs (book_world hash0 hash1))
         (fresh_reader Sample.layout Sample.stack_mem)).

(** The page and asset tables of the sample book. *)
Definition book_pages : list BBFPageEntry.t :=
  [ BBFPageEntry.mk 0; BBFPageEntry.mk 1 ].
Definition book_assets : list BBFAssetEntry.t :=
  [ BBFAssetEntry.mk 5 2 195 2; BBFAssetEntry.mk 7 3 300 1 ].

(** A container with one stored asset, "abcde" at offset 5, that the asset
    table lists twice: once with stored hash 0, once with stored hash 1. *)
Definition twice_listed : list ascii :=
  Sample.container 1 (bytes_of "abcde") []
    [ BBFAssetEntry.mk 5 5 0 2; BBFAssetEntry.mk 5 5 1 2 ]
    [ BBFPageEntry.mk 0 ] [] [].

(** The sections A(start=0, no parent), B(start=5, parent A) and
    C(start=10, no parent) of the specification's example, their titles at
    offsets 0, 2 and 4 of the pool. *)
Definition abc_sections : list BBFSection.t :=
  [ BBFSection.mk 0 0 NO_PARENT; BBFSection.mk 2 5 0;
    BBFSection.mk 4 10 NO_PARENT ].

Definition abc_reader : BBFReader :=
  reader_with_pool (Sample.pool_of ["A"; "B"; "C"]).

(** Three requests: "Volume 1", "Chapter 1" under "Volume 1", and
    "Extras" under "Volume 2", a name no request defines. *)
Definition sample_reqs : list SecReq :=
  [ {| name := "Volume 1"; parent := EmptyString; page := 1 |};
    {| name := "Chapter 1"; parent := "Volume 1"; page := 1 |};
    {| name := "Extras"; parent := "Volume 2"; page := 9 |} ].

(* ===================================================================== *)
(** ** Notions used by the further properties *)
(* ===================================================================== *)

(** The parts of a split put together again, a [':'] between two
    neighbours. *)
Fixpoint join_colon (parts : list string) : string :=
  match parts with
  | [] => EmptyString
  | [p] => p
  | p :: rest => p +:+ ":" +:+ join_colon rest
  end.

(** The number of [':'] in a string. *)
Fixpoint count_colons (s : string) : nat :=
  match s with
  | EmptyString => O
  | String c rest =>
      ((if bool_decide (c = ":"%char) then 1 else 0) + count_colons rest)%nat
  end.

(** An argument the loop of lines 209-259 reads as an option: one of the
    three mode flags, or one that starts with "--outdir=", "--section=" or
    "--meta=". *)
Definition is_option_arg (arg : string) : bool :=
  bool_decide (arg = "--info") || bool_decide (arg = "--verify")
  || bool_decide (arg = "--extract")
  || find_at_0 "--outdir=" arg || find_at_0 "--section=" arg
  || find_at_0 "--meta=" arg.

(** The reader [r'] holds the header, the footer and the string pool
    that [r] holds; only the stream may differ. *)
Definition same_book (r r' : BBFReader) : Prop :=
  header_raw r' = header_raw r /\ footer_raw r' = footer_raw r
  /\ stringPool r' = stringPool r.

(** A table of [count] records of [size] bytes at offset [off] lies inside
    a file of contents [bytes]. *)
Definition table_in_file (count : Z) (size : nat) (off : Z)
    (bytes : list ascii) : Prop :=
  off + count * Z.of_nat size <= Z.of_nat (length bytes).

(** The bytes of record [i] of that table. *)
Definition record_at (size : nat) (off : Z) (i : nat) (bytes : list ascii)
  : list ascii :=
  take size (drop (Z.to_nat off + i * size) bytes).

(** The file system of [w'] is that of [w]: the same regular files with
    the same contents, and the same directories. *)
Definition same_files (w w' : world) : Prop :=
  files w' = files w /\ dirs w' = dirs w.

(** The asset a page entry points to exists in the asset table. *)
Definition page_has_asset (assets : list BBFAssetEntry.t)
    (pg : BBFPageEntry.t) : Prop :=
  (Z.to_nat (BBFPageEntry.assetIndex pg) < length assets)%nat.

(* ===================================================================== *)
(** * Theorems *)
(* ===================================================================== *)

(** ** Tactics *)

(** Closes a closed arithmetic or equational goal by evaluation. *)
Ltac by_evaluation :=
  vm_compute;
  first [ reflexivity | discriminate | intro; discriminate | exact I ].

(** Closes [Forall P l] for an explicit list [l] and a conjunction [P] of
    closed comparisons. *)
Ltac each_by_evaluation :=
  repeat first [ apply Forall_nil_2 | apply Forall_cons_2 ];
  repeat split; by_evaluation.

(** Closes a decidable proposition by evaluating its decision. *)
Ltac by_decision :=
  refine (bool_decide_unpack _ _); by_evaluation.

(** ** Integers and streams *)

Lemma u64_small z : 0 <= z < 2 ^ 64 -> u64 z = z.
Proof. intros H. unfold u64. apply Z.mod_small. lia. Qed.

Lemma u32_small z : 0 <= z < 2 ^ 32 -> u32 z = z.
Proof. intros H. unfold u32. apply Z.mod_small. lia. Qed.

Lemma u32_range z : 0 <= u32 z < 2 ^ 32.
Proof. unfold u32. apply Z.mod_pos_bound. lia. Qed.

Lemma u64_range z : 0 <= u64 z < 2 ^ 64.
Proof. unfold u64. apply Z.mod_pos_bound. lia. Qed.

Lemma to_streamoff_small z : 0 <= z < 2 ^ 63 -> to_streamoff z = z.
Proof.
  intros H. unfold to_streamoff. cbv zeta.
  rewrite u64_small by lia.
  destruct (Z.ltb_spec z (2 ^ 63)); lia.
Qed.

Lemma seekg_ok pos s :
  failbit s = false -> 0 <= pos < 2 ^ 63 ->
  seekg pos s = mk_ifstream (is_open s) (content s) pos false.
Proof.
  intros Hf Hp. unfold seekg. rewrite Hf, to_streamoff_small by lia.
  destruct (Z.ltb_spec pos 0); [lia | reflexivity].
Qed.

(** A read that stays inside the file fills the whole buffer with the
    bytes at the get position and leaves the stream good. *)
Lemma stream_read_exact n buf s :
  failbit s = false -> 0 <= gpos s -> 0 <= n < 2 ^ 63 ->
  gpos s + n <= Z.of_nat (length (content s)) ->
  Z.of_nat (length buf) <= n ->
  stream_read n buf s =
    (take (Z.to_nat n) (drop (Z.to_nat (gpos s)) (content s)),
     mk_ifstream (is_open s) (content s) (gpos s + n) false).
Proof.
  intros Hf Hg Hn Hin Hbuf. unfold stream_read. rewrite Hf. cbv zeta.
  rewrite to_streamoff_small by lia.
  assert (Hlen : length (take (Z.to_nat n)
                   (drop (Z.to_nat (gpos s)) (content s))) = Z.to_nat n).
  { rewrite length_take, length_drop. lia. }
  rewrite Hlen, Z2Nat.id by lia.
  rewrite (drop_ge buf) by lia.
  rewrite app_nil_r, Z.eqb_refl. reflexivity.
Qed.

(** ** The string pool *)

Lemma c_str_terminated (s : string) (rest : list ascii) :
  NUL ∉ bytes_of s -> c_str (bytes_of s ++ NUL :: rest) = Some s.
Proof.
  induction s as [|c s IH]; intros Hnul.
  - reflexivity.
  - change (c_str (c :: (bytes_of s ++ NUL :: rest)) = Some (String c s)).
    cbn [c_str]. case_bool_decide as Hc.
    + exfalso. apply Hnul. subst c. apply list_elem_of_here.
    + rewrite IH; [reflexivity|].
      intros Hin. apply Hnul. by apply list_elem_of_further.
Qed.

Lemma bytes_of_str_of l : bytes_of (str_of l) = l.
Proof. apply list_ascii_of_string_of_list_ascii. Qed.

Lemma length_bytes_of s : length (bytes_of s) = String.length s.
Proof. induction s; simpl; congruence. Qed.

(** C3 (as amended): an offset at or beyond the end of the pool yields the
    sentinel string "OFFSET_ERR", the only sign of OffsetOutOfRange the
    reader gives; an offset below the pool length is not checked against
    the starts of the stored strings: [k] characters into a stored,
    terminated string [s] it yields the rest of [s] from [k] on (all of [s]
    when [k] is 0). *)
Theorem getString_bounds_only (r : BBFReader) (offset : Z) :
  0 <= offset < 2 ^ 32 ->
  (Z.of_nat (length (stringPool r)) <= offset ->
   getString r offset = Some "OFFSET_ERR")
  /\
  (forall (before after : list ascii) (s : string) (k : nat),
     stringPool r = before ++ bytes_of s ++ NUL :: after ->
     NUL ∉ bytes_of s ->
     (k <= String.length s)%nat ->
     offset = Z.of_nat (length before + k) ->
     getString r offset = Some (str_of (drop k (bytes_of s)))).
Proof.
  intros Hoff. split.
  - intros Hge. unfold getString. rewrite u32_small by exact Hoff.
    destruct (Z.leb_spec (Z.of_nat (length (stringPool r))) offset);
      [reflexivity | lia].
  - intros before after s k Hpool Hnul Hk ->. unfold getString.
    rewrite u32_small by exact Hoff. rewrite Hpool.
    destruct (Z.leb_spec
                (Z.of_nat (length (before ++ bytes_of s ++ NUL :: after)))
                (Z.of_nat (length before + k))) as [Hle|_].
    + rewrite !length_app, length_bytes_of in Hle. simpl in Hle. lia.
    + rewrite Nat2Z.id, drop_app_add'.
      2: reflexivity.
      rewrite <- (take_drop k (bytes_of s)) at 1.
      rewrite <- (app_assoc (take k (bytes_of s))).
      rewrite drop_app_length'.
      2: { rewrite length_take, length_bytes_of. lia. }
      rewrite <- (bytes_of_str_of (drop k (bytes_of s))) at 1.
      apply c_str_terminated. rewrite bytes_of_str_of.
      intros Hin. apply Hnul. rewrite <- (take_drop k (bytes_of s)).
      apply elem_of_app. by right.
Qed.

(** C3, witness: in the pool that holds "Volume 1" and "Extras", offset 20
    is beyond the end and offset 9 is the start of "Extras". *)
Lemma getString_bounds_only_witness :
  getString (reader_with_pool (Sample.pool_of ["Volume 1"; "Extras"])) 20
    = Some "OFFSET_ERR"
  /\ getString (reader_with_pool (Sample.pool_of ["Volume 1"; "Extras"])) 9
    = Some "Extras".
Proof.
  split.
  - apply (getString_bounds_only
             (reader_with_pool (Sample.pool_of ["Volume 1"; "Extras"])) 20);
      [lia | by_evaluation].
  - apply (proj2 (getString_bounds_only
             (reader_with_pool (Sample.pool_of ["Volume 1"; "Extras"])) 9
             ltac:(lia))
           (bytes_of "Volume 1" ++ [NUL]) [] "Extras" 0%nat).
    + reflexivity.
    + by_decision.
    + simpl. lia.
    + reflexivity.
Defined.

(** C3, counterexample: offset 7 lies inside "Volume 1" (the strings of
    this pool start at 0 and 9), yet the lookup returns a string, "1",
    which is not the sentinel. *)
Lemma getString_mid_string_counterexample :
  getString (reader_with_pool (Sample.pool_of ["Volume 1"; "Extras"])) 7
    = Some "1"
  /\ bool_decide (7 ∈ Sample.string_starts 0 ["Volume 1"; "Extras"]) = false.
Proof. split; reflexivity. Qed.

(** ** Opening a container *)

Lemma stream_open_found files dirs path bytes :
  files !! path = Some bytes ->
  stream_open files dirs path =
    mk_ifstream true bytes (Z.of_nat (length bytes)) false.
Proof. intros H. unfold stream_open. rewrite H. reflexivity. Qed.

Lemma length_fresh_header L stack_mem :
  length (header_raw (fresh_reader L stack_mem)) = sizeof_BBFHeader L.
Proof. simpl. rewrite length_fmap, length_seq. reflexivity. Qed.

Lemma length_fresh_footer L stack_mem :
  length (footer_raw (fresh_reader L stack_mem)) = sizeof_BBFFooter L.
Proof. simpl. rewrite length_fmap, length_seq. reflexivity. Qed.

(** [open] on a file that holds a whole header and a whole footer. *)
Lemma open_whole_file (L : Layout) (stack_mem : nat -> ascii)
    (files : gmap string (list ascii)) (dirs : gset string) (path : string)
    (bytes : list ascii) :
  files !! path = Some bytes ->
  (sizeof_BBFHeader L <= length bytes)%nat ->
  (sizeof_BBFFooter L <= length bytes)%nat ->
  Z.of_nat (length bytes) < 2 ^ 63 ->
  exists r' : BBFReader,
    open L path files dirs (fresh_reader L stack_mem) =
      (if bool_decide
            (BBFHeader.magic
               (decode_header L (take (sizeof_BBFHeader L) bytes)) = "BBF1")
          && bool_decide
               (BBFFooter.magic
                  (decode_footer L
                     (drop (length bytes - sizeof_BBFFooter L) bytes))
                = "BBF1")
       then
         if max_size
              <? u64 (BBFFooter.assetTableOffset
                        (decode_footer L
                           (drop (length bytes - sizeof_BBFFooter L) bytes))
                      - BBFFooter.stringPoolOffset
                          (decode_footer L
                             (drop (length bytes - sizeof_BBFFooter L) bytes)))
         then None else Some true
       else Some false,
       r')
    /\ header_raw r' = take (sizeof_BBFHeader L) bytes.
Proof.
  intros Hsome Hh Hf Hlen. unfold open.
  rewrite (stream_open_found _ _ _ _ Hsome). cbn [is_open negb].
  unfold tellg. cbn [failbit gpos].
  rewrite (u64_small (Z.of_nat (length bytes))) by lia.
  rewrite seekg_ok; [| reflexivity | lia]. cbn [is_open content].
  rewrite stream_read_exact;
    [| reflexivity | cbn; lia | lia | cbn; lia
     | rewrite length_fresh_header; lia ].
  cbn [gpos content is_open]. rewrite Nat2Z.id, drop_0.
  unfold header at 1. cbn [header_raw].
  case_bool_decide as Hm; cbn [negb andb].
  2: { rewrite (bool_decide_eq_false_2 _ Hm). eexists. split; reflexivity. }
  rewrite (bool_decide_eq_true_2 _ Hm). cbn [andb].
  rewrite u64_small by lia.
  rewrite seekg_ok; [| reflexivity | lia]. cbn [is_open content].
  rewrite stream_read_exact;
    [| reflexivity | cbn; lia | lia | cbn; lia
     | rewrite length_fresh_footer; lia ].
  cbn [gpos content is_open].
  replace (Z.to_nat (Z.of_nat (length bytes) - Z.of_nat (sizeof_BBFFooter L)))
    with (length bytes - sizeof_BBFFooter L)%nat by lia.
  rewrite Nat2Z.id.
  rewrite (take_ge (drop _ bytes)) by (rewrite length_drop; lia).
  unfold footer. cbn [footer_raw].
  case_bool_decide as Hfm; cbn [negb].
  2: { rewrite ?(bool_decide_eq_false_2 _ Hfm). eexists. split; reflexivity. }
  rewrite ?(bool_decide_eq_true_2 _ Hfm).
  destruct (max_size <? _); [eexists; split; reflexivity|].
  destruct (stream_read _ _ _) as [pool s6].
  eexists. split; reflexivity.
Qed.

(** C4 (as amended): [open] fails when the path names neither a file nor
    a directory.  For a file that holds a whole header and a whole footer
    it looks at the magic of the first [sizeof(BBFHeader)] bytes and at the
    magic of the last [sizeof(BBFFooter)] bytes and at nothing else: it
    fails when one of them is not "BBF1"; when both are, it succeeds,
    unless the size of the string pool (the asset-table offset less the
    string-pool offset, in 64-bit unsigned arithmetic) is beyond what a
    vector can hold, in which case the resize of line 61 throws.  The
    version byte is read into the header and never examined: whatever it
    is, the reader holds it after [open]. *)
Theorem open_checks_magic_only (L : Layout) (stack_mem : nat -> ascii)
    (files : gmap string (list ascii)) (dirs : gset string) (path : string) :
  (files !! path = None -> path ∉ dirs ->
   fst (open L path files dirs (fresh_reader L stack_mem)) = Some false)
  /\
  (forall bytes : list ascii,
     files !! path = Some bytes ->
     (sizeof_BBFHeader L <= length bytes)%nat ->
     (sizeof_BBFFooter L <= length bytes)%nat ->
     Z.of_nat (length bytes) < 2 ^ 63 ->
     fst (open L path files dirs (fresh_reader L stack_mem)) =
       (if bool_decide
             (BBFHeader.magic
                (decode_header L (take (sizeof_BBFHeader L) bytes)) = "BBF1")
           && bool_decide
                (BBFFooter.magic
                   (decode_footer L
                      (drop (length bytes - sizeof_BBFFooter L) bytes))
                 = "BBF1")
        then
          if max_size
               <? u64 (BBFFooter.assetTableOffset
                         (decode_footer L
                            (drop (length bytes - sizeof_BBFFooter L) bytes))
                       - BBFFooter.stringPoolOffset
                           (decode_footer L
                              (drop (length bytes - sizeof_BBFFooter L)
                                 bytes)))
          then None else Some true
        else Some false)
     /\ header L (snd (open L path files dirs (fresh_reader L stack_mem))) =
          decode_header L (take (sizeof_BBFHeader L) bytes)).
Proof.
  split.
  - intros Hnone Hnodir. unfold open, stream_open.
    rewrite Hnone, (bool_decide_eq_false_2 _ Hnodir). reflexivity.
  - intros bytes Hsome Hh Hf Hlen.
    destruct (open_whole_file L stack_mem files dirs path bytes
                Hsome Hh Hf Hlen) as (r' & -> & Hraw).
    cbn [fst snd]. unfold header. rewrite Hraw. split; reflexivity.
Qed.

(** C4, witness: the empty container with version byte 1 opens, and no
    file "missing.bbf" can be opened. *)
Lemma open_checks_magic_only_witness :
  fst (open Sample.layout "b.bbf" (empty_book 1) ∅
         (fresh_reader Sample.layout Sample.stack_mem)) = Some true
  /\ fst (open Sample.layout "missing.bbf" (empty_book 1) ∅
            (fresh_reader Sample.layout Sample.stack_mem)) = Some false.
Proof.
  split.
  - refine (eq_trans
      (proj1 (proj2 (open_checks_magic_only Sample.layout Sample.stack_mem
                       (empty_book 1) ∅ "b.bbf")
                (Sample.container 1 [] [] [] [] [] [])
                eq_refl _ _ _)) _).
    + vm_compute. lia.
    + vm_compute. lia.
    + vm_compute. reflexivity.
    + vm_compute. reflexivity.
  - apply (proj1 (open_checks_magic_only Sample.layout Sample.stack_mem
                    (empty_book 1) ∅ "missing.bbf")).
    + reflexivity.
    + by_decision.
Defined.

(** C4, counterexample.  With both magics right, every one of the 256
    version bytes is accepted by [open] and ends up in the reader's header:
    none is rejected as unsupported.  And a file of five bytes, too short
    to hold a footer, opens when the footer object happens to hold "BBF1"
    already: the short read is not noticed. *)
Lemma open_accepts_every_version_counterexample :
  forallb
    (fun version =>
       bool_decide
         (fst (open Sample.layout "b.bbf" (empty_book version) ∅
                 (fresh_reader Sample.layout Sample.stack_mem)) = Some true)
       && (BBFHeader.version
             (header Sample.layout
                (snd (open Sample.layout "b.bbf" (empty_book version) ∅
                        (fresh_reader Sample.layout Sample.stack_mem))))
           =? version))
    (seqZ 0 256)
  = true
  /\ fst (open Sample.layout "h.bbf" header_only ∅
            (fresh_reader Sample.layout stale_stack)) = Some true.
Proof. split; vm_compute; reflexivity. Qed.

(** ** Verify *)

Lemma length_zeros n : length (zeros n) = Z.to_nat n.
Proof. unfold zeros. apply length_replicate. Qed.

Lemma read_asset_fits (a : BBFAssetEntry.t) (s : ifstream) :
  length_fits a -> read_asset a s = Some (fill_buffer a s).
Proof.
  unfold length_fits, read_asset. intros Hfit.
  destruct (Z.ltb_spec max_size (BBFAssetEntry.length a)); [lia | reflexivity].
Qed.

Lemma read_asset_throws (a : BBFAssetEntry.t) (s : ifstream) :
  ~ length_fits a -> read_asset a s = None.
Proof.
  unfold length_fits, read_asset. intros Hfit.
  destruct (Z.ltb_spec max_size (BBFAssetEntry.length a)); [reflexivity | lia].
Qed.


(** Reading an asset whose range lies inside the file yields its bytes. *)
Lemma fill_buffer_in_file (a : BBFAssetEntry.t) (s : ifstream) :
  failbit s = false -> asset_in_file (content s) a ->
  fill_buffer a s =
    (asset_bytes (content s) a,
     mk_ifstream (is_open s) (content s)
       (BBFAssetEntry.offset a + BBFAssetEntry.length a) false).
Proof.
  intros Hf (Ho & Hl & Hin & Hmax). unfold fill_buffer. cbv zeta.
  rewrite seekg_ok; [| exact Hf | lia].
  rewrite stream_read_exact;
    [ reflexivity | reflexivity | cbn; lia | lia | cbn; lia
    | rewrite length_zeros; lia ].
Qed.


(** The loop over an asset table in which a vector can be had for every
    entry, on any stream. *)
Lemma verify_loop_reread (XXH3_64bits : list ascii -> Z)
    (assets : list BBFAssetEntry.t) :
  Forall length_fits assets ->
  forall (i : Z) (s : ifstream) (clean : bool) (w : world),
    exists s' : ifstream,
      verify_loop XXH3_64bits assets i s clean w =
        (Some (s',
               clean && bool_decide
                          (mismatches_of XXH3_64bits i assets
                             (reread assets s) = [])),
         {| files := files w; dirs := dirs w; cout := cout w;
            cerr := cerr w ++
                    (mismatch_line <$>
                       mismatches_of XXH3_64bits i assets (reread assets s)) |}).
Proof.
  induction assets as [|a rest IH]; intros Hfits i s clean w.
  - exists s. cbn. rewrite andb_true_r, app_nil_r. by destruct w.
  - apply Forall_cons in Hfits as [Hfit Hfits].
    cbn [verify_loop reread mismatches_of].
    rewrite (read_asset_fits a s Hfit).
    destruct (fill_buffer a s) as [buf s1]. cbn [fst snd].
    destruct (u64 (XXH3_64bits buf) =? BBFAssetEntry.xxh3Hash a); cbn [negb].
    + apply (IH Hfits).
    + destruct (IH Hfits (i + 1) s1 false
                  (eprint ("Mismatch in asset " +:+ to_string i +:+ nl) w))
        as [s' Hs'].
      exists s'. rewrite Hs'. cbn [eprint files dirs cout cerr fmap list_fmap].
      rewrite andb_false_r, <- app_assoc. reflexivity.
Qed.

(** An entry for which no vector can be had ends the loop with the
    exception. *)
Lemma verify_loop_throws (XXH3_64bits : list ascii -> Z)
    (assets : list BBFAssetEntry.t) :
  ~ Forall length_fits assets ->
  forall (i : Z) (s : ifstream) (clean : bool) (w : world),
    fst (verify_loop XXH3_64bits assets i s clean w) = None.
Proof.
  induction assets as [|a rest IH]; intros Hnot i s clean w.
  - exfalso. apply Hnot. constructor.
  - cbn [verify_loop].
    destruct (Z.le_gt_cases (BBFAssetEntry.length a) max_size) as [Hfit|Hbig].
    + rewrite (read_asset_fits a s Hfit).
      destruct (fill_buffer a s) as [buf s1].
      assert (Hrest : ~ Forall length_fits rest).
      { intros Hrest. apply Hnot. by constructor. }
      destruct (negb _); apply (IH Hrest).
    + rewrite read_asset_throws; [reflexivity|].
      unfold length_fits. lia.
Qed.

(** The loop writes to [cerr] only. *)
Lemma verify_loop_files (XXH3_64bits : list ascii -> Z)
    (assets : list BBFAssetEntry.t) :
  forall (i : Z) (s : ifstream) (clean : bool) (w : world),
    same_files w (snd (verify_loop XXH3_64bits assets i s clean w))
    /\ cout (snd (verify_loop XXH3_64bits assets i s clean w)) = cout w.
Proof.
  induction assets as [|a rest IH]; intros i s clean w.
  - by repeat split.
  - cbn [verify_loop]. destruct (read_asset a s) as [[buf s1]|];
      [| by repeat split].
    destruct (negb _); [| apply IH].
    destruct (IH (i + 1) s1 false
                (eprint ("Mismatch in asset " +:+ to_string i +:+ nl) w))
      as ([Hf Hd] & Hc).
    by repeat split.
Qed.

Lemma length_reread (assets : list BBFAssetEntry.t) :
  forall s : ifstream, length (reread assets s) = length assets.
Proof.
  induction assets as [|a rest IH]; intros s; [reflexivity|].
  cbn [reread length]. by rewrite IH.
Qed.

(** Inside the file, what is re-read is the byte range of each asset. *)
Lemma reread_in_file (assets : list BBFAssetEntry.t) :
  forall s : ifstream,
    failbit s = false ->
    Forall (asset_in_file (content s)) assets ->
    reread assets s = asset_bytes (content s) <$> assets.
Proof.
  induction assets as [|a rest IH]; intros s Hf Hall; [reflexivity|].
  apply Forall_cons in Hall as [Ha Hrest].
  cbn [reread fmap list_fmap]. rewrite (fill_buffer_in_file a s Hf Ha).
  cbn [fst snd]. f_equal. apply (IH (mk_ifstream _ _ _ _) eq_refl Hrest).
Qed.

Lemma lookup_cons_shift {A : Type} (h : A) (l : list A) (i j : Z) :
  i + 1 <= j -> (h :: l) !! Z.to_nat (j - i) = l !! Z.to_nat (j - (i + 1)).
Proof.
  intros Hle.
  replace (Z.to_nat (j - i)) with (S (Z.to_nat (j - (i + 1)))) by lia.
  reflexivity.
Qed.

(** What [mismatches_of] lists. *)
Lemma elem_of_mismatches_of hash (assets : list BBFAssetEntry.t) :
  forall (bufs : list (list ascii)) (i j : Z),
    j ∈ mismatches_of hash i assets bufs <->
    exists a buf, i <= j /\ assets !! Z.to_nat (j - i) = Some a
                  /\ bufs !! Z.to_nat (j - i) = Some buf
                  /\ (u64 (hash buf) =? BBFAssetEntry.xxh3Hash a) = false.
Proof.
  induction assets as [|a rest IH]; intros bufs i j.
  - cbn. rewrite elem_of_nil. split; [tauto|].
    intros (x & buf & _ & H & _). discriminate.
  - destruct bufs as [|buf0 bufs].
    { cbn. rewrite elem_of_nil. split; [tauto|].
      intros (x & buf & _ & _ & H & _). discriminate. }
    cbn [mismatches_of].
    destruct (u64 (hash buf0) =? BBFAssetEntry.xxh3Hash a) eqn:Hm.
    + rewrite IH. split.
      * intros (x & buf & Hle & Hx & Hbuf & Hb). exists x, buf.
        rewrite !lookup_cons_shift by lia. split; [lia | by repeat split].
      * intros (x & buf & Hle & Hx & Hbuf & Hb).
        destruct (Z.eq_dec j i) as [->|Hne].
        -- rewrite Z.sub_diag in Hx, Hbuf.
           change (Some a = Some x) in Hx. change (Some buf0 = Some buf) in Hbuf.
           injection Hx as <-. injection Hbuf as <-. congruence.
        -- rewrite lookup_cons_shift in Hx by lia.
           rewrite lookup_cons_shift in Hbuf by lia.
           exists x, buf. split; [lia | by repeat split].
    + rewrite elem_of_cons, IH. split.
      * intros [->|(x & buf & Hle & Hx & Hbuf & Hb)].
        -- exists a, buf0. rewrite Z.sub_diag. split; [lia|].
           split; [reflexivity|]. split; [reflexivity | exact Hm].
        -- exists x, buf. rewrite !lookup_cons_shift by lia.
           split; [lia | by repeat split].
      * intros (x & buf & Hle & Hx & Hbuf & Hb).
        destruct (Z.eq_dec j i) as [->|Hne]; [by left | right].
        rewrite lookup_cons_shift in Hx by lia.
        rewrite lookup_cons_shift in Hbuf by lia.
        exists x, buf. split; [lia | by repeat split].
Qed.

(** [do_verify] in full, when a vector can be had for every entry. *)
Lemma do_verify_reread (L : Layout) (XXH3_64bits : list ascii -> Z)
    (r r1 : BBFReader) (w : world) (assets : list BBFAssetEntry.t) :
  getAssets L r = (assets, r1) ->
  Forall length_fits assets ->
  exists r' : BBFReader,
    do_verify L XXH3_64bits r w =
      Next r'
        {| files := files w; dirs := dirs w;
           cout := cout w ++ ["Verifying asset integrity..." +:+ nl] ++
                   (if bool_decide
                         (mismatches_of XXH3_64bits 0 assets
                            (reread assets (stream r1)) = [])
                    then ["Integrity Check Passed." +:+ nl] else []);
           cerr := cerr w ++
                   (mismatch_line <$>
                      mismatches_of XXH3_64bits 0 assets
                        (reread assets (stream r1))) |}.
Proof.
  intros Hassets Hfits. unfold do_verify. rewrite Hassets.
  destruct (verify_loop_reread XXH3_64bits assets Hfits 0 (stream r1) true
              (print ("Verifying asset integrity..." +:+ nl) w))
    as [s' ->].
  cbn [andb]. eexists. case_bool_decide; unfold print; cbn [files dirs cout cerr].
  - rewrite <- app_assoc. reflexivity.
  - rewrite app_nil_r. reflexivity.
Qed.

(** [do_verify] when no vector can be had for some entry. *)
Lemma do_verify_throws (L : Layout) (XXH3_64bits : list ascii -> Z)
    (r r1 : BBFReader) (w : world) (assets : list BBFAssetEntry.t) :
  getAssets L r = (assets, r1) ->
  ~ Forall length_fits assets ->
  exists w' : world, do_verify L XXH3_64bits r w = Stop Terminated w'.
Proof.
  intros Hassets Hnot. unfold do_verify. rewrite Hassets.
  pose proof (verify_loop_throws XXH3_64bits assets Hnot 0 (stream r1) true
                (print ("Verifying asset integrity..." +:+ nl) w)) as Hthrow.
  destruct (verify_loop _ _ _ _ _ _) as [[[s clean]|] w1]; [discriminate|].
  by eexists.
Qed.

(** C5: over an asset table in which a vector can be had for every entry
    (every length is at most [max_size]), verify re-reads every entry, one
    buffer per entry whatever the earlier comparisons gave; it writes one
    "Mismatch in asset i" line to [cerr] for each index [i] at which the
    hash of the bytes re-read differs from the stored hash, each such index
    and no other, in table order; and it writes "Integrity Check Passed."
    exactly when there is no such index.  When the byte ranges lie inside
    the file, the bytes re-read are the byte range of each asset.  Over a
    table with a length beyond [max_size] the pass does not come to an
    end: the exception of line 326 ends the process. *)
Theorem verify_checks_every_asset (L : Layout)
    (XXH3_64bits : list ascii -> Z) (r r1 : BBFReader) (w : world)
    (assets : list BBFAssetEntry.t) :
  getAssets L r = (assets, r1) ->
  (Forall length_fits assets ->
   exists (r' : BBFReader) (w' : world) (mism : list Z),
     do_verify L XXH3_64bits r w = Next r' w'
     /\ mism = mismatches_of XXH3_64bits 0 assets (reread assets (stream r1))
     /\ length (reread assets (stream r1)) = length assets
     /\ cerr w' = cerr w ++ (mismatch_line <$> mism)
     /\ (forall i : Z,
           i ∈ mism <->
           exists a buf,
             0 <= i /\ assets !! Z.to_nat i = Some a
             /\ reread assets (stream r1) !! Z.to_nat i = Some buf
             /\ (u64 (XXH3_64bits buf) =? BBFAssetEntry.xxh3Hash a) = false)
     /\ cout w' =
          cout w ++ ["Verifying asset integrity..." +:+ nl] ++
          (if bool_decide (mism = [])
           then ["Integrity Check Passed." +:+ nl] else [])
     /\ (failbit (stream r1) = false ->
         Forall (asset_in_file (content (stream r1))) assets ->
         reread assets (stream r1)
           = asset_bytes (content (stream r1)) <$> assets))
  /\ (~ Forall length_fits assets ->
      exists w' : world, do_verify L XXH3_64bits r w = Stop Terminated w').
Proof.
  intros Hassets. split; [| apply (do_verify_throws _ _ _ _ _ _ Hassets)].
  intros Hfits.
  destruct (do_verify_reread L XXH3_64bits r r1 w assets Hassets Hfits)
    as [r' Hr'].
  eexists r', _, _. split; [exact Hr'|]. split; [reflexivity|].
  split; [apply length_reread|]. cbn [cerr cout].
  split; [reflexivity|]. split.
  { intros i. rewrite elem_of_mismatches_of. by setoid_rewrite Z.sub_0_r. }
  split; [reflexivity|]. apply reread_in_file.
Qed.

(** C5, witness: in the sample book with both stored hashes wrong, both
    assets are reported and the check does not pass. *)
Lemma verify_checks_every_asset_witness :
  exists (r' : BBFReader) (w' : world),
    do_verify Sample.layout Sample.byte_sum (book_reader 0 0)
      (book_world 0 0) = Next r' w'
    /\ cerr w' = [mismatch_line 0; mismatch_line 1]
    /\ cout w' = ["Verifying asset integrity..." +:+ nl].
Proof.
  destruct (proj1 (verify_checks_every_asset Sample.layout Sample.byte_sum
              (book_reader 0 0)
              (snd (getAssets Sample.layout (book_reader 0 0)))
              (book_world 0 0)
              [ BBFAssetEntry.mk 5 2 0 2; BBFAssetEntry.mk 7 3 0 1 ]
              ltac:(by_evaluation)))
    as (r' & w' & mism & Hrun & Hmism & _ & Hcerr & _ & Hcout & _).
  - each_by_evaluation.
  - exists r', w'. split; [exact Hrun|]. subst mism.
    split; [rewrite Hcerr | rewrite Hcout]; vm_compute; reflexivity.
Defined.

(** [do_verify] goes on to the next block, or the process ends with the
    exception of line 326. *)
Lemma do_verify_step (L : Layout) (XXH3_64bits : list ascii -> Z)
    (r : BBFReader) (w : world) :
  (exists (r' : BBFReader) (w' : world),
     do_verify L XXH3_64bits r w = Next r' w')
  \/ (exists w' : world, do_verify L XXH3_64bits r w = Stop Terminated w').
Proof.
  unfold do_verify. destruct (getAssets L r) as [assets r1].
  destruct (verify_loop _ _ _ _ _ _) as [[[s clean]|] w1].
  - left. eexists _, _. reflexivity.
  - right. by eexists.
Qed.

(** [main] when "--verify" is given without "--extract", the container
    opens and control reaches the verify block. *)
Lemma main_verify_last (L : Layout) (XXH3_64bits : list ascii -> Z)
    (B : BuilderIO) (stack_mem : nat -> ascii) (args : list string)
    (w w0 : world) (o : options) (path : string) (rest : list string)
    (reader r : BBFReader) :
  (2 <= length args)%nat ->
  parse_args (tail args) initial_options = Some o ->
  modeVerify o = true -> modeExtract o = false ->
  inputs o = path :: rest ->
  open L path (files w) (dirs w) (fresh_reader L stack_mem)
    = (Some true, reader) ->
  when (modeInfo o) (do_info L) (Next reader w) = Next r w0 ->
  main L XXH3_64bits B stack_mem args w =
    match do_verify L XXH3_64bits r w0 with
    | Next _ w' => (Exit 0, w')
    | Stop oc w' => (oc, w')
    end.
Proof.
  intros Hlen Hparse Hv He Hin Hopen Hinfo. unfold main.
  destruct (Z.ltb_spec (Z.of_nat (length args)) 2) as [Hlt|_]; [lia|].
  rewrite Hparse, Hv, He, orb_true_r. cbn [orb]. unfold do_read.
  rewrite Hin, Hopen, Hinfo, Hv, He. cbn [negb when].
  by destruct (do_verify L XXH3_64bits r w0).
Qed.

(** C1 (as amended): when "--verify" is given without "--extract", the
    container opens and control reaches the verify block with an asset
    table in which a vector can be had for every entry, the exit code is 0
    whether or not the recomputed hash of some asset differs from the
    stored one.  What verify found shows only in what it wrote: one
    "Mismatch in asset i" line on [cerr] for each mismatch, and the
    "Integrity Check Passed." line on [cout] exactly when there is none.
    With an entry whose length is beyond [max_size] the process does not
    return at all: the exception of line 326 ends it. *)
Theorem verify_exit_code (L : Layout) (XXH3_64bits : list ascii -> Z)
    (B : BuilderIO) (stack_mem : nat -> ascii) (args : list string)
    (w w0 : world) (o : options) (path : string) (rest : list string)
    (reader r r1 : BBFReader) (assets : list BBFAssetEntry.t) :
  (2 <= length args)%nat ->
  parse_args (tail args) initial_options = Some o ->
  modeVerify o = true -> modeExtract o = false ->
  inputs o = path :: rest ->
  open L path (files w) (dirs w) (fresh_reader L stack_mem)
    = (Some true, reader) ->
  when (modeInfo o) (do_info L) (Next reader w) = Next r w0 ->
  getAssets L r = (assets, r1) ->
  (Forall length_fits assets ->
   fst (main L XXH3_64bits B stack_mem args w) = Exit 0
   /\ cerr (snd (main L XXH3_64bits B stack_mem args w))
      = cerr w0 ++
        (mismatch_line <$>
           mismatches_of XXH3_64bits 0 assets (reread assets (stream r1)))
   /\ cout (snd (main L XXH3_64bits B stack_mem args w))
      = cout w0 ++ ["Verifying asset integrity..." +:+ nl] ++
        (if bool_decide
              (mismatches_of XXH3_64bits 0 assets
                 (reread assets (stream r1)) = [])
         then ["Integrity Check Passed." +:+ nl] else []))
  /\ (~ Forall length_fits assets ->
      fst (main L XXH3_64bits B stack_mem args w) = Terminated).
Proof.
  intros Hlen Hparse Hv He Hin Hopen Hinfo Hassets.
  rewrite (main_verify_last L XXH3_64bits B stack_mem args w w0 o path rest
             reader r) by assumption.
  split.
  - intros Hfits.
    destruct (do_verify_reread L XXH3_64bits r r1 w0 assets Hassets Hfits)
      as [r' ->].
    by repeat split.
  - intros Hnot.
    by destruct (do_verify_throws L XXH3_64bits r r1 w0 assets Hassets Hnot)
      as [w' ->].
Qed.

(** C1, witness: "bbfmux b.bbf --verify" on the sample book with its
    right hashes (195 and 300 under [Sample.byte_sum]). *)
Lemma verify_exit_code_witness :
  fst (main Sample.layout Sample.byte_sum (Sample.builder_io true)
         Sample.stack_mem ["bbfmux"; "b.bbf"; "--verify"]
         (book_world 195 300)) = Exit 0.
Proof.
  refine (proj1 (proj1 (verify_exit_code Sample.layout Sample.byte_sum
           (Sample.builder_io true) Sample.stack_mem
           ["bbfmux"; "b.bbf"; "--verify"]
           (book_world 195 300) (book_world 195 300)
           (set_modes false true false (push_input "b.bbf" initial_options))
           "b.bbf" [] (book_reader 195 300) (book_reader 195 300)
           (snd (getAssets Sample.layout (book_reader 195 300)))
           book_assets _ _ _ _ _ _ _ _) _)).
  - simpl. lia.
  - by_evaluation.
  - reflexivity.
  - reflexivity.
  - reflexivity.
  - by_evaluation.
  - reflexivity.
  - by_evaluation.
  - each_by_evaluation.
Defined.

(** C1, counterexample.  First, "bbfmux b.bbf --verify" on the sample book
    whose second stored hash is wrong: asset 1 is reported and the exit
    code is 0.  Second, whatever function stands for [XXH3_64bits], the
    container that lists one asset under two different stored hashes has a
    mismatch, verify reports it, and the exit code is 0 all the same. *)
Lemma verify_mismatch_exit_code_counterexample :
  (fst (main Sample.layout Sample.byte_sum (Sample.builder_io true)
          Sample.stack_mem ["bbfmux"; "b.bbf"; "--verify"]
          (book_world 195 1)) = Exit 0
   /\ cerr (snd (main Sample.layout Sample.byte_sum (Sample.builder_io true)
                   Sample.stack_mem ["bbfmux"; "b.bbf"; "--verify"]
                   (book_world 195 1))) = [mismatch_line 1])
  /\
  (forall XXH3_64bits : list ascii -> Z,
     fst (main Sample.layout XXH3_64bits (Sample.builder_io true)
            Sample.stack_mem ["bbfmux"; "t.bbf"; "--verify"]
            (Sample.world_with "t.bbf" twice_listed)) = Exit 0
     /\ exists i : Z,
          mismatch_line i ∈
            cerr (snd (main Sample.layout XXH3_64bits (Sample.builder_io true)
                         Sample.stack_mem ["bbfmux"; "t.bbf"; "--verify"]
                         (Sample.world_with "t.bbf" twice_listed)))).
Proof.
  split.
  - split; vm_compute; reflexivity.
  - intros XXH3_64bits.
    set (r := snd (open Sample.layout "t.bbf"
                     (files (Sample.world_with "t.bbf" twice_listed))
                     (dirs (Sample.world_with "t.bbf" twice_listed))
                     (fresh_reader Sample.layout Sample.stack_mem))).
    rewrite (main_verify_last Sample.layout XXH3_64bits
               (Sample.builder_io true) Sample.stack_mem
               ["bbfmux"; "t.bbf"; "--verify"]
               (Sample.world_with "t.bbf" twice_listed)
               (Sample.world_with "t.bbf" twice_listed)
               (set_modes false true false (push_input "t.bbf" initial_options))
               "t.bbf" [] r r);
      [| simpl; lia | by_evaluation | reflexivity | reflexivity
       | reflexivity | by_evaluation | reflexivity ].
    destruct (do_verify_reread Sample.layout XXH3_64bits r
                (snd (getAssets Sample.layout r))
                (Sample.world_with "t.bbf" twice_listed)
                [ BBFAssetEntry.mk 5 5 0 2; BBFAssetEntry.mk 5 5 1 2 ])
      as [r' ->]; [by_evaluation | each_by_evaluation |].
    cbn [fst snd]. split; [reflexivity|].
    cbn [world_of cerr Sample.world_with app].
    replace (reread [ BBFAssetEntry.mk 5 5 0 2; BBFAssetEntry.mk 5 5 1 2 ]
               (stream (snd (getAssets Sample.layout r))))
      with [ bytes_of "abcde"; bytes_of "abcde" ] by by_evaluation.
    cbn [mismatches_of BBFAssetEntry.xxh3Hash].
    destruct (Z.eqb_spec (u64 (XXH3_64bits (bytes_of "abcde"))) 0) as [H0|H0].
    + rewrite H0. cbn. exists 1. apply list_elem_of_here.
    + exists 0. destruct (_ =? 1); apply list_elem_of_here.
Qed.

(** ** Range resolution *)

Lemma getSections_wf (L : Layout) (r : BBFReader) :
  Forall wf_section (fst (getSections L r)).
Proof.
  unfold getSections. destruct (read_table _ _ _ _) as [recs s].
  cbn [fst]. apply Forall_fmap, Forall_forall. intros raw _.
  split; cbn; apply u32_range.
Qed.

Lemma find_end_no_sibling (start myParent pageCount : Z)
    (later : list BBFSection.t) :
  (forall sj, sj ∈ later ->
     ~ (start < BBFSection.sectionStartIndex sj
        /\ BBFSection.parentSectionIndex sj = myParent)) ->
  find_end start myParent later pageCount = pageCount.
Proof.
  induction later as [|sj rest IH]; intros Hnone; [reflexivity|].
  cbn [find_end].
  destruct (Z.ltb_spec start (BBFSection.sectionStartIndex sj)) as [Hlt|Hge];
  destruct (Z.eqb_spec (BBFSection.parentSectionIndex sj) myParent)
    as [Heq|Hne]; cbn [andb];
  try (apply IH; intros sk Hsk; apply Hnone; by apply list_elem_of_further).
  exfalso. apply (Hnone sj); [apply list_elem_of_here | by split].
Qed.

Lemma find_end_first_sibling (start myParent pageCount : Z)
    (later : list BBFSection.t) :
  forall (d : nat) (sj : BBFSection.t),
    later !! d = Some sj ->
    start < BBFSection.sectionStartIndex sj ->
    BBFSection.parentSectionIndex sj = myParent ->
    (forall d' sk, (d' < d)%nat -> later !! d' = Some sk ->
       ~ (start < BBFSection.sectionStartIndex sk
          /\ BBFSection.parentSectionIndex sk = myParent)) ->
    find_end start myParent later pageCount
      = u32 (BBFSection.sectionStartIndex sj).
Proof.
  induction later as [|s0 rest IH]; intros d sj Hd Hlt Hpar Hfirst;
    [discriminate|].
  cbn [find_end]. destruct d as [|d].
  - injection Hd as ->.
    destruct (Z.ltb_spec start (BBFSection.sectionStartIndex sj)); [|lia].
    destruct (Z.eqb_spec (BBFSection.parentSectionIndex sj) myParent);
      [reflexivity | contradiction].
  - destruct (Z.ltb_spec start (BBFSection.sectionStartIndex s0)) as [Hlt0|Hge];
    destruct (Z.eqb_spec (BBFSection.parentSectionIndex s0) myParent)
      as [Heq|Hne]; cbn [andb];
    try (apply (IH d sj Hd Hlt Hpar); intros d' sk Hd' Hsk;
         apply (Hfirst (S d') sk); [lia | exact Hsk]).
    exfalso. apply (Hfirst 0%nat s0); [lia | reflexivity | by split].
Qed.

(** The search stops at the section the name resolves to. *)
Lemma find_section_resolves (r : BBFReader) (target : string)
    (pageCount : Z) (sections : list BBFSection.t) :
  forall (i : nat) (si : BBFSection.t),
    sections !! i = Some si ->
    resolves_to r target sections i ->
    find_section r target sections pageCount =
      Found (u32 (BBFSection.sectionStartIndex si))
        (find_end (u32 (BBFSection.sectionStartIndex si))
           (u32 (BBFSection.parentSectionIndex si))
           (drop (S i) sections) pageCount).
Proof.
  induction sections as [|s0 rest IH]; intros i si Hi [Hmatch Hfirst];
    [discriminate|].
  cbn [find_section]. destruct i as [|i].
  - injection Hi as ->. destruct Hmatch as (si' & Hsi' & Htitle).
    injection Hsi' as <-. unfold title_of in Htitle.
    destruct (getString r (BBFSection.sectionTitleOffset si)) as [t|];
      [|discriminate].
    injection Htitle as Ht. rewrite bool_decide_eq_true_2 by exact Ht.
    reflexivity.
  - destruct (Hfirst 0%nat s0) as (t & Ht & Hne); [lia | reflexivity |].
    unfold title_of in Ht.
    destruct (getString r (BBFSection.sectionTitleOffset s0)) as [t0|];
      [|discriminate].
    injection Ht as Ht. rewrite bool_decide_eq_false_2 by (rewrite Ht; exact Hne).
    apply (IH i si Hi). split; [exact Hmatch|].
    intros j sj Hj Hsj. apply (Hfirst (S j) sj); [lia | exact Hsj].
Qed.

(** C2: when the target name resolves to the section at table index [i],
    extract's range starts at that section's start page; it ends at the
    page count unless a later section of the table starts after it under
    the same parent, and then at the start page of the first such section.
    For A(0, no parent), B(5, parent A), C(10, no parent) and 10 pages: A
    resolves to [0,10), B to [5,10) and C to [10,10). *)
Theorem section_range_resolution :
  (forall (r : BBFReader) (target : string) (sections : list BBFSection.t)
          (pageCount : Z) (i : nat) (si : BBFSection.t),
     Forall wf_section sections ->
     sections !! i = Some si ->
     resolves_to r target sections i ->
     exists end_ : Z,
       find_section r target sections pageCount
         = Found (BBFSection.sectionStartIndex si) end_
       /\ ((forall j sj, (i < j)%nat -> sections !! j = Some sj ->
              ~ later_sibling si sj) ->
           end_ = pageCount)
       /\ (forall j sj,
             (i < j)%nat -> sections !! j = Some sj -> later_sibling si sj ->
             (forall k sk, (i < k < j)%nat -> sections !! k = Some sk ->
                ~ later_sibling si sk) ->
             end_ = BBFSection.sectionStartIndex sj))
  /\ find_section abc_reader "A" abc_sections 10 = Found 0 10
  /\ find_section abc_reader "B" abc_sections 10 = Found 5 10
  /\ find_section abc_reader "C" abc_sections 10 = Found 10 10.
Proof.
  split; [| repeat split; vm_compute; reflexivity].
  intros r target sections pageCount i si Hwf Hi Hres.
  destruct (Forall_lookup_1 _ _ _ _ Hwf Hi) as [Hstart Hparent].
  rewrite (find_section_resolves r target pageCount sections i si Hi Hres).
  rewrite (u32_small _ Hstart), (u32_small _ Hparent).
  eexists. split; [reflexivity|]. split.
  - intros Hnone. apply find_end_no_sibling. intros sj Hin.
    apply list_elem_of_lookup_1 in Hin as [d Hd].
    rewrite lookup_drop in Hd.
    apply (Hnone (S i + d)%nat sj); [lia | exact Hd].
  - intros j sj Hij Hj [Hlt Hpar] Hfirst.
    rewrite (find_end_first_sibling _ _ _ _ (j - S i)%nat sj).
    + destruct (Forall_lookup_1 _ _ _ _ Hwf Hj) as [Hs _].
      apply u32_small, Hs.
    + rewrite lookup_drop. replace (S i + (j - S i))%nat with j by lia.
      exact Hj.
    + exact Hlt.
    + exact Hpar.
    + intros d' sk Hd' Hsk. rewrite lookup_drop in Hsk.
      apply (Hfirst (S i + d')%nat sk); [lia | exact Hsk].
Qed.

(** C2, witness: the general statement at section A of the example, whose
    range ends where C, the first later section without a parent, starts;
    B, which lies between them under parent A, is passed over. *)
Lemma section_range_resolution_witness :
  find_section abc_reader "A" abc_sections 10 = Found 0 10.
Proof.
  destruct (proj1 section_range_resolution abc_reader "A" abc_sections 10
              0%nat (BBFSection.mk 0 0 NO_PARENT))
    as (end_ & Hfind & _ & Hfirst).
  - each_by_evaluation.
  - reflexivity.
  - split.
    + eexists. split; reflexivity.
    + intros j sj Hj. lia.
  - rewrite Hfind. f_equal.
    apply (Hfirst 2%nat (BBFSection.mk 4 10 NO_PARENT)).
    + lia.
    + reflexivity.
    + split; by_evaluation.
    + intros k sk Hk Hsk. assert (k = 1%nat) as -> by lia.
      injection Hsk as <-. intros [_ Hpar]. discriminate Hpar.
Defined.

(** ** Extract *)

Lemma find_section_no_match (r : BBFReader) (target : string)
    (pageCount : Z) (sections : list BBFSection.t) :
  (forall s, s ∈ sections ->
     exists t, title_of r s = Some t /\ t <> target) ->
  find_section r target sections pageCount = NotFound.
Proof.
  induction sections as [|s0 rest IH]; intros Hall; [reflexivity|].
  cbn [find_section].
  destruct (Hall s0) as (t & Ht & Hne); [apply list_elem_of_here|].
  unfold title_of in Ht.
  destruct (getString r (BBFSection.sectionTitleOffset s0)) as [t0|];
    [|discriminate].
  injection Ht as Ht. rewrite bool_decide_eq_false_2 by (rewrite Ht; exact Hne).
  apply IH. intros s Hs. apply Hall. by apply list_elem_of_further.
Qed.

(** [do_extract] once the directory exists and the tables are loaded. *)
Lemma do_extract_eq (L : Layout) (outDir targetSection : string)
    (r r3 : BBFReader) (w w1 : world) (pages : list BBFPageEntry.t)
    (assets : list BBFAssetEntry.t) (sections : list BBFSection.t) :
  create_directories outDir w = Some w1 ->
  extract_tables L r = (pages, assets, sections, r3) ->
  do_extract L outDir targetSection r w =
    match (if negb (bool_decide (targetSection = EmptyString))
           then find_section r3 targetSection sections
                  (u32 (Z.of_nat (length pages)))
           else Found 0 (u32 (Z.of_nat (length pages)))) with
    | LookupUndefined => Stop Undefined w1
    | NotFound => Stop (Exit 1) (eprint (not_found_line targetSection) w1)
    | Found start end_ =>
        match extract_pages (Z.to_nat (end_ - start)) start outDir
                pages assets (stream r3)
                (print ("Extracting " +:+ targetSection +:+ " (Pages "
                        +:+ to_string (u32 (start + 1)) +:+ " to "
                        +:+ to_string end_ +:+ ") to " +:+ outDir
                        +:+ "..." +:+ nl) w1) with
        | ExtractUndefined =>
            Stop Undefined
              (print ("Extracting " +:+ targetSection +:+ " (Pages "
                      +:+ to_string (u32 (start + 1)) +:+ " to "
                      +:+ to_string end_ +:+ ") to " +:+ outDir
                      +:+ "..." +:+ nl) w1)
        | ExtractThrew w2 => Stop Terminated w2
        | Extracted s w2 =>
            Next (set_stream s r3)
              (print ("Extracted " +:+ to_string (u32 (end_ - start))
                      +:+ " pages." +:+ nl) w2)
        end
    end.
Proof.
  intros Hdir Htab. unfold do_extract, extract_tables in *. rewrite Hdir.
  destruct (getPages L r) as [pages0 r1].
  destruct (getAssets L r1) as [assets0 r2].
  destruct (getSections L r2) as [sections0 r3'].
  injection Htab as -> -> -> ->. reflexivity.
Qed.

(** What [main] returns once control reaches the extract block: the code
    the block returns with, or 0 when the block runs to its end. *)
Lemma main_reaches_extract (L : Layout) (XXH3_64bits : list ascii -> Z)
    (B : BuilderIO) (stack_mem : nat -> ascii) (args : list string)
    (w w0 : world) (o : options) (path : string) (rest : list string)
    (reader r : BBFReader) :
  (2 <= length args)%nat ->
  parse_args (tail args) initial_options = Some o ->
  modeExtract o = true ->
  inputs o = path :: rest ->
  open L path (files w) (dirs w) (fresh_reader L stack_mem)
    = (Some true, reader) ->
  when (modeVerify o) (do_verify L XXH3_64bits)
    (when (modeInfo o) (do_info L) (Next reader w)) = Next r w0 ->
  main L XXH3_64bits B stack_mem args w =
    match do_extract L (outDir o) (targetSection o) r w0 with
    | Next _ w' => (Exit 0, w')
    | Stop oc w' => (oc, w')
    end.
Proof.
  intros Hlen Hparse He Hin Hopen Hbefore. unfold main.
  destruct (Z.ltb_spec (Z.of_nat (length args)) 2) as [Hlt|_]; [lia|].
  rewrite Hparse, He, !orb_true_r. unfold do_read.
  rewrite Hin, Hopen. cbn [negb]. rewrite Hbefore, He. reflexivity.
Qed.

Lemma create_directories_world (dir : string) (w w1 : world) :
  create_directories dir w = Some w1 ->
  files w1 = files w /\ dirs w1 = list_to_set (path_chain dir) ∪ dirs w
  /\ cout w1 = cout w /\ cerr w1 = cerr w.
Proof.
  unfold create_directories. repeat case_bool_decide; try discriminate.
  intros [= <-]. by repeat split.
Qed.

Lemma path_chain_self (dir : string) : dir ∈ path_chain dir.
Proof.
  unfold path_chain. apply elem_of_app. right. apply list_elem_of_here.
Qed.

(** The loop of extract is left by an exception only at an asset for
    which no vector can be had. *)
Lemma extract_pages_threw (outDir : string) (pages : list BBFPageEntry.t)
    (assets : list BBFAssetEntry.t) (n : nat) :
  forall (start : Z) (s : ifstream) (w w' : world),
    extract_pages n start outDir pages assets s w = ExtractThrew w' ->
    ~ Forall length_fits assets.
Proof.
  induction n as [|n IH]; intros start s w w' Hrun; [discriminate|].
  cbn [extract_pages] in Hrun.
  destruct (pages !! Z.to_nat start) as [page|]; [|discriminate].
  destruct (assets !! Z.to_nat (BBFPageEntry.assetIndex page))
    as [asset|] eqn:Hasset; [|discriminate].
  destruct (read_asset asset s) as [[buf s1]|] eqn:Hread.
  - exact (IH _ _ _ _ Hrun).
  - intros Hfits.
    rewrite (read_asset_fits asset s (Forall_lookup_1 _ _ _ _ Hfits Hasset))
      in Hread.
    discriminate.
Qed.

(** The extract block for a non-empty target name, once the directory
    exists and the tables are loaded. *)
Lemma do_extract_lookup (L : Layout) (outDir targetSection : string)
    (r r3 : BBFReader) (w w1 : world) (pages : list BBFPageEntry.t)
    (assets : list BBFAssetEntry.t) (sections : list BBFSection.t) :
  targetSection <> EmptyString ->
  create_directories outDir w = Some w1 ->
  extract_tables L r = (pages, assets, sections, r3) ->
  ((forall s, s ∈ sections ->
      exists t, title_of r3 s = Some t /\ t <> targetSection) ->
   do_extract L outDir targetSection r w
     = Stop (Exit 1) (eprint (not_found_line targetSection) w1)
   /\ files w1 = files w)
  /\
  (forall i : nat,
     resolves_to r3 targetSection sections i ->
     exists st,
       do_extract L outDir targetSection r w = st
       /\ match st with
          | Next _ _ => True
          | Stop oc _ =>
              oc = Undefined
              \/ (oc = Terminated /\ ~ Forall length_fits assets)
          end).
Proof.
  intros Hne Hdir Htab.
  rewrite (do_extract_eq L outDir targetSection r r3 w w1 pages assets
             sections Hdir Htab).
  rewrite bool_decide_eq_false_2 by exact Hne. cbn [negb].
  split.
  - intros Hnone. rewrite find_section_no_match by exact Hnone.
    split; [reflexivity|].
    by destruct (create_directories_world _ _ _ Hdir) as (Hf & _).
  - intros i Hres. pose proof Hres as [(si & Hsi & _) _].
    rewrite (find_section_resolves r3 targetSection _ sections i si Hsi Hres).
    destruct (extract_pages _ _ _ _ _ _ _) as [s w2|w2|] eqn:Hrun;
      eexists; (split; [reflexivity|]); [exact I | | by left].
    right. split; [reflexivity|].
    exact (extract_pages_threw _ _ _ _ _ _ _ _ Hrun).
Qed.

(** C6: in every run of [main] that reaches the extract block with a
    non-empty target name and creates the output directory: when no section
    has the name, "Section '...' not found." is written to [cerr], the
    exit code is 1, and the files are those there were when the block was
    entered (no page file is written); when the name resolves to a section,
    the lookup raises no failure: [main] returns 0, unless a page or asset
    index of the container lies outside its table, which is undefined
    behaviour, or the asset table holds a length beyond [max_size] and the
    vector constructor of line 388 throws. *)
Theorem extract_section_lookup (L : Layout) (XXH3_64bits : list ascii -> Z)
    (B : BuilderIO) (stack_mem : nat -> ascii) (args : list string)
    (w w0 w1 : world) (o : options) (path : string) (rest : list string)
    (reader r r3 : BBFReader) (pages : list BBFPageEntry.t)
    (assets : list BBFAssetEntry.t) (sections : list BBFSection.t) :
  (2 <= length args)%nat ->
  parse_args (tail args) initial_options = Some o ->
  modeExtract o = true ->
  inputs o = path :: rest ->
  open L path (files w) (dirs w) (fresh_reader L stack_mem)
    = (Some true, reader) ->
  when (modeVerify o) (do_verify L XXH3_64bits)
    (when (modeInfo o) (do_info L) (Next reader w)) = Next r w0 ->
  targetSection o <> EmptyString ->
  create_directories (outDir o) w0 = Some w1 ->
  extract_tables L r = (pages, assets, sections, r3) ->
  ((forall s, s ∈ sections ->
      exists t, title_of r3 s = Some t /\ t <> targetSection o) ->
   fst (main L XXH3_64bits B stack_mem args w) = Exit 1
   /\ cerr (snd (main L XXH3_64bits B stack_mem args w))
      = cerr w0 ++ [not_found_line (targetSection o)]
   /\ files (snd (main L XXH3_64bits B stack_mem args w)) = files w0)
  /\
  (forall i : nat,
     resolves_to r3 (targetSection o) sections i ->
     fst (main L XXH3_64bits B stack_mem args w) = Exit 0
     \/ fst (main L XXH3_64bits B stack_mem args w) = Undefined
     \/ (fst (main L XXH3_64bits B stack_mem args w) = Terminated
         /\ ~ Forall length_fits assets)).
Proof.
  intros Hlen Hparse He Hin Hopen Hbefore Hne Hdir Htab.
  rewrite (main_reaches_extract L XXH3_64bits B stack_mem args w w0 o path
             rest reader r Hlen Hparse He Hin Hopen Hbefore).
  destruct (do_extract_lookup L (outDir o) (targetSection o) r r3 w0 w1
              pages assets sections Hne Hdir Htab) as [Hnone Hfound].
  split.
  - intros Hall. destruct (Hnone Hall) as [-> Hfiles].
    cbn [fst snd eprint cerr files]. split; [reflexivity|].
    split; [|exact Hfiles].
    destruct (create_directories_world _ _ _ Hdir) as (_ & _ & _ & Herr).
    by rewrite Herr.
  - intros i Hres. destruct (Hfound i Hres) as (st & -> & Hst).
    destruct st as [r' w'|oc w']; [by left | right]. exact Hst.
Qed.

(** C6, witness: on the sample book, whose sections are "One" and "Two",
    "--section=Three" ends [main] with code 1 and leaves the one file
    there was; "--section=Two" ends it with code 0. *)
Lemma extract_section_lookup_witness :
  (fst (main Sample.layout Sample.byte_sum (Sample.builder_io true)
          Sample.stack_mem
          ["bbfmux"; "b.bbf"; "--extract"; "--section=Three"]
          (book_world 195 300)) = Exit 1
   /\ files (snd (main Sample.layout Sample.byte_sum (Sample.builder_io true)
                    Sample.stack_mem
                    ["bbfmux"; "b.bbf"; "--extract"; "--section=Three"]
                    (book_world 195 300)))
      = files (book_world 195 300))
  /\ (fst (main Sample.layout Sample.byte_sum (Sample.builder_io true)
             Sample.stack_mem
             ["bbfmux"; "b.bbf"; "--extract"; "--section=Two"]
             (book_world 195 300)) = Exit 0
      \/ fst (main Sample.layout Sample.byte_sum (Sample.builder_io true)
                Sample.stack_mem
                ["bbfmux"; "b.bbf"; "--extract"; "--section=Two"]
                (book_world 195 300)) = Undefined
      \/ (fst (main Sample.layout Sample.byte_sum (Sample.builder_io true)
                 Sample.stack_mem
                 ["bbfmux"; "b.bbf"; "--extract"; "--section=Two"]
                 (book_world 195 300)) = Terminated
          /\ ~ Forall length_fits book_assets)).
Proof.
  assert (Hdir : create_directories "./extracted" (book_world 195 300) =
                 Some (default (book_world 195 300)
                         (create_directories "./extracted"
                            (book_world 195 300)))) by by_evaluation.
  assert (Htab : extract_tables Sample.layout (book_reader 195 300) =
                 (book_pages, book_assets,
                  [ BBFSection.mk 0 0 NO_PARENT; BBFSection.mk 4 1 NO_PARENT ],
                  snd (extract_tables Sample.layout (book_reader 195 300))))
    by by_evaluation.
  split.
  - destruct (extract_section_lookup Sample.layout Sample.byte_sum
                (Sample.builder_io true) Sample.stack_mem
                ["bbfmux"; "b.bbf"; "--extract"; "--section=Three"]
                (book_world 195 300) (book_world 195 300) _
                (set_targetSection "Three"
                   (set_modes false false true
                      (push_input "b.bbf" initial_options)))
                "b.bbf" [] (book_reader 195 300) (book_reader 195 300) _ _ _ _
                ltac:(simpl; lia) ltac:(by_evaluation) eq_refl eq_refl
                ltac:(by_evaluation) eq_refl ltac:(discriminate) Hdir Htab)
      as [Hnone _].
    destruct Hnone as (Hcode & _ & Hfiles); [| split; assumption].
    intros s Hs. apply elem_of_cons in Hs as [->|Hs];
      [| apply list_elem_of_singleton in Hs as ->].
    + exists "One". split; by_evaluation.
    + exists "Two". split; by_evaluation.
  - apply (proj2 (extract_section_lookup Sample.layout Sample.byte_sum
                (Sample.builder_io true) Sample.stack_mem
                ["bbfmux"; "b.bbf"; "--extract"; "--section=Two"]
                (book_world 195 300) (book_world 195 300) _
                (set_targetSection "Two"
                   (set_modes false false true
                      (push_input "b.bbf" initial_options)))
                "b.bbf" [] (book_reader 195 300) (book_reader 195 300) _ _ _ _
                ltac:(simpl; lia) ltac:(by_evaluation) eq_refl eq_refl
                ltac:(by_evaluation) eq_refl ltac:(discriminate) Hdir Htab)
             1%nat).
    split.
    + eexists. split; [reflexivity | by_evaluation].
    + intros j sj Hj Hsj. assert (j = 0%nat) as -> by lia.
      injection Hsj as <-. exists "One". split; by_evaluation.
Defined.

(** When the extract block returns 1, [fs::create_directories] has run
    and nothing else has changed in the file system. *)
Lemma do_extract_failure (L : Layout) (dir targetSection : string)
    (r : BBFReader) (w w' : world) :
  do_extract L dir targetSection r w = Stop (Exit 1) w' ->
  dirs w' = list_to_set (path_chain dir) ∪ dirs w /\ files w' = files w.
Proof.
  intros Hstop.
  destruct (create_directories dir w) as [w1|] eqn:Hdir.
  2: { unfold do_extract in Hstop. rewrite Hdir in Hstop. discriminate. }
  destruct (extract_tables L r) as [[[pages assets] sections] r3] eqn:Htab.
  rewrite (do_extract_eq L dir targetSection r r3 w w1 pages assets
             sections Hdir Htab) in Hstop.
  assert (Hw1 : dirs w1 = list_to_set (path_chain dir) ∪ dirs w
                /\ files w1 = files w).
  { by destruct (create_directories_world _ _ _ Hdir) as (Hf & Hd & _). }
  destruct (if negb (bool_decide (targetSection = EmptyString)) then _ else _)
    as [start end_| |].
  - destruct (extract_pages _ _ _ _ _ _ _) as [s w2|w2|]; discriminate.
  - injection Hstop as <-. exact Hw1.
  - discriminate.
Qed.

(** C8: in every run of [main] that reaches the extract block and ends
    with exit code 1 (the section was not found), the output directory is
    in the file system afterwards: [fs::create_directories] ran before the
    lookup failed.  The directories are those there were, the output
    directory and the directories above it; the files are unchanged, so no
    page file was written.  Without "--outdir" the directory is
    "./extracted". *)
Theorem extract_failure_leaves_directory (L : Layout)
    (XXH3_64bits : list ascii -> Z) (B : BuilderIO)
    (stack_mem : nat -> ascii) (args : list string) (w w0 : world)
    (o : options) (path : string) (rest : list string)
    (reader r : BBFReader) :
  (2 <= length args)%nat ->
  parse_args (tail args) initial_options = Some o ->
  modeExtract o = true ->
  inputs o = path :: rest ->
  open L path (files w) (dirs w) (fresh_reader L stack_mem)
    = (Some true, reader) ->
  when (modeVerify o) (do_verify L XXH3_64bits)
    (when (modeInfo o) (do_info L) (Next reader w)) = Next r w0 ->
  fst (main L XXH3_64bits B stack_mem args w) = Exit 1 ->
  is_directory (outDir o) (snd (main L XXH3_64bits B stack_mem args w)) = true
  /\ dirs (snd (main L XXH3_64bits B stack_mem args w))
     = list_to_set (path_chain (outDir o)) ∪ dirs w0
  /\ dirs w0 ⊆ dirs (snd (main L XXH3_64bits B stack_mem args w))
  /\ files (snd (main L XXH3_64bits B stack_mem args w)) = files w0
  /\ outDir initial_options = "./extracted".
Proof.
  intros Hlen Hparse He Hin Hopen Hbefore.
  rewrite (main_reaches_extract L XXH3_64bits B stack_mem args w w0 o path
             rest reader r Hlen Hparse He Hin Hopen Hbefore).
  destruct (do_extract L (outDir o) (targetSection o) r w0)
    as [r' w'|oc w'] eqn:Hblock; cbn [fst snd]; [discriminate|].
  intros ->.
  destruct (do_extract_failure L (outDir o) (targetSection o) r w0 w' Hblock)
    as [Hdirs Hfiles].
  unfold is_directory. rewrite Hdirs, Hfiles. split.
  { apply (bool_decide_eq_true_2
             (outDir o ∈ list_to_set (path_chain (outDir o)) ∪ dirs w0)).
    apply elem_of_union_l, elem_of_list_to_set, path_chain_self. }
  split; [reflexivity|]. split; [apply union_subseteq_r|].
  split; reflexivity.
Qed.

(** C8, witness: "--extract --section=Three --outdir=out" on the sample
    book: "out" is no directory before the run and is one after it. *)
Lemma extract_failure_leaves_directory_witness :
  is_directory "out"
    (snd (main Sample.layout Sample.byte_sum (Sample.builder_io true)
            Sample.stack_mem
            ["bbfmux"; "b.bbf"; "--extract"; "--section=Three"; "--outdir=out"]
            (book_world 195 300))) = true
  /\ is_directory "out" (book_world 195 300) = false.
Proof.
  split; [| by_evaluation].
  apply (extract_failure_leaves_directory Sample.layout Sample.byte_sum
           (Sample.builder_io true) Sample.stack_mem
           ["bbfmux"; "b.bbf"; "--extract"; "--section=Three"; "--outdir=out"]
           (book_world 195 300) (book_world 195 300)
           (set_outDir "out"
              (set_targetSection "Three"
                 (set_modes false false true
                    (push_input "b.bbf" initial_options))))
           "b.bbf" [] (book_reader 195 300) (book_reader 195 300)).
  - simpl. lia.
  - by_evaluation.
  - reflexivity.
  - reflexivity.
  - by_evaluation.
  - reflexivity.
  - by_evaluation.
Defined.

(** ** The page files *)

Lemma page_ext_tag (asset : BBFAssetEntry.t) :
  page_ext asset =
    if bool_decide (BBFAssetEntry.type asset = 1) then ".avif" else ".png".
Proof.
  unfold page_ext.
  destruct (Z.eqb_spec (BBFAssetEntry.type asset) 1) as [H|H].
  - by rewrite bool_decide_eq_true_2.
  - by rewrite bool_decide_eq_false_2.
Qed.

Lemma dirs_write_file p bytes w : dirs (write_file p bytes w) = dirs w.
Proof. unfold write_file. case_bool_decide; reflexivity. Qed.

Lemma dom_write_file p bytes w :
  forall q : string,
    q ∈ dom (files (write_file p bytes w)) <->
    q ∈ dom (files w) \/ (q = p /\ p ∉ dirs w).
Proof.
  intros q. unfold write_file. case_bool_decide as Hdir; cbn [files].
  - split; [by left | intros [Hq|[_ Hq]]; [exact Hq | contradiction]].
  - rewrite dom_insert, elem_of_union, elem_of_singleton. tauto.
Qed.

(** C10: over a range of pages whose pages and assets exist, in a
    container in which a vector can be had for every asset (every length
    is at most [max_size]), the loop of extract completes whatever the type
    tags are, and the files it leaves are those there were and, for each
    page of the range, the file whose extension is ".avif" when the tag of
    the page's asset is 1 and ".png" for any other tag (where that path is
    not a directory). *)
Theorem extract_page_extension (outDir : string)
    (pages : list BBFPageEntry.t) (assets : list BBFAssetEntry.t) :
  Forall length_fits assets ->
  forall (n : nat) (start : Z) (s : ifstream) (w : world),
    0 <= start ->
    (forall i : Z, start <= i < start + Z.of_nat n ->
       is_Some (page_file outDir pages assets i)) ->
    exists (s' : ifstream) (w' : world),
      extract_pages n start outDir pages assets s w = Extracted s' w'
      /\ dirs w' = dirs w
      /\ forall p : string,
           p ∈ dom (files w') <->
           p ∈ dom (files w)
           \/ ((p ∉ dirs w)
               /\ exists i : Z, start <= i < start + Z.of_nat n
                    /\ page_file outDir pages assets i = Some p).
Proof.
  intros Hfits.
  induction n as [|n IH]; intros start s w Hstart Hvalid.
  - exists s, w. split; [reflexivity|]. split; [reflexivity|].
    intros p. split; [by left|]. intros [H|(_ & i & Hi & _)]; [exact H | lia].
  - cbn [extract_pages].
    destruct (Hvalid start) as [p0 Hp0]; [lia|].
    unfold page_file in Hp0.
    destruct (pages !! Z.to_nat start) as [page|] eqn:Hpage; [|discriminate].
    destruct (assets !! Z.to_nat (BBFPageEntry.assetIndex page))
      as [asset|] eqn:Hasset; [|discriminate].
    rewrite page_ext_tag. injection Hp0 as Hp0. rewrite Hp0.
    rewrite (read_asset_fits asset s (Forall_lookup_1 _ _ _ _ Hfits Hasset)).
    destruct (fill_buffer asset s) as [buf s1].
    set (w1 := write_file p0 _ w).
    destruct (IH (start + 1) s1 w1) as (s' & w' & Hrun & Hdirs & Hdom).
    { lia. }
    { intros i Hi. apply Hvalid. lia. }
    exists s', w'. split; [exact Hrun|].
    subst w1. rewrite dirs_write_file in Hdirs, Hdom.
    split; [exact Hdirs|].
    intros p. rewrite Hdom, dom_write_file. split.
    + intros [[H|[-> Hnd]]|(Hnd & i & Hi & Hfile)].
      * by left.
      * right. split; [exact Hnd|]. exists start. split; [lia|].
        unfold page_file. rewrite Hpage, Hasset, Hp0. reflexivity.
      * right. split; [exact Hnd|]. exists i. split; [lia | exact Hfile].
    + intros [H|(Hnd & i & Hi & Hfile)].
      * left. by left.
      * destruct (Z.eq_dec i start) as [->|Hne].
        -- left. right.
           unfold page_file in Hfile. rewrite Hpage, Hasset, Hp0 in Hfile.
           injection Hfile as <-. split; [reflexivity | exact Hnd].
        -- right. split; [exact Hnd|]. exists i. split; [lia | exact Hfile].
Qed.

(** C10, witness: the two pages of the sample book, the first a PNG (tag
    2) and the second an AVIF (tag 1), extracted into "out". *)
Lemma extract_page_extension_witness :
  exists (s' : ifstream) (w' : world),
    extract_pages 2 0 "out" book_pages book_assets
      (stream (book_reader 195 300)) (book_world 195 300) = Extracted s' w'
    /\ "out/page_1.png" ∈ dom (files w')
    /\ "out/page_2.avif" ∈ dom (files w').
Proof.
  destruct (extract_page_extension "out" book_pages book_assets
              ltac:(each_by_evaluation) 2 0
              (stream (book_reader 195 300)) (book_world 195 300))
    as (s' & w' & Hrun & _ & Hdom).
  - lia.
  - intros i Hi.
    assert (i = 0 \/ i = 1) as [-> | ->] by lia; eexists; by_evaluation.
  - exists s', w'. split; [exact Hrun|].
    split; apply Hdom; right; (split; [by_evaluation|]).
    + exists 0. split; [lia | by_evaluation].
    + exists 1. split; [lia | by_evaluation].
Defined.

(** ** Muxing *)

Lemma length_sections_addSection title start parentIdx b :
  b_sections (snd (addSection title start parentIdx b)) =
    b_sections b ++
    [ {| BBFSection.sectionTitleOffset :=
           u32 (Z.of_nat (length (b_stringPool b)));
         BBFSection.sectionStartIndex := u32 start;
         BBFSection.parentSectionIndex := u32 parentIdx |} ].
Proof. reflexivity. Qed.

(** The loop appends: the sections already in the table stay where they
    are. *)
Lemma mux_sections_lookup_old (reqs : list SecReq) :
  forall (m : gmap string Z) (c : Z) (b : BBFBuilder) (i : nat),
    (i < length (b_sections b))%nat ->
    b_sections (mux_sections reqs m c b) !! i = b_sections b !! i.
Proof.
  induction reqs as [|s rest IH]; intros m c b i Hi; [reflexivity|].
  cbn [mux_sections]. rewrite IH.
  - rewrite length_sections_addSection. apply lookup_app_l. exact Hi.
  - rewrite length_sections_addSection, length_app. cbn. lia.
Qed.

Lemma u32_le z : 0 <= z -> u32 z <= z.
Proof. intros H. unfold u32. apply Z.mod_le; lia. Qed.

Lemma u32_succ z : u32 (u32 z + 1) = u32 (z + 1).
Proof. unfold u32. apply Zplus_mod_idemp_l. Qed.

(** The loop from a state in which [handled] are the requests handled so
    far: the map sends the names of earlier requests, and nothing else, to
    values below their number, and the counter is that number (as a 32-bit
    value). *)
Lemma mux_sections_parent (reqs : list SecReq) :
  forall (handled : list SecReq) (m : gmap string Z) (c : Z)
         (b : BBFBuilder) (k : nat) (req : SecReq),
    (forall nm idx, m !! nm = Some idx ->
       0 <= idx < 2 ^ 32 /\ idx < Z.of_nat (length handled)
       /\ exists rj, rj ∈ handled /\ name rj = nm) ->
    c = u32 (Z.of_nat (length handled)) ->
    reqs !! k = Some req ->
    exists sec : BBFSection.t,
      b_sections (mux_sections reqs m c b) !! (length (b_sections b) + k)%nat
        = Some sec
      /\ ((forall rj, rj ∈ handled ++ take k reqs -> name rj <> parent req) ->
          BBFSection.parentSectionIndex sec = NO_PARENT)
      /\ (BBFSection.parentSectionIndex sec <> NO_PARENT ->
          0 <= BBFSection.parentSectionIndex sec
            < Z.of_nat (length handled + k))
      /\ 0 <= BBFSection.parentSectionIndex sec < 2 ^ 32.
Proof.
  induction reqs as [|s rest IH]; intros handled m c b k req Hinv Hc Hk;
    [discriminate|].
  cbn [mux_sections]. destruct k as [|k].
  - injection Hk as ->.
    rewrite mux_sections_lookup_old
      by (rewrite length_sections_addSection, length_app; cbn; lia).
    rewrite length_sections_addSection, Nat.add_0_r.
    rewrite lookup_app_r, Nat.sub_diag by lia.
    eexists. split; [reflexivity|]. cbn [BBFSection.parentSectionIndex].
    destruct (m !! parent req) as [idx|] eqn:Hm.
    + destruct (Hinv _ _ Hm) as (Hrange & Hlt & rj & Hrj & Hname).
      case_bool_decide as Hempty; cbn [negb andb].
      * split; [reflexivity | split; [intros Hne; contradiction | apply u32_range]].
      * rewrite bool_decide_eq_true_2 by eauto. cbn [from_option id].
        rewrite (u32_small _ Hrange). split; [|split].
        -- intros Hnone. exfalso. apply (Hnone rj); [|exact Hname].
           rewrite take_0, app_nil_r. exact Hrj.
        -- intros _. lia.
        -- exact Hrange.
    + rewrite (bool_decide_eq_false_2 (is_Some None))
        by (intros [? ?]; discriminate).
      rewrite andb_false_r.
      split; [reflexivity | split; [intros Hne; contradiction | apply u32_range]].
  - cbn [lookup list_lookup] in Hk.
    destruct (IH (handled ++ [s]) (<[ name s := c ]> m) (u32 (c + 1))
                (snd (addSection (name s) (u32 (page s - 1))
                        (if negb (bool_decide (parent s = EmptyString))
                            && bool_decide (is_Some (m !! parent s))
                         then default 0 (m !! parent s) else NO_PARENT) b))
                k req) as (sec & Hsec & Hnone & Hlt & Hrange).
    + intros nm idx Hlook. rewrite length_app. cbn [length].
      destruct (decide (name s = nm)) as [<-|Hne].
      * rewrite lookup_insert_eq in Hlook. injection Hlook as <-.
        subst c. split; [apply u32_range|].
        split; [pose proof (u32_le (Z.of_nat (length handled))); lia|].
        exists s. split; [|reflexivity].
        apply elem_of_app. right. apply list_elem_of_here.
      * rewrite lookup_insert_ne in Hlook by exact Hne.
        destruct (Hinv _ _ Hlook) as (Hrange & Hidx & rj & Hrj & Hname).
        split; [exact Hrange|]. split; [lia|].
        exists rj. split; [|exact Hname]. apply elem_of_app. by left.
    + subst c. rewrite u32_succ, length_app. cbn [length].
      f_equal. lia.
    + exact Hk.
    + rewrite length_sections_addSection, length_app in Hsec.
      cbn [length] in Hsec.
      replace (length (b_sections b) + 1 + k)%nat
        with (length (b_sections b) + S k)%nat in Hsec by lia.
      exists sec. split; [exact Hsec|]. split; [|split].
      * intros Hall. apply Hnone. intros rj Hrj. apply Hall.
        rewrite <- app_assoc in Hrj. exact Hrj.
      * intros Hne. specialize (Hlt Hne). rewrite length_app in Hlt.
        cbn [length] in Hlt. lia.
      * exact Hrange.
Qed.

(** C7: the section stored for the request at position [k] has the
    sentinel [0xFFFFFFFF], the largest 32-bit value, as its parent whenever
    no earlier request defines the parent's name, and a parent other than
    the sentinel is below [k], hence below the section's own table index
    (which is [k] counted from the sections the builder already held). *)
Theorem mux_parent_resolution (reqs : list SecReq) (b0 : BBFBuilder)
    (k : nat) (req : SecReq) :
  reqs !! k = Some req ->
  exists sec : BBFSection.t,
    b_sections (mux_sections reqs ∅ 0 b0) !! (length (b_sections b0) + k)%nat
      = Some sec
    /\ ((forall j rj, (j < k)%nat -> reqs !! j = Some rj ->
           name rj <> parent req) ->
        BBFSection.parentSectionIndex sec = NO_PARENT)
    /\ (BBFSection.parentSectionIndex sec <> NO_PARENT ->
        0 <= BBFSection.parentSectionIndex sec < Z.of_nat k)
    /\ NO_PARENT = 2 ^ 32 - 1
    /\ BBFSection.parentSectionIndex sec <= NO_PARENT.
Proof.
  intros Hk.
  destruct (mux_sections_parent reqs [] ∅ 0 b0 k req)
    as (sec & Hsec & Hnone & Hlt & Hrange).
  - intros nm idx Hlook. rewrite lookup_empty in Hlook. discriminate.
  - reflexivity.
  - exact Hk.
  - exists sec. split; [exact Hsec|]. split; [|split; [|split]].
    + intros Hall. apply Hnone. intros rj Hrj. cbn [app] in Hrj.
      apply elem_of_take in Hrj as (j & Hj & Hlt'). by apply (Hall j rj).
    + exact Hlt.
    + reflexivity.
    + unfold NO_PARENT. lia.
Qed.

(** C7, witness: of the three sample requests the third names a parent
    that no request defines, and is stored with the sentinel; the second
    names the first, and is stored with parent 0. *)
Lemma mux_parent_resolution_witness :
  exists sec : BBFSection.t,
    b_sections (mux_sections sample_reqs ∅ 0 new_builder) !! 2%nat = Some sec
    /\ BBFSection.parentSectionIndex sec = NO_PARENT.
Proof.
  destruct (mux_parent_resolution sample_reqs new_builder 2
              {| name := "Extras"; parent := "Volume 2"; page := 9 |}
              eq_refl)
    as (sec & Hsec & Hnone & _).
  exists sec. split; [exact Hsec|]. apply Hnone.
  intros j rj Hj Hrj.
  assert (j = 0 \/ j = 1)%nat as [-> | ->] by lia;
    injection Hrj as <-; discriminate.
Defined.

(** C9: in mux mode, with two inputs or more, the exit code is 0 whatever
    [finalize] answers; its answer only decides whether "Successfully
    created ..." is written. *)
Theorem mux_exit_code (L : Layout) (XXH3_64bits : list ascii -> Z)
    (B : BuilderIO) (stack_mem : nat -> ascii) (args : list string)
    (w : world) (o : options) :
  (2 <= length args)%nat ->
  parse_args (tail args) initial_options = Some o ->
  modeInfo o = false -> modeVerify o = false -> modeExtract o = false ->
  (2 <= length (inputs o))%nat ->
  fst (main L XXH3_64bits B stack_mem args w) = Exit 0
  /\ snd (main L XXH3_64bits B stack_mem args w) =
       if fst (finalize_result B o w)
       then print ("Successfully created "
                   +:+ List.last (inputs o) EmptyString +:+ nl)
              (snd (finalize_result B o w))
       else snd (finalize_result B o w).
Proof.
  intros Hlen Hparse Hi Hv He Hin. unfold main.
  destruct (Z.ltb_spec (Z.of_nat (length args)) 2) as [Hlt|_]; [lia|].
  rewrite Hparse, Hi, Hv, He. cbn [orb]. unfold do_mux.
  destruct (Z.ltb_spec (Z.of_nat (length (inputs o))) 2) as [Hlt|_]; [lia|].
  unfold finalize_result.
  destruct (mux_build B o w) as [builder w1]. cbn [fst snd].
  destruct (finalize B builder w1) as [ok w2]. split; reflexivity.
Qed.

(** C9, witness: "bbfmux a.png out.bbf" with a [finalize] that fails: the
    exit code is 0 and nothing is written to [cout]. *)
Lemma mux_exit_code_witness :
  fst (main Sample.layout Sample.byte_sum (Sample.builder_io false)
         Sample.stack_mem ["bbfmux"; "a.png"; "out.bbf"]
         (Sample.world_with "a.png" (bytes_of "image"))) = Exit 0
  /\ fst (finalize_result (Sample.builder_io false)
            (push_input "out.bbf" (push_input "a.png" initial_options))
            (Sample.world_with "a.png" (bytes_of "image"))) = false
  /\ cout (snd (main Sample.layout Sample.byte_sum (Sample.builder_io false)
                  Sample.stack_mem ["bbfmux"; "a.png"; "out.bbf"]
                  (Sample.world_with "a.png" (bytes_of "image")))) = [].
Proof.
  destruct (mux_exit_code Sample.layout Sample.byte_sum
              (Sample.builder_io false) Sample.stack_mem
              ["bbfmux"; "a.png"; "out.bbf"]
              (Sample.world_with "a.png" (bytes_of "image"))
              (push_input "out.bbf" (push_input "a.png" initial_options)))
    as [Hcode Hworld].
  - simpl. lia.
  - by_evaluation.
  - reflexivity.
  - reflexivity.
  - reflexivity.
  - simpl. lia.
  - split; [exact Hcode|]. split; [reflexivity|].
    rewrite Hworld. reflexivity.
Defined.


(* ===================================================================== *)
(** * Further properties of the program *)
(* ===================================================================== *)

(** ** Strings: trimQuotes and the split at colons *)

Lemma string_app_cons (c : ascii) (s t : string) :
  String c s +:+ t = String c (s +:+ t).
Proof. reflexivity. Qed.

Lemma substring_0_length (s t : string) :
  String.substring 0 (String.length s) (s +:+ t) = s.
Proof.
  induction s as [|c s IH]; [by destruct t|].
  rewrite string_app_cons. cbn [String.length String.substring].
  by rewrite IH.
Qed.

Lemma substring_0_all (s : string) :
  String.substring 0 (String.length s) s = s.
Proof.
  induction s as [|c s IH]; [reflexivity|].
  cbn [String.length String.substring]. by rewrite IH.
Qed.

Lemma length_string_app (s t : string) :
  String.length (s +:+ t) = (String.length s + String.length t)%nat.
Proof.
  induction s as [|c s IH]; [reflexivity|].
  rewrite string_app_cons. cbn [String.length Nat.add]. by rewrite IH.
Qed.

Lemma get_after (s t : string) (c : ascii) :
  String.get (String.length s) (s +:+ String c t) = Some c.
Proof.
  induction s as [|a s IH]; [reflexivity|].
  rewrite string_app_cons. exact IH.
Qed.

(** A string that ends with [c] is what precedes its last character,
    followed by [c]. *)
Lemma unsnoc_string (s : string) (c : ascii) :
  forall a : ascii,
    String.get (String.length s) (String a s) = Some c ->
    String.substring 0 (String.length s) (String a s) +:+ String c EmptyString
      = String a s.
Proof.
  induction s as [|b s IH]; intros a Hget.
  - cbn in Hget. injection Hget as ->. reflexivity.
  - cbn [String.length String.get] in Hget.
    cbn [String.length String.substring].
    rewrite string_app_cons. f_equal. apply IH. exact Hget.
Qed.

(** X1: trimQuotes takes one pair of enclosing double quotes off, and
    nothing else: it undoes [quoted], and a string it changes is the
    result with the quotes put back. *)
Theorem trimQuotes_one_pair :
  (forall s : string, trimQuotes (quoted s) = s)
  /\ (forall s : string, trimQuotes s = s \/ quoted (trimQuotes s) = s).
Proof.
  split.
  - intros s. unfold trimQuotes, quoted, size, front, back, substr.
    rewrite string_app_cons. change (EmptyString +:+ ?x) with x.
    cbn [String.length String.get Nat.sub].
    rewrite Nat.sub_0_r, length_string_app. cbn [String.length].
    replace (String.length s + 1)%nat with (S (String.length s)) by lia.
    rewrite get_after.
    destruct (Z.leb_spec 2 (Z.of_nat (S (S (String.length s))))); [|lia].
    rewrite !bool_decide_eq_true_2 by reflexivity. cbn [andb].
    cbn [Nat.sub String.substring].
    rewrite Nat.sub_0_r, Nat.min_l by lia. apply substring_0_length.
  - intros s. unfold trimQuotes.
    destruct (Z.leb_spec 2 (size s)) as [Hsize|]; [|by left].
    case_bool_decide as Hfront; [|by left].
    case_bool_decide as Hback; [|by left].
    cbn [andb]. right. unfold size, front, back in *.
    destruct s as [|a [|b s]]; try (cbn in Hsize; lia).
    assert (a = dquote) as -> by (cbn in Hfront; congruence).
    change (String.get (String.length s) (String b s) = Some dquote) in Hback.
    unfold quoted, substr.
    replace (String.length (String dquote (String b s)) - 2)%nat
      with (String.length s) by (cbn [String.length]; lia).
    replace (String.length (String dquote (String b s)) - 1)%nat
      with (S (String.length s)) by (cbn [String.length]; lia).
    rewrite Nat.min_l by lia.
    change (String.substring 1 (String.length s)
              (String dquote (String b s)))
      with (String.substring 0 (String.length s) (String b s)).
    rewrite string_app_cons. change (EmptyString +:+ ?x) with x. f_equal.
    apply unsnoc_string. exact Hback.
Qed.

Lemma string_app_assoc (a b c : string) : (a +:+ b) +:+ c = a +:+ (b +:+ c).
Proof.
  induction a as [|x a IH]; [reflexivity|].
  rewrite !string_app_cons. by rewrite IH.
Qed.

Lemma string_app_nil_r (a : string) : a +:+ EmptyString = a.
Proof.
  induction a as [|x a IH]; [reflexivity|].
  rewrite string_app_cons. by rewrite IH.
Qed.

Lemma has_char_app (c : ascii) (a b : string) :
  has_char c (a +:+ b) = has_char c a || has_char c b.
Proof.
  induction a as [|x a IH]; [reflexivity|].
  rewrite string_app_cons. cbn [has_char]. rewrite IH. by rewrite orb_assoc.
Qed.

(** The split from a state in which [cur] has been read since the last
    separator. *)
Lemma split_colon_spec (val : string) :
  forall cur : string,
    has_char ":"%char cur = false ->
    join_colon (split_colon val cur) = cur +:+ val
    /\ Forall (fun p => has_char ":"%char p = false) (split_colon val cur)
    /\ length (split_colon val cur) = S (count_colons val).
Proof.
  induction val as [|c val IH]; intros cur Hcur.
  - cbn. rewrite string_app_nil_r. repeat split. by apply Forall_singleton.
  - cbn [split_colon count_colons]. case_bool_decide as Hc.
    + subst c. destruct (IH EmptyString eq_refl) as (Hjoin & Hall & Hlen).
      split; [|split].
      * cbn [join_colon].
        destruct (split_colon val EmptyString) as [|p ps] eqn:Hsplit;
          [cbn in Hlen; lia|].
        rewrite Hjoin. reflexivity.
      * by apply Forall_cons.
      * cbn [length]. rewrite Hlen. reflexivity.
    + destruct (IH (cur +:+ String c EmptyString)) as (Hjoin & Hall & Hlen).
      { rewrite has_char_app, Hcur. cbn.
        by rewrite bool_decide_eq_false_2. }
      split; [|split; [exact Hall | exact Hlen]].
      rewrite Hjoin, string_app_assoc. reflexivity.
Qed.

(** X2: the loop of lines 225-232 cuts [val] at every colon and nowhere
    else: the parts joined with colons are [val] again, no part holds a
    colon, and there is one part more than there are colons (so there is
    always a first part). *)
Theorem split_colon_round_trip (val : string) :
  join_colon (split_colon val EmptyString) = val
  /\ Forall (fun p => has_char ":"%char p = false)
       (split_colon val EmptyString)
  /\ length (split_colon val EmptyString) = S (count_colons val).
Proof. exact (split_colon_spec val EmptyString eq_refl). Qed.

(** ** The argument loop *)

(** [arg.find(pat) == 0] says that [arg] starts with [pat]. *)
Lemma find_at_0_prefix (pat s : string) :
  find_at_0 pat s = String.prefix pat s.
Proof.
  unfold find_at_0. destruct s as [|c s].
  - destruct pat; reflexivity.
  - cbn [String.index]. destruct (String.prefix pat (String c s)).
    + by rewrite bool_decide_eq_true_2.
    + apply bool_decide_eq_false_2.
      destruct (String.index 0 pat s); discriminate.
Qed.

(** One turn of the loop: the modes it sets and the input it adds. *)
Lemma parse_arg_summary (arg : string) (o o' : options) :
  parse_arg arg o = Some o' ->
  inputs o' = inputs o ++ (if is_option_arg arg then [] else [arg])
  /\ modeInfo o' = modeInfo o || bool_decide (arg = "--info")
  /\ modeVerify o' = modeVerify o || bool_decide (arg = "--verify")
  /\ modeExtract o' = modeExtract o || bool_decide (arg = "--extract").
Proof.
  unfold parse_arg, is_option_arg.
  case_bool_decide as Hi.
  { subst arg. intros [= <-]. cbn. rewrite app_nil_r, !orb_false_r, orb_true_r.
    done. }
  case_bool_decide as Hv.
  { subst arg. intros [= <-]. cbn. rewrite app_nil_r, !orb_false_r, orb_true_r.
    done. }
  case_bool_decide as He.
  { subst arg. intros [= <-]. cbn. rewrite app_nil_r, !orb_false_r, orb_true_r.
    done. }
  cbn [orb].
  destruct (find_at_0 "--outdir=" arg).
  { intros [= <-]. cbn. rewrite app_nil_r, !orb_false_r. done. }
  destruct (find_at_0 "--section=" arg).
  { cbn [orb]. destruct (split_colon _ _) as [|p0 more].
    { intros [= <-]. rewrite app_nil_r, !orb_false_r. done. }
    destruct (modeExtract o) eqn:Hmode.
    { intros [= <-]. cbn. rewrite Hmode, app_nil_r, !orb_false_r. done. }
    destruct more as [|p1 more'].
    { intros [= <-]. rewrite Hmode, app_nil_r, !orb_false_r. done. }
    destruct (stoi p1); [|discriminate].
    intros [= <-]. cbn. rewrite Hmode, app_nil_r, !orb_false_r. done. }
  destruct (find_at_0 "--meta=" arg).
  { cbn [orb]. destruct (find_colon _).
    - intros [= <-]. cbn. rewrite app_nil_r, !orb_false_r. done.
    - intros [= <-]. rewrite app_nil_r, !orb_false_r. done. }
  intros [= <-]. cbn. rewrite !orb_false_r. done.
Qed.

(** X3: when the arguments parse, the inputs are the arguments that are
    not options, in the order given (so the container that is opened is
    the first of them and the output of a mux is the last), and a mode is
    set exactly when its flag is among the arguments or it was set before:
    no argument clears a mode. *)
Theorem parse_args_inputs_and_modes (args : list string) :
  forall o o' : options,
    parse_args args o = Some o' ->
    inputs o' = inputs o ++ List.filter (fun a => negb (is_option_arg a)) args
    /\ (modeInfo o' = true <-> modeInfo o = true \/ "--info" ∈ args)
    /\ (modeVerify o' = true <-> modeVerify o = true \/ "--verify" ∈ args)
    /\ (modeExtract o' = true <-> modeExtract o = true \/ "--extract" ∈ args).
Proof.
  induction args as [|arg rest IH]; intros o o' Hparse.
  - injection Hparse as <-. cbn. rewrite app_nil_r.
    repeat split; try tauto; intros [H|H]; try exact H;
      by apply elem_of_nil in H.
  - cbn [parse_args] in Hparse.
    destruct (parse_arg arg o) as [o1|] eqn:Harg; [|discriminate].
    destruct (parse_arg_summary arg o o1 Harg) as (Hin & Hi & Hv & He).
    destruct (IH o1 o' Hparse) as (Hin' & Hi' & Hv' & He').
    split; [|split; [|split]].
    + rewrite Hin', Hin. cbn [List.filter].
      destruct (is_option_arg arg); cbn [negb];
        rewrite <- app_assoc; reflexivity.
    + rewrite Hi', Hi, orb_true_iff, bool_decide_eq_true, elem_of_cons.
      intuition congruence.
    + rewrite Hv', Hv, orb_true_iff, bool_decide_eq_true, elem_of_cons.
      intuition congruence.
    + rewrite He', He, orb_true_iff, bool_decide_eq_true, elem_of_cons.
      intuition congruence.
Qed.

(** X3, witness: two inputs around a flag and a "--meta" option. *)
Lemma parse_args_inputs_and_modes_witness :
  exists o' : options,
    parse_args ["a.png"; "--verify"; "--meta=Title:Akira"; "out.bbf"]
      initial_options = Some o'
    /\ inputs o' = ["a.png"; "out.bbf"]
    /\ modeVerify o' = true.
Proof.
  assert (Hparse :
    parse_args ["a.png"; "--verify"; "--meta=Title:Akira"; "out.bbf"]
      initial_options
    = Some (default initial_options
              (parse_args
                 ["a.png"; "--verify"; "--meta=Title:Akira"; "out.bbf"]
                 initial_options))) by by_evaluation.
  eexists. split; [exact Hparse|].
  destruct (parse_args_inputs_and_modes _ _ _ Hparse) as (Hin & _ & Hv & _).
  split; [rewrite Hin; by_evaluation|].
  apply Hv. right. by_decision.
Defined.

Lemma parse_arg_in_extract_mode (arg : string) (o : options) :
  modeExtract o = true ->
  exists o' : options,
    parse_arg arg o = Some o'
    /\ modeExtract o' = true /\ secReqs o' = secReqs o.
Proof.
  intros Hmode. unfold parse_arg.
  repeat (case_bool_decide; [eexists; split; [reflexivity | by split]|]).
  destruct (find_at_0 "--outdir=" arg); [eexists; split; [reflexivity | by split]|].
  destruct (find_at_0 "--section=" arg).
  { destruct (split_colon _ _) as [|p0 more];
      [eexists; split; [reflexivity | by split]|].
    rewrite Hmode. eexists; split; [reflexivity | by split]. }
  destruct (find_at_0 "--meta=" arg).
  { destruct (find_colon _); eexists; split; try reflexivity; by split. }
  eexists; split; [reflexivity | by split].
Qed.

(** X4: once "--extract" has been read, the rest of the arguments never
    makes the loop throw: a "--section=" option then only names the target
    and [std::stoi] is not called; no section request is added. *)
Theorem parse_args_after_extract (args : list string) :
  forall o : options,
    modeExtract o = true ->
    exists o' : options,
      parse_args args o = Some o'
      /\ modeExtract o' = true /\ secReqs o' = secReqs o.
Proof.
  induction args as [|arg rest IH]; intros o Hmode.
  - exists o. by repeat split.
  - cbn [parse_args].
    destruct (parse_arg_in_extract_mode arg o Hmode) as (o1 & -> & Hmode1 & Hreq).
    destruct (IH o1 Hmode1) as (o' & Hparse & Hmode' & Hreq').
    exists o'. split; [exact Hparse|]. split; [exact Hmode'|]. congruence.
Qed.

(** X4, witness: "--section=Cover:first" after "--extract" names the
    target; before "--extract" the same option makes [std::stoi] throw. *)
Lemma parse_args_after_extract_witness :
  (exists o' : options,
     parse_args ["--section=Cover:first"]
       (set_modes false false true initial_options) = Some o'
     /\ modeExtract o' = true /\ secReqs o' = [])
  /\ parse_args ["--section=Cover:first"; "--extract"] initial_options = None.
Proof.
  split; [| by_evaluation].
  apply (parse_args_after_extract ["--section=Cover:first"]
           (set_modes false false true initial_options)).
  reflexivity.
Defined.

(** A string cut at its first colon. *)
Lemma find_colon_split (val : string) :
  forall c : nat,
    find_colon val = Some c ->
    val = substr 0 c val +:+ ":" +:+ substr_from (c + 1) val
    /\ has_char ":"%char (substr 0 c val) = false.
Proof.
  unfold substr, substr_from.
  induction val as [|a val IH]; intros c Hfind; [discriminate|].
  cbn [find_colon] in Hfind. case_bool_decide as Ha.
  - injection Hfind as <-. subst a. cbn [String.length Nat.sub Nat.add].
    rewrite Nat.sub_0_r. cbn [Nat.min String.substring].
    rewrite substring_0_all. split; reflexivity.
  - destruct (find_colon val) as [c'|]; [|discriminate].
    injection Hfind as <-. destruct (IH c' eq_refl) as [Hval Hkey].
    rewrite Nat.sub_0_r in *.
    cbn [String.length Nat.min Nat.add Nat.sub String.substring].
    rewrite string_app_cons. split.
    + f_equal. exact Hval.
    + cbn [has_char]. rewrite Hkey. by rewrite bool_decide_eq_false_2.
Qed.

(** X5: "--meta=Key:Value" is cut at the first colon only: the key is
    what precedes it and holds no colon, the value is all that follows
    (colons included); without any colon the option is dropped and the
    loop goes on. *)
Theorem parse_meta_first_colon (val : string) (o : options) :
  (forall c : nat,
     find_colon val = Some c ->
     exists key value : string,
       parse_arg ("--meta=" +:+ val) o
         = Some (push_metaReq {| k := key; v := value |} o)
       /\ val = key +:+ ":" +:+ value
       /\ has_char ":"%char key = false)
  /\ (find_colon val = None -> parse_arg ("--meta=" +:+ val) o = Some o).
Proof.
  assert (Hval : substr_from 7 ("--meta=" +:+ val) = val).
  { unfold substr_from.
    replace (String.length ("--meta=" +:+ val) - 7)%nat with (String.length val)
      by (rewrite length_string_app; cbn [String.length]; lia).
    change (String.substring 7 (String.length val) ("--meta=" +:+ val))
      with (String.substring 0 (String.length val) val).
    apply substring_0_all. }
  assert (Hparse : parse_arg ("--meta=" +:+ val) o =
                   match find_colon val with
                   | Some colon =>
                       Some (push_metaReq
                               {| k := substr 0 colon val;
                                  v := substr_from (colon + 1) val |} o)
                   | None => Some o
                   end).
  { unfold parse_arg. rewrite Hval.
    rewrite !(bool_decide_eq_false_2 (_ +:+ val = _)) by discriminate.
    rewrite !find_at_0_prefix.
    change (String.prefix "--outdir=" ("--meta=" +:+ val)) with false.
    change (String.prefix "--section=" ("--meta=" +:+ val)) with false.
    replace (String.prefix "--meta=" ("--meta=" +:+ val)) with true
      by (destruct val; reflexivity).
    reflexivity. }
  rewrite Hparse. split.
  - intros c Hc. rewrite Hc. destruct (find_colon_split val c Hc) as [Hsplit Hkey].
    eexists _, _. split; [reflexivity|]. split; [exact Hsplit | exact Hkey].
  - intros ->. reflexivity.
Qed.

(** X5, witness: the value of "--meta=Title:Akira: Part 1" keeps its own
    colon. *)
Lemma parse_meta_first_colon_witness :
  exists key value : string,
    parse_arg "--meta=Title:Akira: Part 1" initial_options
      = Some (push_metaReq {| k := key; v := value |} initial_options)
    /\ "Title:Akira: Part 1" = key +:+ ":" +:+ value
    /\ has_char ":"%char key = false.
Proof.
  exact (proj1 (parse_meta_first_colon "Title:Akira: Part 1" initial_options)
           5%nat eq_refl).
Defined.

(** ** The reader: strings *)

Lemma c_str_is_Some (buf : list ascii) : is_Some (c_str buf) <-> NUL ∈ buf.
Proof.
  induction buf as [|c buf IH]; cbn [c_str].
  - split; [intros [? H]; discriminate | intros H; inversion H].
  - case_bool_decide as Hc.
    + subst c. split; [intros _; apply list_elem_of_here | eauto].
    + rewrite fmap_is_Some, IH, elem_of_cons. split; [tauto|].
      intros [Heq|Hin]; [congruence | exact Hin].
Qed.

(** A pool that ends in a terminator holds one after every position. *)
Lemma getString_terminated_pool (r : BBFReader) (offset : Z) :
  stringPool r = [] \/ last (stringPool r) = Some NUL ->
  is_Some (getString r offset).
Proof.
  intros Hpool. unfold getString. cbv zeta.
  destruct (Z.leb_spec (Z.of_nat (length (stringPool r))) (u32 offset))
    as [Hle|Hlt]; [eauto|].
  destruct Hpool as [Hnil|Hlast].
  - rewrite Hnil in Hlt. cbn in Hlt. pose proof (u32_range offset). lia.
  - apply last_Some in Hlast as [l Hl]. rewrite Hl in *.
    rewrite length_app in Hlt. cbn in Hlt.
    apply c_str_is_Some. rewrite drop_app_le by lia.
    apply elem_of_app. right. apply list_elem_of_here.
Qed.

(** X6: [getString] builds a string at every offset (none of its lookups
    runs off the end of the pool) exactly when the pool is empty or its
    last byte is a terminator.  The offsets are 32-bit, so the pool is
    taken to hold at most 2^32 bytes. *)
Theorem getString_defined_everywhere (r : BBFReader) :
  Z.of_nat (length (stringPool r)) <= 2 ^ 32 ->
  ((forall offset : Z, is_Some (getString r offset))
   <-> stringPool r = [] \/ last (stringPool r) = Some NUL).
Proof.
  intros Hsize. split.
  - intros Hall.
    remember (stringPool r) as pool eqn:Hpool.
    destruct pool as [|c l _] using rev_ind; [left; reflexivity | right].
    rewrite last_snoc. f_equal.
    specialize (Hall (Z.of_nat (length l))).
    unfold getString in Hall. cbv zeta in Hall.
    rewrite <- Hpool in Hall. rewrite length_app in Hall, Hsize.
    cbn in Hsize, Hall.
    rewrite u32_small in Hall by lia.
    destruct (Z.leb_spec (Z.of_nat (length l + 1)) (Z.of_nat (length l)))
      as [Hle|_]; [lia|].
    rewrite Nat2Z.id, drop_app_length in Hall.
    apply c_str_is_Some, list_elem_of_singleton in Hall. congruence.
  - intros Hpool offset. apply getString_terminated_pool, Hpool.
Qed.

(** X6, witness: a pool of two terminated strings. *)
Lemma getString_defined_everywhere_witness :
  (forall offset : Z,
     is_Some (getString
                (reader_with_pool (Sample.pool_of ["Volume 1"; "Extras"]))
                offset))
  /\ last (Sample.pool_of ["Volume 1"; "Extras"]) = Some NUL.
Proof.
  split; [| reflexivity].
  apply (proj2 (getString_defined_everywhere
                  (reader_with_pool (Sample.pool_of ["Volume 1"; "Extras"]))
                  ltac:(by_evaluation))).
  right. reflexivity.
Defined.

(** ** The reader: tables *)

Lemma length_chunks (n size : nat) (buf : list ascii) :
  length (chunks n size buf) = n.
Proof.
  revert buf. induction n as [|n IH]; intros buf; cbn [chunks length];
    [reflexivity | by rewrite IH].
Qed.

Lemma read_table_length (count : Z) (size : nat) (off : Z) (s : ifstream) :
  length (fst (read_table count size off s)) = Z.to_nat count.
Proof.
  unfold read_table. cbv zeta.
  destruct (stream_read _ _ _) as [buf s2]. apply length_chunks.
Qed.

Lemma same_book_set_stream (s : ifstream) (r : BBFReader) :
  same_book r (set_stream s r).
Proof. repeat split. Qed.

(** The getters without their pattern matching. *)
Lemma getAssets_eq (L : Layout) (r : BBFReader) :
  getAssets L r =
    let t := read_table (BBFFooter.assetCount (footer L r))
               (sizeof_BBFAssetEntry L)
               (BBFFooter.assetTableOffset (footer L r)) (stream r) in
    (decode_asset L <$> fst t, set_stream (snd t) r).
Proof. unfold getAssets. by destruct (read_table _ _ _ _). Qed.

Lemma getPages_eq (L : Layout) (r : BBFReader) :
  getPages L r =
    let t := read_table (BBFFooter.pageCount (footer L r))
               (sizeof_BBFPageEntry L)
               (BBFFooter.pageTableOffset (footer L r)) (stream r) in
    (decode_page L <$> fst t, set_stream (snd t) r).
Proof. unfold getPages. by destruct (read_table _ _ _ _). Qed.

Lemma getSections_eq (L : Layout) (r : BBFReader) :
  getSections L r =
    let t := read_table (BBFFooter.sectionCount (footer L r))
               (sizeof_BBFSection L)
               (BBFFooter.sectionTableOffset (footer L r)) (stream r) in
    (decode_section L <$> fst t, set_stream (snd t) r).
Proof. unfold getSections. by destruct (read_table _ _ _ _). Qed.

Lemma getMetadata_eq (L : Layout) (r : BBFReader) :
  getMetadata L r =
    if 0 <? BBFFooter.keyCount (footer L r) then
      let t := read_table (BBFFooter.keyCount (footer L r))
                 (sizeof_BBFMetadata L)
                 (BBFFooter.metaTableOffset (footer L r)) (stream r) in
      (decode_metadata L <$> fst t, set_stream (snd t) r)
    else ([], r).
Proof.
  unfold getMetadata. destruct (0 <? _); [|reflexivity].
  by destruct (read_table _ _ _ _).
Qed.

Lemma footer_counts_32 (L : Layout) (r : BBFReader) :
  0 <= BBFFooter.assetCount (footer L r) < 2 ^ 32
  /\ 0 <= BBFFooter.pageCount (footer L r) < 2 ^ 32
  /\ 0 <= BBFFooter.sectionCount (footer L r) < 2 ^ 32
  /\ 0 <= BBFFooter.keyCount (footer L r) < 2 ^ 32.
Proof. repeat split; apply u32_range. Qed.

(** X7: each of the four getters returns as many records as the footer
    counts, whatever the file holds where the table should be (the vector
    is sized from the footer before anything is read), and leaves the
    header, the footer and the string pool of the reader as they were. *)
Theorem tables_have_footer_counts (L : Layout) (r : BBFReader) :
  (Z.of_nat (length (fst (getAssets L r))) = BBFFooter.assetCount (footer L r)
   /\ same_book r (snd (getAssets L r)))
  /\ (Z.of_nat (length (fst (getPages L r))) = BBFFooter.pageCount (footer L r)
      /\ same_book r (snd (getPages L r)))
  /\ (Z.of_nat (length (fst (getSections L r)))
        = BBFFooter.sectionCount (footer L r)
      /\ same_book r (snd (getSections L r)))
  /\ (Z.of_nat (length (fst (getMetadata L r)))
        = BBFFooter.keyCount (footer L r)
      /\ same_book r (snd (getMetadata L r))).
Proof.
  destruct (footer_counts_32 L r) as (Ha & Hp & Hs & Hk).
  rewrite getAssets_eq, getPages_eq, getSections_eq, getMetadata_eq.
  cbv zeta. cbn [fst snd].
  rewrite !length_fmap, !read_table_length.
  split; [split; [lia | apply same_book_set_stream]|].
  split; [split; [lia | apply same_book_set_stream]|].
  split; [split; [lia | apply same_book_set_stream]|].
  destruct (Z.ltb_spec 0 (BBFFooter.keyCount (footer L r))) as [Hpos|Hz];
    cbn [fst snd].
  - rewrite length_fmap, read_table_length.
    split; [lia | apply same_book_set_stream].
  - split; [cbn [length]; lia | repeat split].
Qed.

Lemma chunks_from (n size k : nat) (buf : list ascii) :
  chunks n size (drop (k * size) buf)
  = (fun i => take size (drop (i * size) buf)) <$> seq k n.
Proof.
  revert k. induction n as [|n IH]; intros k; [reflexivity|].
  cbn [chunks seq fmap list_fmap]. f_equal.
  rewrite drop_drop.
  replace (k * size + size)%nat with (S k * size)%nat by lia.
  apply IH.
Qed.

Lemma chunks_take (n size : nat) (buf : list ascii) :
  chunks n size (take (n * size) buf) = chunks n size buf.
Proof.
  revert buf. induction n as [|n IH]; intros buf; [reflexivity|].
  cbn [chunks]. rewrite take_take. f_equal.
  - f_equal. lia.
  - replace (S n * size)%nat with (size + n * size)%nat by lia.
    rewrite <- take_drop_commute. apply IH.
Qed.

(** A table that lies inside the file is read from where the footer says
    it is, and the stream stays good. *)
Lemma read_table_in_file (count : Z) (size : nat) (off : Z) (s : ifstream) :
  failbit s = false ->
  Z.of_nat (length (content s)) < 2 ^ 63 ->
  0 <= off -> 0 <= count ->
  table_in_file count size off (content s) ->
  read_table count size off s
  = ((fun i => record_at size off i (content s)) <$> seq 0 (Z.to_nat count),
     mk_ifstream (is_open s) (content s) (off + count * Z.of_nat size) false).
Proof.
  intros Hf Hlen Hoff Hcount Hin. unfold table_in_file in Hin.
  unfold read_table. cbv zeta.
  assert (Hn : 0 <= count * Z.of_nat size) by nia.
  rewrite (u64_small (count * Z.of_nat size)) by lia.
  rewrite seekg_ok; [| exact Hf | lia].
  rewrite stream_read_exact; cbn [failbit gpos content is_open];
    [| reflexivity | lia | lia | lia |].
  2: { unfold zeros. rewrite length_replicate. lia. }
  f_equal.
  replace (Z.to_nat (count * Z.of_nat size))
    with (Z.to_nat count * size)%nat by nia.
  rewrite chunks_take.
  change (drop (Z.to_nat off) (content s))
    with (drop (0 * size) (drop (Z.to_nat off) (content s))).
  rewrite chunks_from. apply list_fmap_ext. intros _ i _.
  unfold record_at. by rewrite drop_drop.
Qed.

(** X8: on a good stream, a table that lies inside the file is decoded
    record by record from the bytes at the offset the footer gives, record
    [i] from the [sizeof] bytes at [offset + i * sizeof], and the stream is
    still good afterwards, over the same bytes. *)
Theorem tables_read_in_place (L : Layout) (r : BBFReader) :
  failbit (stream r) = false ->
  Z.of_nat (length (content (stream r))) < 2 ^ 63 ->
  (table_in_file (BBFFooter.assetCount (footer L r)) (sizeof_BBFAssetEntry L)
     (BBFFooter.assetTableOffset (footer L r)) (content (stream r)) ->
   fst (getAssets L r)
   = (fun i => decode_asset L
                 (record_at (sizeof_BBFAssetEntry L)
                    (BBFFooter.assetTableOffset (footer L r)) i
                    (content (stream r))))
     <$> seq 0 (Z.to_nat (BBFFooter.assetCount (footer L r)))
   /\ failbit (stream (snd (getAssets L r))) = false
   /\ content (stream (snd (getAssets L r))) = content (stream r))
  /\ (table_in_file (BBFFooter.pageCount (footer L r)) (sizeof_BBFPageEntry L)
        (BBFFooter.pageTableOffset (footer L r)) (content (stream r)) ->
      fst (getPages L r)
      = (fun i => decode_page L
                    (record_at (sizeof_BBFPageEntry L)
                       (BBFFooter.pageTableOffset (footer L r)) i
                       (content (stream r))))
        <$> seq 0 (Z.to_nat (BBFFooter.pageCount (footer L r)))
      /\ failbit (stream (snd (getPages L r))) = false
      /\ content (stream (snd (getPages L r))) = content (stream r))
  /\ (table_in_file (BBFFooter.sectionCount (footer L r)) (sizeof_BBFSection L)
        (BBFFooter.sectionTableOffset (footer L r)) (content (stream r)) ->
      fst (getSections L r)
      = (fun i => decode_section L
                    (record_at (sizeof_BBFSection L)
                       (BBFFooter.sectionTableOffset (footer L r)) i
                       (content (stream r))))
        <$> seq 0 (Z.to_nat (BBFFooter.sectionCount (footer L r)))
      /\ failbit (stream (snd (getSections L r))) = false
      /\ content (stream (snd (getSections L r))) = content (stream r))
  /\ (table_in_file (BBFFooter.keyCount (footer L r)) (sizeof_BBFMetadata L)
        (BBFFooter.metaTableOffset (footer L r)) (content (stream r)) ->
      fst (getMetadata L r)
      = (fun i => decode_metadata L
                    (record_at (sizeof_BBFMetadata L)
                       (BBFFooter.metaTableOffset (footer L r)) i
                       (content (stream r))))
        <$> seq 0 (Z.to_nat (BBFFooter.keyCount (footer L r)))
      /\ failbit (stream (snd (getMetadata L r))) = false
      /\ content (stream (snd (getMetadata L r))) = content (stream r)).
Proof.
  intros Hf Hlen.
  destruct (footer_counts_32 L r) as (Ha & Hp & Hs & Hk).
  rewrite getAssets_eq, getPages_eq, getSections_eq, getMetadata_eq.
  cbv zeta.
  split; [| split; [| split]]; intros Hin.
  1-3: rewrite read_table_in_file by
         first [ exact Hf | exact Hlen | exact Hin | lia | apply u64_range ];
       cbn [fst snd set_stream stream failbit content];
       rewrite <- list_fmap_compose; repeat split.
  destruct (Z.ltb_spec 0 (BBFFooter.keyCount (footer L r))) as [Hpos|Hz].
  - rewrite read_table_in_file by
      first [ exact Hf | exact Hlen | exact Hin | lia | apply u64_range ].
    cbn [fst snd set_stream stream failbit content].
    rewrite <- list_fmap_compose. repeat split.
  - replace (BBFFooter.keyCount (footer L r)) with 0 by lia.
    cbn [fst snd]. repeat split. exact Hf.
Qed.

(** X8, witness: the asset table of the sample book, which starts at byte
    30 of the file. *)
Lemma tables_read_in_place_witness :
  fst (getAssets Sample.layout (book_reader 195 300))
  = [ decode_asset Sample.layout
        (record_at 25 30 0 (Sample.book 195 300));
      decode_asset Sample.layout
        (record_at 25 30 1 (Sample.book 195 300)) ]
  /\ fst (getAssets Sample.layout (book_reader 195 300)) = book_assets.
Proof.
  split; [| by_evaluation].
  destruct (proj1 (tables_read_in_place Sample.layout (book_reader 195 300)
                     ltac:(by_evaluation) ltac:(by_evaluation)))
    as (Heq & _ & _); [by_evaluation|].
  rewrite Heq. by_evaluation.
Defined.

(** ** The reader: open *)

Lemma content_seekg (pos : Z) (s : ifstream) : content (seekg pos s) = content s.
Proof.
  unfold seekg. destruct (failbit s); [reflexivity|].
  cbv zeta. by destruct (_ <? 0).
Qed.

Lemma content_stream_read (n : Z) (buf : list ascii) (s : ifstream) :
  content (snd (stream_read n buf s)) = content s.
Proof. unfold stream_read. by destruct (failbit s). Qed.

Lemma resize_nil (n : Z) : resize [] n = zeros n.
Proof. unfold resize. rewrite take_nil. cbn. by rewrite Z.sub_0_r. Qed.

(** X9: what the reader holds after a successful [open] of a file that is
    long enough for a header and a footer: the first [sizeof(BBFHeader)]
    bytes as its header, the last [sizeof(BBFFooter)] bytes as its footer
    and, when the footer's string-pool offset and asset-table offset are in
    order and inside the file, the bytes between the two as its string
    pool, on a stream that is still good. *)
Theorem open_loads_book (L : Layout) (stack_mem : nat -> ascii)
    (files : gmap string (list ascii)) (dirs : gset string) (path : string)
    (bytes : list ascii) (r' : BBFReader) :
  files !! path = Some bytes ->
  (sizeof_BBFHeader L <= length bytes)%nat ->
  (sizeof_BBFFooter L <= length bytes)%nat ->
  Z.of_nat (length bytes) < 2 ^ 63 ->
  open L path files dirs (fresh_reader L stack_mem) = (Some true, r') ->
  header_raw r' = take (sizeof_BBFHeader L) bytes
  /\ footer_raw r' = drop (length bytes - sizeof_BBFFooter L) bytes
  /\ content (stream r') = bytes
  /\ (BBFFooter.stringPoolOffset (footer L r')
        <= BBFFooter.assetTableOffset (footer L r')
        <= Z.of_nat (length bytes) ->
      stringPool r'
      = take (Z.to_nat (BBFFooter.assetTableOffset (footer L r')
                        - BBFFooter.stringPoolOffset (footer L r')))
          (drop (Z.to_nat (BBFFooter.stringPoolOffset (footer L r'))) bytes)
      /\ failbit (stream r') = false).
Proof.
  intros Hsome Hh Hf Hlen. unfold open.
  rewrite (stream_open_found _ _ _ _ Hsome). cbn [is_open negb].
  unfold tellg. cbn [failbit gpos].
  rewrite (u64_small (Z.of_nat (length bytes))) by lia.
  rewrite seekg_ok; [| reflexivity | lia]. cbn [is_open content].
  rewrite stream_read_exact;
    [| reflexivity | cbn; lia | lia | cbn; lia
     | rewrite length_fresh_header; lia ].
  cbn [gpos content is_open]. rewrite Nat2Z.id, drop_0.
  unfold header at 1. cbn [header_raw].
  case_bool_decide as Hm; cbn [negb]; [| discriminate].
  rewrite u64_small by lia.
  rewrite seekg_ok; [| reflexivity | lia]. cbn [is_open content].
  rewrite stream_read_exact;
    [| reflexivity | cbn; lia | lia | cbn; lia
     | rewrite length_fresh_footer; lia ].
  cbn [gpos content is_open].
  replace (Z.to_nat (Z.of_nat (length bytes) - Z.of_nat (sizeof_BBFFooter L)))
    with (length bytes - sizeof_BBFFooter L)%nat by lia.
  rewrite Nat2Z.id.
  rewrite (take_ge (drop _ bytes)) by (rewrite length_drop; lia).
  unfold footer at 1. cbn [footer_raw].
  case_bool_decide as Hfm; cbn [negb]; [| discriminate].
  unfold footer. cbn [footer_raw stringPool fresh_reader].
  rewrite resize_nil.
  set (F := decode_footer L (drop (length bytes - sizeof_BBFFooter L) bytes)).
  destruct (Z.ltb_spec max_size
              (u64 (BBFFooter.assetTableOffset F
                    - BBFFooter.stringPoolOffset F))) as [Hbig|Hfit];
    [discriminate|].
  destruct (stream_read _ _ _) as [pool s6] eqn:Hread.
  intros Hopen. injection Hopen as <-.
  cbn [header_raw footer_raw stream stringPool]. fold F.
  split; [reflexivity|]. split; [reflexivity|]. split.
  - match type of Hread with
    | stream_read ?n ?b ?s0 = _ =>
        pose proof (content_stream_read n b s0) as Hc
    end.
    rewrite Hread, content_seekg in Hc. exact Hc.
  - intros [Hord Hin].
    assert (Hspo : 0 <= BBFFooter.stringPoolOffset F) by apply u64_range.
    rewrite (u64_small (_ - _)) in Hread by lia.
    unfold zeros in Hread at 1. rewrite length_replicate in Hread.
    rewrite Z2Nat.id in Hread by lia.
    rewrite seekg_ok in Hread; [| reflexivity | lia].
    rewrite stream_read_exact in Hread;
      cbn [failbit gpos content is_open] in *;
      [| reflexivity | lia | lia | lia
       | unfold zeros; rewrite length_replicate; lia ].
    injection Hread as <- <-. split; reflexivity.
Qed.

(** X9, witness: the sample book; its pool is the 20 bytes from offset 10
    on. *)
Lemma open_loads_book_witness :
  open Sample.layout "b.bbf" (files (book_world 195 300))
    (dirs (book_world 195 300))
    (fresh_reader Sample.layout Sample.stack_mem)
  = (Some true, book_reader 195 300)
  /\ stringPool (book_reader 195 300)
     = take 20 (drop 10 (Sample.book 195 300))
  /\ stringPool (book_reader 195 300)
     = Sample.pool_of ["One"; "Two"; "Title"; "Akira"].
Proof.
  assert (Hopen :
    open Sample.layout "b.bbf" (files (book_world 195 300))
      (dirs (book_world 195 300))
      (fresh_reader Sample.layout Sample.stack_mem)
    = (Some true, book_reader 195 300)) by by_evaluation.
  split; [exact Hopen|]. split; [| by_evaluation].
  destruct (open_loads_book Sample.layout Sample.stack_mem
              (files (book_world 195 300)) (dirs (book_world 195 300))
              "b.bbf" (Sample.book 195 300)
              (book_reader 195 300) eq_refl
              ltac:(vm_compute; lia) ltac:(vm_compute; lia)
              ltac:(by_evaluation) Hopen)
    as (_ & _ & _ & Hpool).
  destruct Hpool as [Hpool _]; [vm_compute; split; discriminate|].
  rewrite Hpool. by_evaluation.
Defined.

(** ** Verify: reads beyond the end of the file *)

Lemma fill_buffer_failed (a : BBFAssetEntry.t) (s : ifstream) :
  failbit s = true ->
  fill_buffer a s = (zeros (BBFAssetEntry.length a), s).
Proof.
  intros Hf. unfold fill_buffer, seekg, stream_read. cbv zeta.
  by rewrite !Hf.
Qed.

Lemma reread_failed (assets : list BBFAssetEntry.t) (s : ifstream) :
  failbit s = true ->
  reread assets s = (fun a => zeros (BBFAssetEntry.length a)) <$> assets.
Proof.
  intros Hf. induction assets as [|a rest IH]; [reflexivity|].
  cbn [reread fmap list_fmap]. rewrite fill_buffer_failed by exact Hf.
  cbn [fst snd]. by rewrite IH.
Qed.

(** What a read of one asset on a good stream gives: the bytes the file
    has from the asset's offset on, cut or padded with zeros to the
    asset's length; the stream fails when bytes were missing. *)
Lemma fill_buffer_good (a : BBFAssetEntry.t) (s : ifstream) :
  failbit s = false ->
  0 <= BBFAssetEntry.offset a < 2 ^ 63 ->
  0 <= BBFAssetEntry.length a < 2 ^ 63 ->
  fst (fill_buffer a s)
  = resize (drop (Z.to_nat (BBFAssetEntry.offset a)) (content s))
      (BBFAssetEntry.length a)
  /\ (0 < BBFAssetEntry.length a ->
      Z.of_nat (length (content s))
        < BBFAssetEntry.offset a + BBFAssetEntry.length a ->
      failbit (snd (fill_buffer a s)) = true).
Proof.
  intros Hf Hoff Hlen. unfold fill_buffer. cbv zeta.
  rewrite seekg_ok by (exact Hf || lia).
  unfold stream_read. cbn [failbit gpos content is_open fst snd].
  rewrite to_streamoff_small by lia. unfold resize, zeros. split.
  - f_equal. rewrite drop_replicate. f_equal.
    rewrite length_take, length_drop. lia.
  - intros Hpos Hbeyond. rewrite length_take, length_drop.
    apply negb_true_iff, Z.eqb_neq. lia.
Qed.

(** X10: one asset of at least one byte whose byte range runs beyond the
    end of the file spoils the rest of a verify pass (over a table in
    which a vector can be had for every entry).  Its own buffer holds the
    bytes the file still has from its offset on, padded with zeros; the
    stream is failed from then on and never cleared, so for every later
    asset, wherever it lies, the bytes hashed are all zeros: the loop
    reports the mismatches of those buffers. *)
Theorem verify_after_short_read (XXH3_64bits : list ascii -> Z)
    (a : BBFAssetEntry.t) (rest : list BBFAssetEntry.t) (i : Z)
    (s : ifstream) (clean : bool) (w : world) :
  failbit s = false ->
  0 <= BBFAssetEntry.offset a < 2 ^ 63 ->
  0 < BBFAssetEntry.length a < 2 ^ 63 ->
  Z.of_nat (length (content s))
    < BBFAssetEntry.offset a + BBFAssetEntry.length a ->
  Forall length_fits rest ->
  exists s' : ifstream,
    verify_loop XXH3_64bits (a :: rest) i s clean w =
      (Some (s',
             clean && bool_decide
               (mismatches_of XXH3_64bits i (a :: rest)
                  (resize (drop (Z.to_nat (BBFAssetEntry.offset a))
                             (content s))
                     (BBFAssetEntry.length a)
                   :: ((fun b => zeros (BBFAssetEntry.length b)) <$> rest))
                = [])),
       {| files := files w; dirs := dirs w; cout := cout w;
          cerr := cerr w ++
                  (mismatch_line <$>
                     mismatches_of XXH3_64bits i (a :: rest)
                       (resize (drop (Z.to_nat (BBFAssetEntry.offset a))
                                  (content s))
                          (BBFAssetEntry.length a)
                        :: ((fun b => zeros (BBFAssetEntry.length b))
                              <$> rest))) |}).
Proof.
  intros Hf Hoff Hlen Hbeyond Hfits.
  assert (Hfit : length_fits a) by (unfold length_fits, max_size; lia).
  destruct (verify_loop_reread XXH3_64bits (a :: rest)
              (Forall_cons_2 _ _ _ Hfit Hfits) i s clean w) as [s' Hrun].
  exists s'. rewrite Hrun. cbn [reread].
  destruct (fill_buffer_good a s Hf Hoff ltac:(lia)) as [Hbuf Hfail].
  rewrite Hbuf, (reread_failed rest _ (Hfail ltac:(lia) Hbeyond)).
  reflexivity.
Qed.

(** X10, witness: over the three bytes "abc", an asset of five bytes at
    offset 1 is read as "bc" and three zeros, and the asset after it, the
    first two bytes of the file, as two zeros; with the hash of the two
    zeros stored for it, the second asset passes. *)
Lemma verify_after_short_read_witness :
  exists s' : ifstream,
    verify_loop Sample.byte_sum
      [ BBFAssetEntry.mk 1 5 0 2; BBFAssetEntry.mk 0 2 0 2 ] 0
      (mk_ifstream true (bytes_of "abc") 3 false) true
      (book_world 195 300)
    = (Some (s', false), eprint (mismatch_line 0) (book_world 195 300)).
Proof.
  destruct (verify_after_short_read Sample.byte_sum
              (BBFAssetEntry.mk 1 5 0 2) [ BBFAssetEntry.mk 0 2 0 2 ] 0
              (mk_ifstream true (bytes_of "abc") 3 false) true
              (book_world 195 300))
    as [s' Hrun];
    [reflexivity | cbn; lia | cbn; lia | by_evaluation
     | each_by_evaluation |].
  exists s'. rewrite Hrun. by_evaluation.
Defined.

(** ** What the read modes do to the world *)

Lemma info_sections_world (r : BBFReader) (sections : list BBFSection.t) :
  forall w w' : world,
    info_sections r sections w = Some w' ->
    same_files w w' /\ cerr w' = cerr w
    /\ length (cout w') = (length (cout w) + length sections)%nat.
Proof.
  induction sections as [|s rest IH]; intros w w' Hrun; cbn in Hrun.
  - injection Hrun as <-. repeat split. cbn. lia.
  - destruct (getString r _) as [title|]; [| discriminate].
    apply IH in Hrun as ([Hf Hd] & He & Hc).
    cbn in Hf, Hd, He, Hc. rewrite length_app in Hc. cbn in Hc.
    repeat split; try assumption. cbn [length]. lia.
Qed.

Lemma info_metadata_world (r : BBFReader) (metadata : list BBFMetadata.t) :
  forall w w' : world,
    info_metadata r metadata w = Some w' ->
    same_files w w' /\ cerr w' = cerr w
    /\ length (cout w') = (length (cout w) + length metadata)%nat.
Proof.
  induction metadata as [|m rest IH]; intros w w' Hrun; cbn in Hrun.
  - injection Hrun as <-. repeat split. cbn. lia.
  - destruct (getString r (BBFMetadata.keyOffset m)) as [key|];
      [| discriminate].
    destruct (getString r (BBFMetadata.valOffset m)) as [val|];
      [| discriminate].
    apply IH in Hrun as ([Hf Hd] & He & Hc).
    cbn in Hf, Hd, He, Hc. rewrite length_app in Hc. cbn in Hc.
    repeat split; try assumption. cbn [length]. lia.
Qed.

Lemma info_sections_runs (r : BBFReader) (sections : list BBFSection.t) :
  stringPool r = [] \/ last (stringPool r) = Some NUL ->
  forall w : world, is_Some (info_sections r sections w).
Proof.
  intros Hpool. induction sections as [|s rest IH]; intros w; cbn.
  - eauto.
  - destruct (getString_terminated_pool r (BBFSection.sectionTitleOffset s)
                Hpool) as [title ->].
    apply IH.
Qed.

Lemma info_metadata_runs (r : BBFReader) (metadata : list BBFMetadata.t) :
  stringPool r = [] \/ last (stringPool r) = Some NUL ->
  forall w : world, is_Some (info_metadata r metadata w).
Proof.
  intros Hpool. induction metadata as [|m rest IH]; intros w; cbn.
  - eauto.
  - destruct (getString_terminated_pool r (BBFMetadata.keyOffset m) Hpool)
      as [key ->].
    destruct (getString_terminated_pool r (BBFMetadata.valOffset m) Hpool)
      as [val ->].
    apply IH.
Qed.

Lemma getSections_result (L : Layout) (r : BBFReader) :
  exists s : ifstream,
    snd (getSections L r) = set_stream s r
    /\ length (fst (getSections L r))
       = Z.to_nat (BBFFooter.sectionCount (footer L r)).
Proof.
  rewrite getSections_eq. cbv zeta. cbn [fst snd]. eexists. split; [reflexivity|].
  by rewrite length_fmap, read_table_length.
Qed.

Lemma getMetadata_result (L : Layout) (r : BBFReader) :
  exists s : ifstream,
    snd (getMetadata L r) = set_stream s r
    /\ length (fst (getMetadata L r))
       = Z.to_nat (BBFFooter.keyCount (footer L r)).
Proof.
  rewrite getMetadata_eq.
  destruct (Z.ltb_spec 0 (BBFFooter.keyCount (footer L r))) as [Hpos|Hz].
  - cbv zeta. cbn [fst snd]. eexists. split; [reflexivity|].
    by rewrite length_fmap, read_table_length.
  - exists (stream r). split; [by destruct r|]. cbn [fst length]. lia.
Qed.

(** The two ways [do_info] can end: it completes, having written to
    [cout] eight times and once per section and per metadata pair (or the
    line that says there is none), or a string lookup ran off the pool. *)
Lemma do_info_cases (L : Layout) (r : BBFReader) (w : world) :
  (exists (r' : BBFReader) (w' : world),
     do_info L r w = Next r' w'
     /\ same_book r r' /\ same_files w w' /\ cerr w' = cerr w
     /\ Z.of_nat (length (cout w'))
        = Z.of_nat (length (cout w)) + 8
          + Z.max 1 (BBFFooter.sectionCount (footer L r))
          + Z.max 1 (BBFFooter.keyCount (footer L r)))
  \/ (exists w' : world,
        do_info L r w = Stop Undefined w'
        /\ same_files w w'
        /\ ~ (stringPool r = [] \/ last (stringPool r) = Some NUL)).
Proof.
  unfold do_info. cbv zeta.
  destruct (getSections_result L r) as (s1 & Hr1 & Hlen1).
  destruct (getSections L r) as [sections r1]. cbn [fst snd] in Hr1, Hlen1.
  subst r1.
  set (w6 := print (nl +:+ "[Sections]" +:+ nl) _).
  assert (Hw6 : same_files w w6 /\ cerr w6 = cerr w
                /\ length (cout w6) = (length (cout w) + 6)%nat).
  { subst w6. cbn. rewrite !length_app. cbn. repeat split. lia. }
  destruct Hw6 as ([Hf6 Hd6] & He6 & Hc6). clearbody w6.
  assert (Hsec :
    match (match sections with
           | [] => Some (print (" No sections defined." +:+ nl) w6)
           | _ :: _ => info_sections (set_stream s1 r) sections w6
           end) with
    | Some w7 =>
        same_files w w7 /\ cerr w7 = cerr w
        /\ Z.of_nat (length (cout w7))
           = Z.of_nat (length (cout w)) + 6
             + Z.max 1 (BBFFooter.sectionCount (footer L r))
    | None => ~ (stringPool r = [] \/ last (stringPool r) = Some NUL)
    end).
  { destruct sections as [|s0 rest].
    - cbn [length] in Hlen1. unfold same_files.
      cbn [print files dirs cerr cout]. rewrite length_app. cbn [length].
      rewrite Hf6, Hd6, He6. repeat split. lia.
    - destruct (info_sections _ (s0 :: rest) w6) as [w7|] eqn:Hrun.
      + apply info_sections_world in Hrun as ([Hf Hd] & He & Hc).
        unfold same_files. rewrite Hf, Hd, He, Hf6, Hd6, He6.
        repeat split. cbn [length] in *. lia.
      + intros Hpool.
        destruct (info_sections_runs (set_stream s1 r) (s0 :: rest) Hpool w6)
          as [w7 Hw7].
        congruence. }
  destruct (match sections with [] => _ | _ => _ end) as [w7|].
  2: { right. eexists. split; [reflexivity|]. split; [|exact Hsec].
       split; assumption. }
  destruct Hsec as ([Hf7 Hd7] & He7 & Hc7).
  destruct (getMetadata_result L (set_stream s1 r)) as (s2 & Hr2 & Hlen2).
  destruct (getMetadata L (set_stream s1 r)) as [metadata r2].
  cbn [fst snd] in Hr2, Hlen2. subst r2.
  change (footer L (set_stream s1 r)) with (footer L r) in Hlen2.
  set (w8 := print (nl +:+ "[Metadata]" +:+ nl) w7).
  assert (Hw8 : same_files w w8 /\ cerr w8 = cerr w
                /\ Z.of_nat (length (cout w8))
                   = Z.of_nat (length (cout w)) + 7
                     + Z.max 1 (BBFFooter.sectionCount (footer L r))).
  { subst w8. unfold same_files. cbn [print files dirs cerr cout].
    rewrite length_app. cbn [length].
    repeat split; try assumption. lia. }
  destruct Hw8 as ([Hf8 Hd8] & He8 & Hc8). clearbody w8.
  assert (Hmeta :
    match (match metadata with
           | [] => Some (print (" No metadata found." +:+ nl) w8)
           | _ :: _ =>
               info_metadata (set_stream s2 (set_stream s1 r)) metadata w8
           end) with
    | Some w9 =>
        same_files w w9 /\ cerr w9 = cerr w
        /\ Z.of_nat (length (cout w9))
           = Z.of_nat (length (cout w)) + 7
             + Z.max 1 (BBFFooter.sectionCount (footer L r))
             + Z.max 1 (BBFFooter.keyCount (footer L r))
    | None => ~ (stringPool r = [] \/ last (stringPool r) = Some NUL)
    end).
  { destruct metadata as [|m0 rest].
    - cbn [length] in Hlen2. unfold same_files.
      cbn [print files dirs cerr cout]. rewrite !length_app. cbn [length].
      rewrite Hf8, Hd8, He8. repeat split. lia.
    - destruct (info_metadata _ (m0 :: rest) w8) as [w9|] eqn:Hrun.
      + apply info_metadata_world in Hrun as ([Hf Hd] & He & Hc).
        unfold same_files. rewrite Hf, Hd, He, Hf8, Hd8, He8.
        repeat split. cbn [length] in *. lia.
      + intros Hpool.
        destruct (info_metadata_runs (set_stream s2 (set_stream s1 r))
                    (m0 :: rest) Hpool w8) as [w9 Hw9].
        congruence. }
  destruct (match metadata with [] => _ | _ => _ end) as [w9|].
  - left. destruct Hmeta as ([Hf9 Hd9] & He9 & Hc9).
    eexists _, _. split; [reflexivity|].
    split; [repeat split|]. split; [split; assumption|].
    split; [assumption|]. cbn [print files dirs cerr cout].
    rewrite length_app. cbn [length]. lia.
  - right. eexists. split; [reflexivity|]. split; [|exact Hmeta].
    split; assumption.
Qed.

(** X11: on a reader whose string pool is empty or ends in a terminator,
    the info block always completes: no lookup of a title, key or value
    runs off the pool, whatever offsets the tables hold.  It writes to
    [cout] eight times apart from the two lists, and once per section and
    once per metadata pair (once each when there is none), writes nothing
    to [cerr] and leaves the file system and the reader's header, footer
    and pool as they were. *)
Theorem info_completes (L : Layout) (r : BBFReader) (w : world) :
  stringPool r = [] \/ last (stringPool r) = Some NUL ->
  exists (r' : BBFReader) (w' : world),
    do_info L r w = Next r' w'
    /\ same_book r r' /\ same_files w w' /\ cerr w' = cerr w
    /\ Z.of_nat (length (cout w'))
       = Z.of_nat (length (cout w)) + 8
         + Z.max 1 (BBFFooter.sectionCount (footer L r))
         + Z.max 1 (BBFFooter.keyCount (footer L r)).
Proof.
  intros Hpool.
  destruct (do_info_cases L r w) as [Hdone | (w' & _ & _ & Hbad)];
    [exact Hdone | contradiction].
Qed.

(** X11, witness: the sample book has two sections and one metadata pair,
    so info writes to [cout] eleven times. *)
Lemma info_completes_witness :
  exists (r' : BBFReader) (w' : world),
    do_info Sample.layout (book_reader 195 300) (book_world 195 300)
      = Next r' w'
    /\ Z.of_nat (length (cout w')) = 11.
Proof.
  destruct (info_completes Sample.layout (book_reader 195 300)
              (book_world 195 300))
    as (r' & w' & Hrun & _ & _ & _ & Hlines); [right; by_evaluation|].
  exists r', w'. split; [exact Hrun|].
  rewrite Hlines. by_evaluation.
Defined.

Lemma do_verify_files (L : Layout) (XXH3_64bits : list ascii -> Z)
    (r : BBFReader) (w : world) :
  same_files w (world_of (do_verify L XXH3_64bits r w)).
Proof.
  unfold do_verify. destruct (getAssets L r) as [assets r1].
  destruct (verify_loop_files XXH3_64bits assets 0 (stream r1) true
              (print ("Verifying asset integrity..." +:+ nl) w))
    as ([Hf Hd] & _).
  destruct (verify_loop _ _ _ _ _ _) as [[[s clean]|] w1];
    cbn [snd] in Hf, Hd; [destruct clean|]; by split.
Qed.

Lemma do_info_files (L : Layout) (r : BBFReader) (w : world) :
  same_files w (world_of (do_info L r w)).
Proof.
  destruct (do_info_cases L r w)
    as [(r' & w' & -> & _ & Hsame & _) | (w' & -> & Hsame & _)];
    exact Hsame.
Qed.

Lemma when_same_files (flag : bool) (action : BBFReader -> world -> step)
    (st : step) (w0 : world) :
  (forall r w, same_files w (world_of (action r w))) ->
  same_files w0 (world_of st) ->
  same_files w0 (world_of (when flag action st)).
Proof.
  intros Haction Hst. destruct st as [r w|oc w]; [| exact Hst].
  destruct flag; [| exact Hst]. cbn [when].
  destruct (Haction r w) as [Hf Hd]. destruct Hst as [Hf0 Hd0].
  cbn [world_of] in Hf0, Hd0. split; congruence.
Qed.

Lemma when_false (action : BBFReader -> world -> step) (st : step) :
  when false action st = st.
Proof. by destruct st. Qed.

(** X12: a run in which "--info" or "--verify" is given and "--extract"
    is not never creates, changes or removes a file or a directory,
    however it ends (no input, a container that does not open, a lookup
    off the string pool, or a complete pass). *)
Theorem read_modes_keep_files (L : Layout) (XXH3_64bits : list ascii -> Z)
    (B : BuilderIO) (stack_mem : nat -> ascii) (args : list string)
    (w : world) (o : options) :
  parse_args (tail args) initial_options = Some o ->
  modeExtract o = false ->
  modeInfo o || modeVerify o = true ->
  same_files w (snd (main L XXH3_64bits B stack_mem args w)).
Proof.
  intros Hparse Hex Hmode. unfold main.
  destruct (Z.ltb_spec (Z.of_nat (length args)) 2) as [Hlt|_].
  { split; reflexivity. }
  rewrite Hparse, Hex, orb_false_r, Hmode. unfold do_read.
  destruct (inputs o) as [|path rest]; [split; reflexivity|].
  destruct (open L path (files w) (dirs w) _) as [[[|]|] reader];
    [| split; reflexivity | split; reflexivity].
  rewrite Hex, when_false.
  match goal with
  | |- same_files _ (snd (match ?st with _ => _ end)) =>
      assert (Hst : same_files w (world_of st)); [| by destruct st]
  end.
  apply when_same_files; [apply do_verify_files|].
  apply when_same_files; [apply do_info_files|].
  split; reflexivity.
Qed.

(** X12, witness: "--info --verify" on the sample book. *)
Lemma read_modes_keep_files_witness :
  same_files (book_world 195 300)
    (snd (main Sample.layout Sample.byte_sum (Sample.builder_io true)
            Sample.stack_mem ["bbfmux"; "b.bbf"; "--info"; "--verify"]
            (book_world 195 300))).
Proof.
  apply (read_modes_keep_files Sample.layout Sample.byte_sum
           (Sample.builder_io true) Sample.stack_mem
           ["bbfmux"; "b.bbf"; "--info"; "--verify"] (book_world 195 300)
           (default initial_options
              (parse_args ["b.bbf"; "--info"; "--verify"] initial_options)));
    by_evaluation.
Defined.

(** ** Exit codes *)

Lemma do_info_no_exit (L : Layout) (r : BBFReader) (w : world) :
  exit_code_of (do_info L r w) = None.
Proof.
  destruct (do_info_cases L r w)
    as [(r' & w' & -> & _) | (w' & -> & _)]; reflexivity.
Qed.

Lemma do_verify_no_exit (L : Layout) (XXH3_64bits : list ascii -> Z)
    (r : BBFReader) (w : world) :
  exit_code_of (do_verify L XXH3_64bits r w) = None.
Proof.
  by destruct (do_verify_step L XXH3_64bits r w)
    as [(r' & w' & ->) | (w' & ->)].
Qed.

Lemma do_extract_exit (L : Layout) (dir target : string) (r : BBFReader)
    (w : world) (c : Z) :
  exit_code_of (do_extract L dir target r w) = Some c -> c = 1.
Proof.
  unfold do_extract.
  destruct (create_directories dir w) as [w1|]; [| discriminate].
  destruct (getPages L r) as [pages r1].
  destruct (getAssets L r1) as [assets r2].
  destruct (getSections L r2) as [sections r3]. cbv zeta.
  destruct (if negb _ then _ else _) as [start end_| |];
    [| cbn; congruence | discriminate].
  destruct (extract_pages _ _ _ _ _ _ _) as [s w2|w2|]; discriminate.
Qed.

Lemma when_exit (flag : bool) (action : BBFReader -> world -> step)
    (st : step) (c : Z) :
  exit_code_of (when flag action st) = Some c ->
  exit_code_of st = Some c
  \/ exists r w, exit_code_of (action r w) = Some c.
Proof.
  destruct st as [r w|oc w]; [| by left]. destruct flag; [| by left].
  cbn [when]. right. by exists r, w.
Qed.

(** X13: whenever [main] returns, it returns 0 or 1; no mode has another
    exit code. *)
Theorem main_exit_codes (L : Layout) (XXH3_64bits : list ascii -> Z)
    (B : BuilderIO) (stack_mem : nat -> ascii) (args : list string)
    (w : world) (c : Z) :
  fst (main L XXH3_64bits B stack_mem args w) = Exit c -> c = 0 \/ c = 1.
Proof.
  unfold main.
  destruct (Z.of_nat (length args) <? 2); [cbn; intros [= <-]; by right|].
  destruct (parse_args _ _) as [o|]; [| discriminate].
  destruct (_ || _).
  - unfold do_read.
    destruct (inputs o) as [|path rest]; [cbn; intros [= <-]; by right|].
    destruct (open L path (files w) (dirs w) _) as [[[|]|] reader];
      [| cbn; intros [= <-]; by right | discriminate].
    match goal with
    | |- fst (match ?st with _ => _ end) = _ -> _ =>
        destruct st as [r1 w1|oc w1] eqn:Hst
    end; cbn [fst]; [intros [= <-]; by left|].
    intros ->. right.
    assert (Hcode : exit_code_of
              (when (modeExtract o)
                 (do_extract L (outDir o) (targetSection o))
                 (when (modeVerify o) (do_verify L XXH3_64bits)
                    (when (modeInfo o) (do_info L) (Next reader w))))
            = Some c) by (rewrite Hst; reflexivity).
    apply when_exit in Hcode as [Hcode | (r & w' & Hcode)];
      [| by apply do_extract_exit in Hcode].
    apply when_exit in Hcode as [Hcode | (r & w' & Hcode)];
      [| by rewrite do_verify_no_exit in Hcode].
    apply when_exit in Hcode as [Hcode | (r & w' & Hcode)];
      [discriminate | by rewrite do_info_no_exit in Hcode].
  - unfold do_mux.
    destruct (_ <? 2); [cbn; intros [= <-]; by right|].
    destruct (mux_build B o w) as [builder w1].
    destruct (finalize B builder w1) as [ok w2].
    cbn. intros [= <-]. by left.
Qed.

(** X13, witness: verify of the sample book returns 0. *)
Lemma main_exit_codes_witness :
  fst (main Sample.layout Sample.byte_sum (Sample.builder_io true)
         Sample.stack_mem ["bbfmux"; "b.bbf"; "--verify"]
         (book_world 195 300)) = Exit 0
  /\ (0 = 0 \/ 0 = 1).
Proof.
  assert (Hrun :
    fst (main Sample.layout Sample.byte_sum (Sample.builder_io true)
           Sample.stack_mem ["bbfmux"; "b.bbf"; "--verify"]
           (book_world 195 300)) = Exit 0) by by_evaluation.
  split; [exact Hrun|].
  exact (main_exit_codes _ _ _ _ _ _ 0 Hrun).
Defined.

(** ** Extract: the page files and what they hold *)








Lemma write_file_frame (p0 : string) (bytes : list ascii) (w : world) :
  cout (write_file p0 bytes w) = cout w
  /\ cerr (write_file p0 bytes w) = cerr w
  /\ forall p, p <> p0 -> files (write_file p0 bytes w) !! p = files w !! p.
Proof.
  unfold write_file. case_bool_decide; cbn; repeat split.
  intros p Hne. by rewrite lookup_insert_ne.
Qed.

(** The loop of extract writes to the page files of its range and does
    nothing else to the world. *)
Lemma extract_pages_frame (outDir : string) (pages : list BBFPageEntry.t)
    (assets : list BBFAssetEntry.t) :
  forall (n : nat) (start : Z) (s : ifstream) (w : world)
         (s' : ifstream) (w' : world),
    extract_pages n start outDir pages assets s w = Extracted s' w' ->
    dirs w' = dirs w /\ cout w' = cout w /\ cerr w' = cerr w
    /\ forall p : string,
         (forall i : Z, start <= i < start + Z.of_nat n ->
            page_file outDir pages assets i <> Some p) ->
         files w' !! p = files w !! p.
Proof.
  induction n as [|n IH]; intros start s w s' w' Hrun.
  - injection Hrun as <- <-. by repeat split.
  - cbn [extract_pages] in Hrun.
    destruct (pages !! Z.to_nat start) as [page|] eqn:Hpage; [|discriminate].
    destruct (assets !! Z.to_nat (BBFPageEntry.assetIndex page))
      as [asset|] eqn:Hasset; [|discriminate].
    rewrite page_ext_tag in Hrun.
    destruct (read_asset asset s) as [[buf s1]|]; [|discriminate].
    apply IH in Hrun as (Hd & Hc & He & Hfr).
    rewrite dirs_write_file in Hd.
    destruct (write_file_frame
                (path_join outDir
                   ("page_" +:+ to_string (u32 (start + 1)) +:+
                    (if bool_decide (BBFAssetEntry.type asset = 1)
                     then ".avif" else ".png")))
                (take (Z.to_nat (to_streamoff (BBFAssetEntry.length asset)))
                   buf) w) as (Hc1 & He1 & Hf1).
    split; [exact Hd|]. split; [congruence|]. split; [congruence|].
    intros p Hother. rewrite Hfr.
    + apply Hf1. intros ->. apply (Hother start); [lia|].
      unfold page_file. by rewrite Hpage, Hasset.
    + intros i Hi. apply Hother. lia.
Qed.

(** X14: whatever the tables hold, a run of the extract loop that
    completes writes to no path other than the page files of its range:
    every other file keeps its contents (or stays absent), and the
    directories and the two output streams are as before. *)
Theorem extract_touches_only_page_files (outDir : string)
    (pages : list BBFPageEntry.t) (assets : list BBFAssetEntry.t)
    (n : nat) (start : Z) (s s' : ifstream) (w w' : world) (p : string) :
  extract_pages n start outDir pages assets s w = Extracted s' w' ->
  (forall i : Z, start <= i < start + Z.of_nat n ->
     page_file outDir pages assets i <> Some p) ->
  files w' !! p = files w !! p
  /\ dirs w' = dirs w /\ cout w' = cout w /\ cerr w' = cerr w.
Proof.
  intros Hrun Hother.
  destruct (extract_pages_frame outDir pages assets n start s w s' w' Hrun)
    as (Hd & Hc & He & Hfr).
  split; [by apply Hfr | by repeat split].
Qed.

(** X14, witness: extracting the two pages of the sample book into "out"
    leaves the book itself as it was. *)
Lemma extract_touches_only_page_files_witness :
  exists (s' : ifstream) (w' : world),
    extract_pages 2 0 "out" book_pages book_assets
      (stream (book_reader 195 300)) (book_world 195 300) = Extracted s' w'
    /\ files w' !! "b.bbf" = Some (Sample.book 195 300).
Proof.
  assert (Hrun : exists (s' : ifstream) (w' : world),
    extract_pages 2 0 "out" book_pages book_assets
      (stream (book_reader 195 300)) (book_world 195 300) = Extracted s' w')
    by (eexists _, _; by_evaluation).
  destruct Hrun as (s' & w' & Hrun). exists s', w'. split; [exact Hrun|].
  destruct (extract_touches_only_page_files "out" book_pages book_assets
              2 0 _ s' _ w' "b.bbf" Hrun) as [Hfile _].
  - intros i Hi.
    assert (i = 0 \/ i = 1) as [-> | ->] by lia; by_evaluation.
  - rewrite Hfile. by_evaluation.
Defined.




(** ** Extract: the whole book *)

(** With a vector to be had for every asset, the loop of extract
    completes exactly when every page of its range, and the asset of every
    such page, exists; otherwise it indexes a vector out of range. *)
Lemma extract_pages_cases (outDir : string) (pages : list BBFPageEntry.t)
    (assets : list BBFAssetEntry.t) (n : nat) :
  Forall length_fits assets ->
  forall (start : Z) (s : ifstream) (w : world),
    match extract_pages n start outDir pages assets s w with
    | Extracted _ _ =>
        forall i : Z, start <= i < start + Z.of_nat n ->
          is_Some (page_file outDir pages assets i)
    | ExtractThrew _ => False
    | ExtractUndefined =>
        ~ forall i : Z, start <= i < start + Z.of_nat n ->
            is_Some (page_file outDir pages assets i)
    end.
Proof.
  intros Hfits. induction n as [|n IH]; intros start s w.
  - cbn [extract_pages]. intros i Hi. lia.
  - cbn [extract_pages].
    destruct (pages !! Z.to_nat start) as [page|] eqn:Hpage.
    2: { intros Hall. destruct (Hall start) as [p Hp]; [lia|].
         unfold page_file in Hp. by rewrite Hpage in Hp. }
    destruct (assets !! Z.to_nat (BBFPageEntry.assetIndex page))
      as [asset|] eqn:Hasset.
    2: { intros Hall. destruct (Hall start) as [p Hp]; [lia|].
         unfold page_file in Hp. by rewrite Hpage, Hasset in Hp. }
    rewrite (read_asset_fits asset s (Forall_lookup_1 _ _ _ _ Hfits Hasset)).
    destruct (fill_buffer asset s) as [buf s1].
    match goal with
    | |- match extract_pages n (start + 1) outDir pages assets s1 ?w1
         with _ => _ end =>
        pose proof (IH (start + 1) s1 w1) as Hrest;
        destruct (extract_pages n (start + 1) outDir pages assets s1 w1)
          as [s' w'|w'|]
    end.
    + intros i Hi. destruct (Z.eq_dec i start) as [->|Hne];
        [| apply Hrest; lia].
      unfold page_file. rewrite Hpage, Hasset. by eexists.
    + exact Hrest.
    + intros Hall. apply Hrest. intros i Hi. apply Hall. lia.
Qed.

Lemma extract_tables_page_count (L : Layout) (r r3 : BBFReader)
    (pages : list BBFPageEntry.t) (assets : list BBFAssetEntry.t)
    (sections : list BBFSection.t) :
  extract_tables L r = (pages, assets, sections, r3) ->
  Z.of_nat (length pages) < 2 ^ 32.
Proof.
  unfold extract_tables. rewrite getPages_eq. cbv beta iota zeta.
  destruct (getAssets L _) as [assets0 r2].
  destruct (getSections L r2) as [sections0 r3'].
  intros [= <- _ _ _]. rewrite length_fmap, read_table_length.
  pose proof (u32_range (ftr_pageCount L (footer_raw r))) as Hr.
  unfold footer, decode_footer. cbn [BBFFooter.pageCount]. lia.
Qed.

Lemma all_pages_have_assets (outDir : string) (pages : list BBFPageEntry.t)
    (assets : list BBFAssetEntry.t) :
  (forall i : Z, 0 <= i < 0 + Z.of_nat (length pages) ->
     is_Some (page_file outDir pages assets i))
  <-> Forall (page_has_asset assets) pages.
Proof.
  rewrite Forall_lookup. unfold page_has_asset, page_file. split.
  - intros Hall i pg Hpg.
    destruct (Hall (Z.of_nat i)) as [p Hp].
    { apply lookup_lt_Some in Hpg. lia. }
    rewrite Nat2Z.id, Hpg in Hp.
    destruct (assets !! Z.to_nat (BBFPageEntry.assetIndex pg)) as [a|] eqn:Ha;
      [| discriminate].
    by apply lookup_lt_Some in Ha.
  - intros Hall i Hi.
    destruct (lookup_lt_is_Some_2 pages (Z.to_nat i)) as [pg Hpg]; [lia|].
    rewrite Hpg.
    destruct (lookup_lt_is_Some_2 assets
                (Z.to_nat (BBFPageEntry.assetIndex pg))) as [a Ha].
    { exact (Hall _ _ Hpg). }
    rewrite Ha. by eexists.
Qed.

(** X16: "--extract" without "--section" takes the whole book, pages 1 to
    the page count.  Once the output directory is there, and with an asset
    table in which a vector can be had for every entry, the block
    completes exactly when the asset index of every page entry lies inside
    the asset table: it then reports the page count on [cout], writes
    nothing to [cerr], and the directories are those there were, the
    output directory and the directories above it.  One page entry with an
    index outside the table makes the run undefined (the index is never
    checked). *)
Theorem extract_whole_book (L : Layout) (dir : string) (r r3 : BBFReader)
    (w w1 : world) (pages : list BBFPageEntry.t)
    (assets : list BBFAssetEntry.t) (sections : list BBFSection.t) :
  create_directories dir w = Some w1 ->
  extract_tables L r = (pages, assets, sections, r3) ->
  Forall length_fits assets ->
  (Forall (page_has_asset assets) pages ->
   exists (r' : BBFReader) (w' : world),
     do_extract L dir EmptyString r w = Next r' w'
     /\ last (cout w')
        = Some ("Extracted " +:+ to_string (Z.of_nat (length pages))
                +:+ " pages." +:+ nl)
     /\ cerr w' = cerr w
     /\ dirs w' = list_to_set (path_chain dir) ∪ dirs w)
  /\ (~ Forall (page_has_asset assets) pages ->
      exists w' : world,
        do_extract L dir EmptyString r w = Stop Undefined w').
Proof.
  intros Hdir Htab Hfits.
  pose proof (extract_tables_page_count L r r3 pages assets sections Htab)
    as Hcount.
  rewrite (do_extract_eq L dir EmptyString r r3 w w1 pages assets sections
             Hdir Htab).
  rewrite (bool_decide_eq_true_2 (EmptyString = EmptyString) eq_refl).
  cbn [negb]. rewrite (u32_small (Z.of_nat (length pages))) by lia.
  rewrite Z.sub_0_r, Nat2Z.id, (u32_small (Z.of_nat (length pages))) by lia.
  set (w2 := print _ w1).
  pose proof (extract_pages_cases dir pages assets (length pages) Hfits 0
                (stream r3) w2) as Hcases.
  destruct (create_directories_world dir w w1 Hdir) as (_ & Hd1 & _ & He1).
  split; intros Hvalid.
  - destruct (extract_pages _ _ _ _ _ _ _) as [s w3|w3|] eqn:Hrun;
      [| contradiction |].
    2: { exfalso. apply Hcases. by apply all_pages_have_assets. }
    destruct (extract_pages_frame _ _ _ _ _ _ _ _ _ Hrun)
      as (Hd & _ & He & _).
    eexists _, _. split; [reflexivity|]. cbn [print cout cerr dirs].
    split; [apply last_snoc|]. split; [by rewrite He | by rewrite Hd].
  - destruct (extract_pages _ _ _ _ _ _ _) as [s w3|w3|] eqn:Hrun;
      [| contradiction | by eexists].
    exfalso. apply Hvalid. by apply (all_pages_have_assets dir).
Qed.

(** X16, witness: the sample book, extracted into "out". *)
Lemma extract_whole_book_witness :
  exists (r' : BBFReader) (w' : world),
    do_extract Sample.layout "out" EmptyString (book_reader 195 300)
      (book_world 195 300) = Next r' w'
    /\ last (cout w') = Some ("Extracted 2 pages." +:+ nl).
Proof.
  destruct (proj1 (extract_whole_book Sample.layout "out"
              (book_reader 195 300)
              (snd (extract_tables Sample.layout (book_reader 195 300)))
              (book_world 195 300)
              (default (book_world 195 300)
                 (create_directories "out" (book_world 195 300)))
              book_pages book_assets
              (snd (fst (extract_tables Sample.layout (book_reader 195 300))))
              ltac:(by_evaluation) ltac:(by_evaluation)
              ltac:(each_by_evaluation)))
    as (r' & w' & Hrun & Hlast & _).
  - repeat first [ apply Forall_nil_2 | apply Forall_cons_2 ];
      unfold page_has_asset; cbn; lia.
  - exists r', w'. split; [exact Hrun|]. rewrite Hlast. by_evaluation.
Defined.

(** ** Muxing: the section records *)

(** The loop of lines 434-444 from a state in which [handled] are the
    requests handled so far, fewer than 2^32 with those to come: the map
    sends each name to the position of the last request so named, and the
    counter is the number of requests handled. *)
Lemma mux_sections_exact (reqs : list SecReq) :
  forall (handled : list SecReq) (m : gmap string Z) (c : Z)
         (b : BBFBuilder) (k : nat) (req : SecReq),
    (forall nm idx, m !! nm = Some idx ->
       exists j rj,
         idx = Z.of_nat j /\ handled !! j = Some rj /\ name rj = nm
         /\ forall j' rj', (j < j')%nat -> handled !! j' = Some rj' ->
              name rj' <> nm) ->
    (forall nm, m !! nm = None ->
       forall rj, rj ∈ handled -> name rj <> nm) ->
    c = Z.of_nat (length handled) ->
    Z.of_nat (length handled + length reqs) <= 2 ^ 32 ->
    reqs !! k = Some req ->
    exists sec : BBFSection.t,
      b_sections (mux_sections reqs m c b) !! (length (b_sections b) + k)%nat
        = Some sec
      /\ BBFSection.sectionStartIndex sec = u32 (page req - 1)
      /\ (parent req = EmptyString ->
          BBFSection.parentSectionIndex sec = NO_PARENT)
      /\ forall j rj,
           (handled ++ take k reqs) !! j = Some rj ->
           name rj = parent req -> parent req <> EmptyString ->
           (forall j' rj', (j < j')%nat ->
              (handled ++ take k reqs) !! j' = Some rj' ->
              name rj' <> parent req) ->
           BBFSection.parentSectionIndex sec = Z.of_nat j.
Proof.
  induction reqs as [|s rest IH];
    intros handled m c b k req Hinv Hnone Hc Hsize Hk; [discriminate|].
  cbn [mux_sections]. cbn [length] in Hsize. destruct k as [|k].
  - injection Hk as ->.
    rewrite mux_sections_lookup_old
      by (rewrite length_sections_addSection, length_app; cbn; lia).
    rewrite length_sections_addSection, Nat.add_0_r.
    rewrite lookup_app_r, Nat.sub_diag by lia.
    eexists. split; [reflexivity|].
    cbn [BBFSection.sectionStartIndex BBFSection.parentSectionIndex].
    split; [apply u32_small, u32_range|]. split.
    + intros ->. by rewrite bool_decide_eq_true_2.
    + intros j rj Hj Hname Hne Hlast.
      rewrite take_0, app_nil_r in Hj, Hlast.
      rewrite (bool_decide_eq_false_2 _ Hne). cbn [negb andb].
      destruct (m !! parent req) as [idx|] eqn:Hm.
      2: { exfalso. apply (Hnone _ Hm rj); [|exact Hname].
           by apply list_elem_of_lookup_2 in Hj. }
      rewrite bool_decide_eq_true_2 by eauto. cbn [from_option id].
      destruct (Hinv _ _ Hm) as (j0 & r0 & -> & Hj0 & Hname0 & Hlast0).
      assert (j0 = j) as ->.
      { destruct (Nat.lt_trichotomy j0 j) as [Hlt|[Heq|Hgt]];
          [| exact Heq |].
        - exfalso. exact (Hlast0 j rj Hlt Hj Hname).
        - exfalso. exact (Hlast j0 r0 Hgt Hj0 Hname0). }
      apply lookup_lt_Some in Hj. apply u32_small. lia.
  - cbn [lookup list_lookup] in Hk.
    assert (Hrest : (1 <= length rest)%nat).
    { apply lookup_lt_Some in Hk. lia. }
    destruct (IH (handled ++ [s]) (<[ name s := c ]> m) (u32 (c + 1))
                (snd (addSection (name s) (u32 (page s - 1))
                        (if negb (bool_decide (parent s = EmptyString))
                            && bool_decide (is_Some (m !! parent s))
                         then default 0 (m !! parent s) else NO_PARENT) b))
                k req) as (sec & Hsec & Hstart & Hempty & Hparent).
    + intros nm idx Hlook.
      destruct (decide (name s = nm)) as [<-|Hne].
      * rewrite lookup_insert_eq in Hlook. injection Hlook as <-.
        exists (length handled), s. split; [exact Hc|].
        split; [by rewrite list_lookup_middle|]. split; [reflexivity|].
        intros j' rj' Hlt Hj'. apply lookup_lt_Some in Hj'.
        rewrite length_app in Hj'. cbn in Hj'. lia.
      * rewrite lookup_insert_ne in Hlook by exact Hne.
        destruct (Hinv _ _ Hlook) as (j & rj & -> & Hj & Hname & Hlast).
        exists j, rj. split; [reflexivity|].
        split; [by apply lookup_app_l_Some|]. split; [exact Hname|].
        intros j' rj' Hlt Hj'.
        apply lookup_snoc_Some in Hj' as [[_ Hj']|[_ <-]];
          [exact (Hlast j' rj' Hlt Hj') | exact Hne].
    + intros nm Hlook rj Hrj.
      destruct (decide (name s = nm)) as [<-|Hne];
        [by rewrite lookup_insert_eq in Hlook|].
      rewrite lookup_insert_ne in Hlook by exact Hne.
      apply elem_of_app in Hrj as [Hrj|Hrj];
        [exact (Hnone _ Hlook rj Hrj)|].
      apply list_elem_of_singleton in Hrj as ->. exact Hne.
    + subst c. rewrite length_app. cbn [length].
      rewrite u32_small by lia. lia.
    + rewrite length_app. cbn [length]. lia.
    + exact Hk.
    + rewrite length_sections_addSection, length_app in Hsec.
      cbn [length] in Hsec.
      replace (length (b_sections b) + 1 + k)%nat
        with (length (b_sections b) + S k)%nat in Hsec by lia.
      exists sec. split; [exact Hsec|]. split; [exact Hstart|].
      split; [exact Hempty|].
      intros j rj Hj Hname Hne Hlast.
      cbn [take] in Hj, Hlast.
      apply (Hparent j rj); try assumption.
      * by rewrite <- app_assoc.
      * intros j' rj' Hlt Hj'. rewrite <- app_assoc in Hj'.
        exact (Hlast j' rj' Hlt Hj').
Qed.

(** X17: what the section loop stores for the request at position [k],
    for fewer than 2^32 requests.  The start index is the page number less
    one as a 32-bit value (page 0 wraps to [0xFFFFFFFF]).  A request with
    an empty parent name has no parent, even when an earlier request has an
    empty name.  Otherwise the parent is the position of the latest earlier
    request that carries the parent's name: when a name is requested
    twice, the later one shadows the earlier one. *)
Theorem mux_sections_records (reqs : list SecReq) (b0 : BBFBuilder)
    (k : nat) (req : SecReq) :
  Z.of_nat (length reqs) <= 2 ^ 32 ->
  reqs !! k = Some req ->
  exists sec : BBFSection.t,
    b_sections (mux_sections reqs ∅ 0 b0) !! (length (b_sections b0) + k)%nat
      = Some sec
    /\ BBFSection.sectionStartIndex sec = u32 (page req - 1)
    /\ (parent req = EmptyString ->
        BBFSection.parentSectionIndex sec = NO_PARENT)
    /\ forall j rj,
         (j < k)%nat -> reqs !! j = Some rj ->
         name rj = parent req -> parent req <> EmptyString ->
         (forall j' rj', (j < j' < k)%nat -> reqs !! j' = Some rj' ->
            name rj' <> parent req) ->
         BBFSection.parentSectionIndex sec = Z.of_nat j.
Proof.
  intros Hsize Hk.
  destruct (mux_sections_exact reqs [] ∅ 0 b0 k req)
    as (sec & Hsec & Hstart & Hempty & Hparent).
  - intros nm idx Hlook. by rewrite lookup_empty in Hlook.
  - intros nm _ rj Hrj. by apply elem_of_nil in Hrj.
  - reflexivity.
  - exact Hsize.
  - exact Hk.
  - exists sec. split; [exact Hsec|]. split; [exact Hstart|].
    split; [exact Hempty|].
    intros j rj Hjk Hj Hname Hne Hlast.
    apply (Hparent j rj); try assumption.
    + cbn [app]. apply lookup_take_Some. by split.
    + intros j' rj' Hlt Hj'. cbn [app] in Hj'.
      apply lookup_take_Some in Hj' as [Hj' Hlt'].
      apply (Hlast j' rj'); [lia | exact Hj'].
Qed.

(** X17, witness: "Part" is requested twice, then "Chapter" under "Part"
    at page 0; the chapter's parent is the second "Part", and its start
    index has wrapped. *)
Lemma mux_sections_records_witness :
  exists sec : BBFSection.t,
    b_sections
      (mux_sections
         [ {| name := "Part"; parent := EmptyString; page := 1 |};
           {| name := "Part"; parent := EmptyString; page := 5 |};
           {| name := "Chapter"; parent := "Part"; page := 0 |} ]
         ∅ 0 new_builder) !! 2%nat = Some sec
    /\ BBFSection.parentSectionIndex sec = 1
    /\ BBFSection.sectionStartIndex sec = 4294967295.
Proof.
  destruct (mux_sections_records
              [ {| name := "Part"; parent := EmptyString; page := 1 |};
                {| name := "Part"; parent := EmptyString; page := 5 |};
                {| name := "Chapter"; parent := "Part"; page := 0 |} ]
              new_builder 2
              {| name := "Chapter"; parent := "Part"; page := 0 |}
              ltac:(by_evaluation) eq_refl)
    as (sec & Hsec & Hstart & _ & Hparent).
  exists sec. split; [exact Hsec|]. split; [| rewrite Hstart; by_evaluation].
  apply (Hparent 1%nat {| name := "Part"; parent := EmptyString; page := 5 |});
    [lia | reflexivity | reflexivity | discriminate |].
  intros j' rj' Hj'. lia.
Defined.

(** ** The argument loop: "--section" and "--extract" *)

Lemma split_colon_no_colon (val : string) :
  has_char ":"%char val = false ->
  forall cur : string, split_colon val cur = [cur +:+ val].
Proof.
  induction val as [|c val IH]; intros Hval cur.
  - cbn. by rewrite string_app_nil_r.
  - cbn [has_char] in Hval. apply orb_false_iff in Hval as [Hc Hval].
    cbn [split_colon]. rewrite Hc, (IH Hval), string_app_assoc.
    by rewrite string_app_cons.
Qed.

Lemma parse_arg_section (val : string) (o : options) :
  parse_arg ("--section=" +:+ val) o =
    match split_colon val EmptyString with
    | [] => Some o
    | p0 :: more =>
        if modeExtract o then Some (set_targetSection (trimQuotes p0) o)
        else
          match more with
          | [] => Some o
          | p1 :: more' =>
              match stoi p1 with
              | None => None
              | Some n =>
                  Some (push_secReq
                          {| name := trimQuotes p0;
                             parent := match more' with
                                       | p2 :: _ => trimQuotes p2
                                       | [] => EmptyString
                                       end;
                             page := u32 n |} o)
              end
          end
    end.
Proof.
  assert (Hval : substr_from 10 ("--section=" +:+ val) = val).
  { unfold substr_from.
    replace (String.length ("--section=" +:+ val) - 10)%nat
      with (String.length val)
      by (rewrite length_string_app; cbn [String.length]; lia).
    change (String.substring 10 (String.length val) ("--section=" +:+ val))
      with (String.substring 0 (String.length val) val).
    apply substring_0_all. }
  unfold parse_arg. rewrite Hval.
  rewrite !(bool_decide_eq_false_2 (_ +:+ val = _)) by discriminate.
  rewrite !find_at_0_prefix.
  change (String.prefix "--outdir=" ("--section=" +:+ val)) with false.
  replace (String.prefix "--section=" ("--section=" +:+ val)) with true
    by (destruct val; reflexivity).
  reflexivity.
Qed.

(** X18: the place of "--section=Name" relative to "--extract" decides
    what it means.  After "--extract" it names the section to extract.
    Before it, a value without a colon is dropped without a message: the
    target section stays as it was, so the whole book is extracted. *)
Theorem section_before_extract_is_dropped (nm : string) (o : options) :
  has_char ":"%char nm = false ->
  modeExtract o = false ->
  parse_args ["--section=" +:+ nm; "--extract"] o
    = Some (set_modes (modeInfo o) (modeVerify o) true o)
  /\ parse_args ["--extract"; "--section=" +:+ nm] o
     = Some (set_targetSection (trimQuotes nm)
               (set_modes (modeInfo o) (modeVerify o) true o)).
Proof.
  intros Hnm Hmode.
  assert (Hextract : forall o1 : options,
            parse_arg "--extract" o1
            = Some (set_modes (modeInfo o1) (modeVerify o1) true o1)).
  { intros o1. unfold parse_arg.
    rewrite (bool_decide_eq_false_2 ("--extract" = "--info"))
      by discriminate.
    rewrite (bool_decide_eq_false_2 ("--extract" = "--verify"))
      by discriminate.
    by rewrite (bool_decide_eq_true_2 ("--extract" = "--extract")). }
  cbn [parse_args].
  rewrite !Hextract, !parse_arg_section, (split_colon_no_colon nm Hnm), Hmode.
  change (EmptyString +:+ nm) with nm. split; reflexivity.
Qed.

(** X18, witness: "Volume 1" before and after "--extract". *)
Lemma section_before_extract_is_dropped_witness :
  (targetSection <$>
     parse_args ["--section=Volume 1"; "--extract"] initial_options)
    = Some EmptyString
  /\ (targetSection <$>
        parse_args ["--extract"; "--section=Volume 1"] initial_options)
     = Some "Volume 1".
Proof.
  destruct (section_before_extract_is_dropped "Volume 1" initial_options
              eq_refl eq_refl) as [Hbefore Hafter].
  change ("--section=" +:+ "Volume 1") with "--section=Volume 1"
    in Hbefore, Hafter.
  rewrite Hbefore, Hafter. split; reflexivity.
Defined.

(** ** Opening a file that is too short *)

Lemma seekg_failed (pos : Z) (s : ifstream) :
  failbit s = true -> seekg pos s = s.
Proof. intros Hf. unfold seekg. by rewrite Hf. Qed.

Lemma stream_read_failed (n : Z) (buf : list ascii) (s : ifstream) :
  failbit s = true -> stream_read n buf s = (buf, s).
Proof. intros Hf. unfold stream_read. by rewrite Hf. Qed.

(** A position before the start of the file, computed in 64-bit unsigned
    arithmetic, is a negative stream offset. *)
Lemma to_streamoff_negative (x : Z) :
  - 2 ^ 63 <= x < 0 -> to_streamoff (u64 x) = x.
Proof.
  intros Hx. unfold to_streamoff, u64. cbv zeta. rewrite Z.mod_mod by lia.
  assert (Hmod : x mod 2 ^ 64 = x + 2 ^ 64).
  { symmetry. apply (Z.mod_unique x (2 ^ 64) (-1)); lia. }
  rewrite Hmod. destruct (Z.ltb_spec (x + 2 ^ 64) (2 ^ 63)); lia.
Qed.

Lemma seekg_before_start (x : Z) (s : ifstream) :
  - 2 ^ 63 <= x < 0 -> failbit (seekg (u64 x) s) = true.
Proof.
  intros Hx. unfold seekg. destruct (failbit s) eqn:Hf; [exact Hf|].
  cbv zeta. rewrite to_streamoff_negative by exact Hx.
  destruct (Z.ltb_spec x 0); [reflexivity | lia].
Qed.

(** X19: a file shorter than a footer is not noticed as such.  The seek to
    the footer (or already the read of the header) fails, every later read
    does nothing, and nobody looks at the stream state: the footer the
    reader holds is what the memory held before [open], and [open] answers
    on the magic found there.  When it answers yes, the string pool is a
    run of zeros whose length comes from those stale bytes. *)
Theorem open_truncated_file (L : Layout) (stack_mem : nat -> ascii)
    (files : gmap string (list ascii)) (dirs : gset string) (path : string)
    (bytes : list ascii) :
  files !! path = Some bytes ->
  (length bytes < sizeof_BBFFooter L)%nat ->
  Z.of_nat (sizeof_BBFFooter L) < 2 ^ 63 ->
  footer_raw (snd (open L path files dirs (fresh_reader L stack_mem)))
    = footer_raw (fresh_reader L stack_mem)
  /\ (fst (open L path files dirs (fresh_reader L stack_mem)) = Some true ->
      failbit (stream (snd (open L path files dirs (fresh_reader L stack_mem))))
        = true
      /\ stringPool (snd (open L path files dirs (fresh_reader L stack_mem)))
         = zeros (u64 (BBFFooter.assetTableOffset
                         (footer L (fresh_reader L stack_mem))
                       - BBFFooter.stringPoolOffset
                           (footer L (fresh_reader L stack_mem))))).
Proof.
  intros Hsome Hshort Hf63. unfold open.
  rewrite (stream_open_found _ _ _ _ Hsome). cbn [is_open negb].
  unfold tellg. cbn [failbit gpos].
  rewrite (u64_small (Z.of_nat (length bytes))) by lia.
  destruct (stream_read (Z.of_nat (sizeof_BBFHeader L)) _ _) as [hraw s2].
  pose proof (seekg_before_start
                (Z.of_nat (length bytes) - Z.of_nat (sizeof_BBFFooter L)) s2
                ltac:(lia)) as Hs3.
  set (s3 := seekg _ s2) in *. clearbody s3.
  case_bool_decide; cbn [negb]; [| split; [reflexivity | discriminate]].
  rewrite (stream_read_failed _ _ s3 Hs3).
  case_bool_decide; cbn [negb]; [| split; [reflexivity | discriminate]].
  destruct (max_size <? _); [split; [reflexivity | discriminate]|].
  rewrite seekg_failed by exact Hs3.
  rewrite (stream_read_failed _ _ s3 Hs3).
  cbn [fst snd footer_raw stream stringPool]. split; [reflexivity|].
  intros _. split; [exact Hs3|].
  unfold footer. cbn [footer_raw stringPool fresh_reader].
  apply resize_nil.
Qed.

(** X19, witness: a file of the five header bytes opens when the stack
    happens to hold "BBF1" where the footer is placed, and the reader's
    footer is those stack bytes. *)
Lemma open_truncated_file_witness :
  footer_raw (snd (open Sample.layout "h.bbf" header_only ∅
                     (fresh_reader Sample.layout stale_stack)))
    = stale_stack <$> seq 0 60
  /\ fst (open Sample.layout "h.bbf" header_only ∅
            (fresh_reader Sample.layout stale_stack)) = Some true.
Proof.
  split; [| by_evaluation].
  apply (open_truncated_file Sample.layout stale_stack header_only ∅ "h.bbf"
           (bytes_of "BBF1" ++ Sample.le_bytes 1 1));
    [reflexivity | vm_compute; lia | by_evaluation].
Defined.

(** ** The argument loop: section requests *)

Lemma split_colon_app (a b : string) :
  has_char ":"%char a = false ->
  forall cur : string,
    split_colon (a +:+ ":" +:+ b) cur
    = (cur +:+ a) :: split_colon b EmptyString.
Proof.
  change (":" +:+ b) with (String ":"%char b).
  induction a as [|c a IH]; intros Ha cur.
  - cbn. by rewrite string_app_nil_r.
  - cbn [has_char] in Ha. apply orb_false_iff in Ha as [Hc Ha].
    rewrite string_app_cons. cbn [split_colon].
    rewrite Hc, (IH Ha), string_app_assoc. by rewrite string_app_cons.
Qed.

(** X20: how a section request is read when "--extract" has not been seen.
    "--section=Name:Page" and "--section=Name:Page:Parent" add one request
    with the quotes trimmed off the name and the parent, and the page
    number [std::stoi] reads, converted to 32 bits (so "-1" gives
    [0xFFFFFFFF]); when [std::stoi] throws, the loop ends there with the
    exception.  Parts after the third are ignored. *)
Theorem parse_section_request (nm pg par more : string) (o : options) :
  has_char ":"%char nm = false ->
  has_char ":"%char pg = false ->
  has_char ":"%char par = false ->
  modeExtract o = false ->
  parse_arg ("--section=" +:+ nm +:+ ":" +:+ pg) o
    = (fun n => push_secReq
                  {| name := trimQuotes nm; parent := EmptyString;
                     page := u32 n |} o) <$> stoi pg
  /\ parse_arg ("--section=" +:+ nm +:+ ":" +:+ pg +:+ ":" +:+ par) o
     = (fun n => push_secReq
                   {| name := trimQuotes nm; parent := trimQuotes par;
                      page := u32 n |} o) <$> stoi pg
  /\ parse_arg ("--section=" +:+ nm +:+ ":" +:+ pg +:+ ":" +:+ par
                +:+ ":" +:+ more) o
     = (fun n => push_secReq
                   {| name := trimQuotes nm; parent := trimQuotes par;
                      page := u32 n |} o) <$> stoi pg.
Proof.
  intros Hnm Hpg Hpar Hmode.
  rewrite !parse_arg_section, Hmode.
  rewrite !(split_colon_app nm _ Hnm).
  rewrite !(split_colon_app pg _ Hpg).
  rewrite (split_colon_app par _ Hpar).
  rewrite (split_colon_no_colon pg Hpg), (split_colon_no_colon par Hpar).
  change (EmptyString +:+ ?s) with s.
  destruct (split_colon more EmptyString); destruct (stoi pg); by repeat split.
Qed.

(** X20, witness: a chapter on page 12 under "Volume 1", and a page that
    is not a number. *)
Lemma parse_section_request_witness :
  (secReqs <$> parse_arg "--section=Chapter 1:12:Volume 1" initial_options)
    = Some [ {| name := "Chapter 1"; parent := "Volume 1"; page := 12 |} ]
  /\ parse_arg "--section=Chapter 1:twelve" initial_options = None.
Proof.
  split.
  - destruct (parse_section_request "Chapter 1" "12" "Volume 1" EmptyString
                initial_options eq_refl eq_refl eq_refl eq_refl)
      as (_ & Hthree & _).
    change ("--section=" +:+ "Chapter 1" +:+ ":" +:+ "12" +:+ ":"
            +:+ "Volume 1")
      with "--section=Chapter 1:12:Volume 1" in Hthree.
    rewrite Hthree. by_evaluation.
  - destruct (parse_section_request "Chapter 1" "twelve" EmptyString
                EmptyString initial_options eq_refl eq_refl eq_refl eq_refl)
      as (Htwo & _).
    change ("--section=" +:+ "Chapter 1" +:+ ":" +:+ "twelve")
      with "--section=Chapter 1:twelve" in Htwo.
    rewrite Htwo. by_evaluation.
Defined.

(** ** Muxing: the metadata records *)

Lemma c_str_app (l extra : list ascii) (s : string) :
  c_str l = Some s -> c_str (l ++ extra) = Some s.
Proof.
  revert s. induction l as [|c l IH]; intros s; [discriminate|].
  cbn [c_str app]. case_bool_decide; [exact id|].
  destruct (c_str l) as [t|]; [| discriminate].
  intros [= <-]. by rewrite (IH t eq_refl).
Qed.

(** A string stored at [off] in a pool is found there by [getString] in
    every pool that extends it. *)
Lemma getString_stored (pool extra : list ascii) (s : string) (r : BBFReader) :
  NUL ∉ bytes_of s ->
  Z.of_nat (length pool) < 2 ^ 32 ->
  stringPool r = pool ++ bytes_of s ++ [NUL] ++ extra ->
  getString r (u32 (Z.of_nat (length pool))) = Some s.
Proof.
  intros Hnul Hsize Hpool. unfold getString. cbv zeta.
  rewrite (u32_small (u32 _)) by apply u32_range.
  rewrite u32_small by lia. rewrite Hpool.
  destruct (Z.leb_spec
              (Z.of_nat (length (pool ++ bytes_of s ++ [NUL] ++ extra)))
              (Z.of_nat (length pool))) as [Hle|_].
  { rewrite !length_app in Hle. cbn in Hle. lia. }
  rewrite Nat2Z.id, drop_app_length. by apply c_str_terminated.
Qed.

Lemma mux_metadata_extends (reqs : list MetaReq) :
  forall b : BBFBuilder,
    exists extra : list ascii,
      b_stringPool (mux_metadata reqs b) = b_stringPool b ++ extra.
Proof.
  induction reqs as [|m rest IH]; intros b; cbn [mux_metadata].
  - exists []. by rewrite app_nil_r.
  - destruct (IH (addMetadata (trimQuotes (k m)) (trimQuotes (v m)) b))
      as [extra ->].
    cbn. rewrite <- !app_assoc. by eexists.
Qed.

Lemma mux_metadata_lookup_old (reqs : list MetaReq) :
  forall (b : BBFBuilder) (i : nat),
    (i < length (b_metadata b))%nat ->
    b_metadata (mux_metadata reqs b) !! i = b_metadata b !! i.
Proof.
  induction reqs as [|m rest IH]; intros b i Hi; [reflexivity|].
  cbn [mux_metadata]. rewrite IH.
  - cbn. by apply lookup_app_l.
  - cbn. rewrite length_app. cbn. lia.
Qed.

(** X21: the metadata loop adds one record per "--meta" request, in the
    order of the command line, and what the record points to is the key
    and the value with their quotes trimmed: read back with [getString]
    from the pool the loop leaves (of at most 2^32 bytes), the two offsets
    of record [k] give the trimmed key and value of request [k]. *)
Theorem mux_metadata_records (reqs : list MetaReq) :
  forall (b0 : BBFBuilder) (i : nat) (m : MetaReq) (r : BBFReader),
    reqs !! i = Some m ->
    NUL ∉ bytes_of (trimQuotes (k m)) ->
    NUL ∉ bytes_of (trimQuotes (v m)) ->
    stringPool r = b_stringPool (mux_metadata reqs b0) ->
    Z.of_nat (length (stringPool r)) <= 2 ^ 32 ->
    exists rec : BBFMetadata.t,
      b_metadata (mux_metadata reqs b0) !! (length (b_metadata b0) + i)%nat
        = Some rec
      /\ getString r (BBFMetadata.keyOffset rec) = Some (trimQuotes (k m))
      /\ getString r (BBFMetadata.valOffset rec) = Some (trimQuotes (v m)).
Proof.
  induction reqs as [|m0 rest IH]; intros b0 i m r Hi Hk Hv Hpool Hsize;
    [discriminate|].
  cbn [mux_metadata] in *. destruct i as [|i].
  - injection Hi as ->.
    rewrite mux_metadata_lookup_old by (cbn; rewrite length_app; cbn; lia).
    destruct (mux_metadata_extends rest
                (addMetadata (trimQuotes (k m)) (trimQuotes (v m)) b0))
      as [extra Hext].
    rewrite Hext in Hpool. cbn in Hpool. rewrite Hpool in Hsize.
    rewrite !length_app in Hsize. cbn [length] in Hsize.
    cbn. rewrite Nat.add_0_r, lookup_app_r, Nat.sub_diag by lia.
    eexists. split; [reflexivity|].
    cbn [BBFMetadata.keyOffset BBFMetadata.valOffset]. split.
    + apply (getString_stored _
               (bytes_of (trimQuotes (v m)) ++ [NUL] ++ extra));
        [exact Hk | lia |].
      rewrite Hpool, <- !app_assoc. reflexivity.
    + apply (getString_stored _ extra); [exact Hv | |].
      * rewrite !length_app. cbn [length]. lia.
      * rewrite Hpool, <- !app_assoc. reflexivity.
  - cbn [lookup list_lookup] in Hi.
    destruct (IH (addMetadata (trimQuotes (k m0)) (trimQuotes (v m0)) b0)
                i m r Hi Hk Hv Hpool Hsize) as (rec & Hrec & Hkey & Hval).
    exists rec. split; [| by split].
    cbn in Hrec. rewrite length_app in Hrec. cbn [length] in Hrec.
    replace (length (b_metadata b0) + S i)%nat
      with (length (b_metadata b0) + 1 + i)%nat by lia.
    exact Hrec.
Qed.

(** X21, witness: the request "--meta=Title:" followed by a quoted
    "Akira"; the value is stored without its quotes. *)
Lemma mux_metadata_records_witness :
  exists rec : BBFMetadata.t,
    b_metadata (mux_metadata [ {| k := "Title"; v := quoted "Akira" |} ]
                  new_builder) !! 0%nat = Some rec
    /\ getString
         (reader_with_pool
            (b_stringPool
               (mux_metadata [ {| k := "Title"; v := quoted "Akira" |} ]
                  new_builder)))
         (BBFMetadata.valOffset rec) = Some "Akira".
Proof.
  destruct (mux_metadata_records
              [ {| k := "Title"; v := quoted "Akira" |} ] new_builder 0
              {| k := "Title"; v := quoted "Akira" |}
              (reader_with_pool
                 (b_stringPool
                    (mux_metadata [ {| k := "Title"; v := quoted "Akira" |} ]
                       new_builder)))
              eq_refl ltac:(by_decision) ltac:(by_decision) eq_refl
              ltac:(by_evaluation))
    as (rec & Hrec & _ & Hval).
  exists rec. split; [exact Hrec|]. rewrite Hval. by_evaluation.
Defined.

(** ** The read modes: no container to read *)

Lemma open_missing (L : Layout) (files : gmap string (list ascii))
    (dirs : gset string) (path : string) (r : BBFReader) :
  files !! path = None -> path ∉ dirs ->
  fst (open L path files dirs r) = Some false.
Proof.
  intros Hnone Hnodir. unfold open, stream_open.
  by rewrite Hnone, (bool_decide_eq_false_2 _ Hnodir).
Qed.

(** X22: in a run with "--info", "--verify" or "--extract", the container
    is the first argument that is not an option; further such arguments
    are never looked at.  Without one, and when the first one names
    neither a regular file nor a directory, [main] returns 1 having written
    one line to [cerr] and nothing else: no output on [cout], no directory
    created (not even the output directory of "--extract"). *)
Theorem read_mode_without_container (L : Layout)
    (XXH3_64bits : list ascii -> Z) (B : BuilderIO)
    (stack_mem : nat -> ascii) (args : list string) (w : world)
    (o : options) :
  parse_args (tail args) initial_options = Some o ->
  modeInfo o || modeVerify o || modeExtract o = true ->
  (inputs o = [] ->
   main L XXH3_64bits B stack_mem args w
   = (Exit 1, eprint ("Error: No .bbf input specified." +:+ nl) w))
  /\ (forall path rest,
        inputs o = path :: rest ->
        files w !! path = None -> path ∉ dirs w ->
        main L XXH3_64bits B stack_mem args w
        = (Exit 1, eprint ("Error: Failed to open BBF." +:+ nl) w)).
Proof.
  intros Hparse Hmode.
  assert (Hargs : (Z.of_nat (length args) <? 2) = false).
  { destruct args as [|a0 [|a1 rest]].
    - cbn in Hparse. injection Hparse as <-. discriminate.
    - cbn in Hparse. injection Hparse as <-. discriminate.
    - apply Z.ltb_ge. cbn [length]. lia. }
  unfold main. rewrite Hargs, Hparse, Hmode. unfold do_read. split.
  - by intros ->.
  - intros path rest -> Hnone Hnodir.
    pose proof (open_missing L (files w) (dirs w) path
                  (fresh_reader L stack_mem) Hnone Hnodir) as Hopen.
    destruct (open L path (files w) (dirs w) _) as [ok reader].
    cbn [fst] in Hopen. by subst ok.
Qed.

(** X22, witness: "--extract" on a name that is not there. *)
Lemma read_mode_without_container_witness :
  main Sample.layout Sample.byte_sum (Sample.builder_io true)
    Sample.stack_mem ["bbfmux"; "missing.bbf"; "--extract"]
    (book_world 195 300)
  = (Exit 1,
     eprint ("Error: Failed to open BBF." +:+ nl) (book_world 195 300)).
Proof.
  apply (proj2 (read_mode_without_container Sample.layout Sample.byte_sum
                  (Sample.builder_io true) Sample.stack_mem
                  ["bbfmux"; "missing.bbf"; "--extract"] (book_world 195 300)
                  (default initial_options
                     (parse_args ["missing.bbf"; "--extract"]
                        initial_options))
                  ltac:(by_evaluation) ltac:(by_evaluation))
           "missing.bbf" []);
    [by_evaluation | by_evaluation | by_decision].
Defined.


(** ** Opening a directory *)

Lemma stream_read_empty (n : Z) (buf : list ascii) (s : ifstream) :
  content s = [] ->
  exists s' : ifstream, stream_read n buf s = (buf, s') /\ content s' = [].
Proof.
  intros Hc. unfold stream_read. destruct (failbit s); [by exists s|].
  cbv zeta. rewrite Hc, drop_nil, take_nil. cbn [app length drop].
  eexists. split; reflexivity.
Qed.

(** [open] on a directory. *)
Lemma open_directory_eq (L : Layout) (stack_mem : nat -> ascii)
    (files : gmap string (list ascii)) (dirs : gset string) (path : string) :
  files !! path = None -> path ∈ dirs ->
  exists (s' : ifstream) (pool : list ascii),
    open L path files dirs (fresh_reader L stack_mem)
    = ((if bool_decide
            (BBFHeader.magic (header L (fresh_reader L stack_mem)) = "BBF1")
          && bool_decide
               (BBFFooter.magic (footer L (fresh_reader L stack_mem))
                = "BBF1")
       then
         if max_size
              <? u64 (BBFFooter.assetTableOffset
                        (footer L (fresh_reader L stack_mem))
                      - BBFFooter.stringPoolOffset
                          (footer L (fresh_reader L stack_mem)))
         then None else Some true
       else Some false),
       {| footer_raw := footer_raw (fresh_reader L stack_mem);
          header_raw := header_raw (fresh_reader L stack_mem);
          stream := s'; stringPool := pool |})
    /\ ((if bool_decide
            (BBFHeader.magic (header L (fresh_reader L stack_mem)) = "BBF1")
          && bool_decide
               (BBFFooter.magic (footer L (fresh_reader L stack_mem))
                = "BBF1")
       then
         if max_size
              <? u64 (BBFFooter.assetTableOffset
                        (footer L (fresh_reader L stack_mem))
                      - BBFFooter.stringPoolOffset
                          (footer L (fresh_reader L stack_mem)))
         then None else Some true
       else Some false) = Some true ->
        pool = zeros (u64 (BBFFooter.assetTableOffset
                      (footer L (fresh_reader L stack_mem))
                    - BBFFooter.stringPoolOffset
                        (footer L (fresh_reader L stack_mem))))).
Proof.
  intros Hnone Hdir. unfold open, stream_open.
  rewrite Hnone, (bool_decide_eq_true_2 _ Hdir). cbn [is_open negb].
  destruct (stream_read_empty (Z.of_nat (sizeof_BBFHeader L))
              (header_raw (fresh_reader L stack_mem))
              (seekg 0 (mk_ifstream true [] 0 false)))
    as (s2 & -> & Hc2); [by rewrite content_seekg|].
  unfold header. cbn [header_raw].
  destruct (bool_decide (BBFHeader.magic _ = "BBF1")); cbn [negb andb];
    [| eexists _, _; split; [reflexivity | discriminate]].
  match goal with
  | |- context [stream_read ?n ?b (seekg ?p s2)] =>
      destruct (stream_read_empty n b (seekg p s2))
        as (s4 & -> & Hc4); [by rewrite content_seekg|]
  end.
  unfold footer. cbn [footer_raw].
  destruct (bool_decide (BBFFooter.magic _ = "BBF1")); cbn [negb andb];
    [| eexists _, _; split; [reflexivity | discriminate]].
  destruct (max_size <? _);
    [eexists _, _; split; [reflexivity | discriminate]|].
  cbn [stringPool fresh_reader]. rewrite resize_nil.
  match goal with
  | |- context [stream_read ?n ?b (seekg ?p s4)] =>
      destruct (stream_read_empty n b (seekg p s4))
        as (s6 & -> & Hc6); [by rewrite content_seekg|]
  end.
  eexists _, _. split; reflexivity.
Qed.

(** X23: a directory given as the container is opened like a file, but no
    byte can be read from it and no read is checked: the header and the
    footer of the reader stay what the memory held before [open], and
    [open] answers on the magics found there, as it would for a file (the
    resize of line 61 included).  When it answers yes, the string pool is
    a run of zeros. *)
Theorem open_directory (L : Layout) (stack_mem : nat -> ascii)
    (files : gmap string (list ascii)) (dirs : gset string) (path : string) :
  files !! path = None -> path ∈ dirs ->
  header_raw (snd (open L path files dirs (fresh_reader L stack_mem)))
    = header_raw (fresh_reader L stack_mem)
  /\ footer_raw (snd (open L path files dirs (fresh_reader L stack_mem)))
     = footer_raw (fresh_reader L stack_mem)
  /\ fst (open L path files dirs (fresh_reader L stack_mem))
     = (if bool_decide
            (BBFHeader.magic (header L (fresh_reader L stack_mem)) = "BBF1")
          && bool_decide
               (BBFFooter.magic (footer L (fresh_reader L stack_mem))
                = "BBF1")
       then
         if max_size
              <? u64 (BBFFooter.assetTableOffset
                        (footer L (fresh_reader L stack_mem))
                      - BBFFooter.stringPoolOffset
                          (footer L (fresh_reader L stack_mem)))
         then None else Some true
       else Some false)
  /\ (fst (open L path files dirs (fresh_reader L stack_mem)) = Some true ->
      stringPool (snd (open L path files dirs (fresh_reader L stack_mem)))
      = zeros (u64 (BBFFooter.assetTableOffset
                      (footer L (fresh_reader L stack_mem))
                    - BBFFooter.stringPoolOffset
                        (footer L (fresh_reader L stack_mem))))).
Proof.
  intros Hnone Hdir.
  destruct (open_directory_eq L stack_mem files dirs path Hnone Hdir)
    as (s' & pool & -> & Hpool).
  cbn [fst snd header_raw footer_raw stringPool].
  split; [reflexivity|]. split; [reflexivity|]. split; [reflexivity|].
  exact Hpool.
Qed.

(** X23, witness: over a stack that holds "BBF1" in both places, the
    directory "d" opens as a container, with an empty string pool. *)
Lemma open_directory_witness :
  fst (open Sample.layout "d" ∅ {[ "d" ]}
         (fresh_reader Sample.layout magic_stack)) = Some true
  /\ stringPool (snd (open Sample.layout "d" ∅ {[ "d" ]}
                        (fresh_reader Sample.layout magic_stack))) = [].
Proof.
  destruct (open_directory Sample.layout magic_stack ∅ {[ "d" ]} "d"
              (lookup_empty _) ltac:(by_decision))
    as (_ & _ & Hok & Hpool).
  assert (Hopen : fst (open Sample.layout "d" ∅ {[ "d" ]}
                         (fresh_reader Sample.layout magic_stack))
                  = Some true) by (rewrite Hok; by_evaluation).
  split; [exact Hopen|]. rewrite (Hpool Hopen). by_evaluation.
Defined.
